(** * Truss-bridge influence lines: a shallow embedding of [bridge.py]

    The Python module analyses planar steel truss bridges under a moving
    unit load.  This development embeds its classes ([Node], [Unit],
    [Bridge], [Bridge_64], [Bridge_160]) method by method and proves
    properties of the embedded code.

    Conventions of the embedding.
    - A Python [float] (and a numpy [float64]) is an IEEE-754 binary64
      number: Rocq's primitive [float], whose operations round exactly as
      the hardware does.  A Python [int] is a [Z].
    - A method that can raise returns a [Py.result]; a method that mutates
      its object takes the object and returns the new one next to its value.
    - What the module imports but does not define is a parameter: the libm
      functions [cos], [sin], [atan] and the C [pow] behind [**]
      ([Libm.t]), the helpers of [utils] ([Utils.t]) and
      [numpy.linalg.inv] (a Section variable [inv]).
    - An [OrderedDict] is an association list in insertion order. *)

From Stdlib Require Import ZArith List Bool String Lia.
From Stdlib Require Import PrimFloat FloatOps SpecFloat.
Import ListNotations.
Set Warnings "-inexact-float".

Local Open Scope Z_scope.

Declare Scope py_scope.
Delimit Scope py_scope with py.

(** ** The Python runtime: exceptions, ints and floats *)
Module Py.

Inductive exn : Type :=
| NameError (name : string)
| UnboundLocalError
| AttributeError (attr : string)
| KeyError
| ValueError
| TypeError
| IndexError
| ZeroDivisionError
| OverflowError
| AssertionError
| NotImplementedError
| LinAlgError.

Inductive result (A : Type) : Type :=
| Ok (a : A)
| Raise (e : exn).
Arguments Ok {A} a.
Arguments Raise {A} e.

Definition bind {A B : Type} (r : result A) (k : A -> result B) : result B :=
  match r with
  | Ok a => k a
  | Raise e => Raise e
  end.

(** Reading an attribute that may not have been set on the object. *)
Definition getattr {A : Type} (attr : string) (o : option A) : result A :=
  match o with
  | Some a => Ok a
  | None => Raise (AttributeError attr)
  end.

(** The binary64 nearest to an int [z] (ties to even), an infinity beyond
    the largest float.  It is the conversion of an int that meets a float
    in an arithmetic operation where the int cannot be too large: an
    index of a list, or 8 times the floor of a float divided by 8.  The
    conversions that can fail are [int_to_float] and [int_truediv] below. *)
Definition float_of_int (z : Z) : float :=
  SF2Prim (binary_normalize prec emax z 0 false).

(** The conversion of an int to a float, as [math.sqrt] applies it to an
    int argument: OverflowError when the nearest binary64 would be beyond
    the largest float. *)
Definition int_to_float (z : Z) : result float :=
  let f := float_of_int z in
  if PrimFloat.is_infinity f then Raise OverflowError else Ok f.

(** [a / b] for two ints: the binary64 nearest to the quotient of the
    two integers (ties to even), which is not always the quotient of the
    two converted floats; ZeroDivisionError for a zero divisor and
    OverflowError when the quotient is beyond the largest float.  A zero
    result has the sign of the quotient.  The quotient is taken with at
    least 55 bits and a sticky bit, then rounded once. *)
Definition int_truediv (a b : Z) : result float :=
  if b =? 0 then Raise ZeroDivisionError
  else
    let negate := xorb (a <? 0) (b <? 0) in
    let n := Z.abs a in
    let d := Z.abs b in
    let k := Z.max 0 (Z.log2 d + 56 - Z.log2 n) in
    let q := (n * 2 ^ k) / d in
    let sticky := if (n * 2 ^ k) mod d =? 0 then 0 else 1 in
    let m := 2 * q + sticky in
    let f := SF2Prim (binary_normalize prec emax (if negate then - m else m)
                                       (- k - 1) negate) in
    if PrimFloat.is_infinity f then Raise OverflowError else Ok f.

(** A finite float as an integer mantissa and a binary exponent. *)
Definition mantissa_exponent (x : float) : option (Z * Z) :=
  match Prim2SF x with
  | S754_zero _ => Some (0, 0)
  | S754_finite sg m e => Some (if sg then Zneg m else Zpos m, e)
  | S754_infinity _ | S754_nan => None
  end.

(** [int(x)]: truncation towards zero; ValueError on a NaN and
    OverflowError on an infinity. *)
Definition int (x : float) : result Z :=
  match Prim2SF x with
  | S754_zero _ => Ok 0
  | S754_finite sg m e =>
      let a := if 0 <=? e then Zpos m * 2 ^ e else Z.shiftr (Zpos m) (- e) in
      Ok (if sg then - a else a)
  | S754_infinity _ => Raise OverflowError
  | S754_nan => Raise ValueError
  end.

(** [int(x // d)] for a float [x] and a non-zero int literal [d] (the
    source only writes [point // 8]).  Floor division of a finite float
    by 8 is exact, so the value is the mathematical floor of [x / d];
    for an infinite or NaN [x] the quotient is NaN and [int] raises
    ValueError. *)
Definition int_floordiv (x : float) (d : Z) : result Z :=
  match mantissa_exponent x with
  | Some (n, e) =>
      if d =? 0 then Raise ZeroDivisionError
      else Ok (if 0 <=? e then (n * 2 ^ e) / d else n / (d * 2 ^ (- e)))
  | None => Raise ValueError
  end.

(** Truth value of a float: everything but zero (a NaN is true). *)
Definition truthy (x : float) : bool := negb (PrimFloat.eqb x 0%float).

(** The cache read by [if self._x: return self._x]: the value when the
    attribute is set and true, nothing when it is [None] or zero. *)
Definition if_truthy (o : option float) : option float :=
  match o with
  | Some x => if truthy x then Some x else None
  | None => None
  end.

(** [l[i]] on a list, tuple or array: a negative index counts from the
    end, anything outside raises IndexError. *)
Definition getitem {A : Type} (l : list A) (i : Z) : result A :=
  let n := Z.of_nat (List.length l) in
  let k := if i <? 0 then i + n else i in
  if (0 <=? k) && (k <? n) then
    match nth_error l (Z.to_nat k) with
    | Some a => Ok a
    | None => Raise IndexError
    end
  else Raise IndexError.

Fixpoint replace_nth {A : Type} (l : list A) (k : nat) (v : A) : list A :=
  match l, k with
  | [], _ => []
  | _ :: t, O => v :: t
  | a :: t, S k' => a :: replace_nth t k' v
  end.

(** [l[i] = v]. *)
Definition setitem {A : Type} (l : list A) (i : Z) (v : A) : result (list A) :=
  let n := Z.of_nat (List.length l) in
  let k := if i <? 0 then i + n else i in
  if (0 <=? k) && (k <? n) then Ok (replace_nth l (Z.to_nat k) v)
  else Raise IndexError.

(** [x in l] for a list of floats: [==] on each element. *)
Definition float_in (x : float) (l : list float) : bool :=
  existsb (fun y => PrimFloat.eqb y x) l.

Definition int_in (x : Z) (l : list Z) : bool :=
  existsb (fun y => y =? x) l.

(** [list(range(n))]. *)
Definition range (n : nat) : list Z := map Z.of_nat (seq 0 n).

(** [range(start, stop, step)] for a positive step, as a list
    (unfolded at most [fuel] times). *)
Fixpoint range_step (fuel : nat) (start stop step : Z) : list Z :=
  match fuel with
  | O => []
  | S fuel' =>
      if start <? stop then start :: range_step fuel' (start + step) stop step
      else []
  end.

End Py.

Notation "x <- c ;; k" := (Py.bind c (fun x => k))
  (at level 61, c at next level, right associativity) : py_scope.
Notation "' p <- c ;; k" := (Py.bind c (fun x => let 'p := x in k))
  (at level 61, p pattern, c at next level, right associativity) : py_scope.

Local Open Scope py_scope.

(** ** The numpy operations the module uses *)
Module NP.

(** A one-dimensional array, and a column vector of shape (m, 1). *)
Definition vec := list float.
(** A two-dimensional array, as the list of its rows. *)
Definition matrix := list (list float).
(** The (n, n, 2, 2) block tensor of the stiffness assembly. *)
Definition tensor := list (list matrix).

(** [np.zeros(n)] and [np.zeros((n, 1))]. *)
Definition zeros (n : Z) : Py.result vec :=
  if n <? 0 then Py.Raise Py.ValueError
  else Py.Ok (repeat 0%float (Z.to_nat n)).

(** [np.zeros((n, n, 2, 2))]. *)
Definition zeros_blocks (n : Z) : Py.result tensor :=
  if n <? 0 then Py.Raise Py.ValueError
  else
    let block := [[0%float; 0%float]; [0%float; 0%float]] in
    Py.Ok (repeat (repeat block (Z.to_nat n)) (Z.to_nat n)).

(** [A.shape[0]]. *)
Definition shape0 (A : matrix) : Z := Z.of_nat (List.length A).

(** The sum of the products of two rows, accumulated from the left. *)
Definition dot (r v : vec) : float :=
  fold_left (fun acc p => (acc + fst p * snd p)%float) (combine r v) 0%float.

(** [np.matmul(A, F)] for a matrix and a column vector; ValueError when
    the inner dimensions differ. *)
Definition matmul (A : matrix) (F : vec) : Py.result vec :=
  if forallb (fun r => Nat.eqb (List.length r) (List.length F)) A
     && negb (Nat.eqb (List.length A) 0 && negb (Nat.eqb (List.length F) 0))
  then Py.Ok (map (fun r => dot r F) A)
  else Py.Raise Py.ValueError.

(** [s * M] for a scalar and a matrix. *)
Definition scale (s : float) (M : matrix) : matrix :=
  map (map (fun x => (s * x)%float)) M.

(** The values of [np.arange(start, stop, step)] on floats: the length
    is the ceiling of [(stop - start) / step]; the first two entries are
    [start] and [start + step], entry [i] is [start + i * delta] with
    [delta] the difference of the first two. *)
Definition arange_len (start stop step : float) : Py.result nat :=
  let q := ((stop - start) / step)%float in
  match Py.mantissa_exponent q with
  | Some (n, e) =>
      let fl := if 0 <=? e then n * 2 ^ e else Z.shiftr n (- e) in
      let exact := if 0 <=? e then true else (Z.shiftl fl (- e) =? n) in
      Py.Ok (Z.to_nat (if exact then fl else fl + 1))
  | None => Py.Raise Py.ValueError
  end.

Definition arange_item (start step : float) (i : nat) : float :=
  match i with
  | O => start
  | S O => (start + step)%float
  | _ =>
      let delta := ((start + step) - start)%float in
      (start + Py.float_of_int (Z.of_nat i) * delta)%float
  end.

Definition arange (start stop step : float) : Py.result vec :=
  n <- arange_len start stop step ;;
  Py.Ok (map (arange_item start step) (seq 0 n)).

(** Element-wise product of two one-dimensional arrays, with numpy's
    broadcasting of a length-one operand; ValueError otherwise when the
    lengths differ. *)
Definition mul (a b : vec) : Py.result vec :=
  if Nat.eqb (List.length a) (List.length b) then
    Py.Ok (map (fun p => (fst p * snd p)%float) (combine a b))
  else
    match a, b with
    | [x], _ => Py.Ok (map (fun y => (x * y)%float) b)
    | _, [y] => Py.Ok (map (fun x => (x * y)%float) a)
    | _, _ => Py.Raise Py.ValueError
    end.

(** [a.sum()], accumulated from the left. *)
Definition sum (a : vec) : float :=
  fold_left (fun acc x => (acc + x)%float) a 0%float.

(** [(data > 0) * data] and [(data < 0) * data]: the boolean mask is
    promoted to 1.0 / 0.0 and multiplied in. *)
Definition mask_pos (data : vec) : vec :=
  map (fun x => ((if PrimFloat.ltb 0 x then 1 else 0) * x)%float) data.
Definition mask_neg (data : vec) : vec :=
  map (fun x => ((if PrimFloat.ltb x 0 then 1 else 0) * x)%float) data.

(** [a[i : j]] for non-negative bounds. *)
Definition slice (a : vec) (i j : nat) : vec := firstn (j - i) (skipn i a).

End NP.

(** Python's [max] and [min] of two floats: the first argument wins unless
    the second is strictly greater (smaller). *)
Definition py_max (a b : float) : float := if PrimFloat.ltb a b then b else a.
Definition py_min (a b : float) : float := if PrimFloat.ltb b a then b else a.

(** ** [math]: the libm functions the module imports *)
Module Libm.

(** [cos], [sin] and [atan] are the functions of [math]; [pow] is the C
    function that the operator [**] of two floats calls. *)
Record t : Type := {
  cos : float -> float;
  sin : float -> float;
  atan : float -> float;
  pow : float -> float -> float
}.

(** [math.pi], the binary64 nearest to pi. *)
Definition pi : float := 0x1.921fb54442d18p+1%float.

(** [x ** 2] for a float [x]: the int 2 becomes 2.0 and the operator
    settles the special cases itself - a NaN stays, an infinity gives the
    positive infinity, a zero gives 0.0, and 1.0 or -1.0 gives 1.0 -
    before it calls [pow] on the absolute value; an infinite result of
    [pow] is OverflowError.  (The exponent being even, the result is not
    negated.) *)
Definition pow2 (libm : t) (x : float) : Py.result float :=
  if PrimFloat.is_nan x then Py.Ok x
  else if PrimFloat.is_infinity x then Py.Ok infinity
  else if PrimFloat.eqb x 0 then Py.Ok 0%float
  else
    let iv := if PrimFloat.ltb x 0 then (- x)%float else x in
    if PrimFloat.eqb iv 1 then Py.Ok 1%float
    else
      let ix := pow libm iv 2%float in
      if PrimFloat.is_infinity ix then Py.Raise Py.OverflowError
      else Py.Ok ix.

End Libm.

(** ** class Node *)
Module Node.

(** The loader stores node numbers and coordinates as ints. *)
Record t : Type := {
  num : Z;
  coordinates : Z * Z;
  vdisps : list float
}.

(** [Node(num)] followed by the loader's assignment of the coordinates. *)
Definition init (num : Z) (xy : Z * Z) : t :=
  {| num := num; coordinates := xy; vdisps := [] |}.

Definition append_vdisp (self : t) (v : float) : t :=
  {| num := num self; coordinates := coordinates self;
     vdisps := vdisps self ++ [v] |}.

Definition clear_vdisps (self : t) : t :=
  {| num := num self; coordinates := coordinates self; vdisps := [] |}.

End Node.

(** ** class Unit: a truss member *)
Module Unit.

(** A member reads only the number and the coordinates of its two end
    nodes, which never change after loading: [node_i] and [node_j] hold
    the nodes as loaded. *)
Record t : Type := {
  num : Z;
  node_i : Node.t;
  node_j : Node.t;
  (** [height; flange thickness; web thickness; flange width] *)
  beam_section_data : list float;
  _alpha : option float;
  _length : option float;
  _area : option float;
  _E : option float;
  _kij : option NP.matrix;
  axial_forces : list float;
  (** set by [Bridge.get_worst_cases_load] only *)
  max_force : option (float * float)
}.

(** [Unit(num, nodes_pair)] *)
Definition init (num : Z) (nodes_pair : Node.t * Node.t) : t :=
  {| num := num; node_i := fst nodes_pair; node_j := snd nodes_pair;
     beam_section_data := [];
     _alpha := None; _length := None; _area := None; _E := None;
     _kij := None; axial_forces := []; max_force := None |}.

Definition set_beam_section_data (u : t) (d : list float) : t :=
  {| num := num u; node_i := node_i u; node_j := node_j u;
     beam_section_data := d;
     _alpha := _alpha u; _length := _length u; _area := _area u;
     _E := _E u; _kij := _kij u; axial_forces := axial_forces u;
     max_force := max_force u |}.

Definition set_alpha (u : t) (a : float) : t :=
  {| num := num u; node_i := node_i u; node_j := node_j u;
     beam_section_data := beam_section_data u;
     _alpha := Some a; _length := _length u; _area := _area u;
     _E := _E u; _kij := _kij u; axial_forces := axial_forces u;
     max_force := max_force u |}.

Definition set_length (u : t) (l : float) : t :=
  {| num := num u; node_i := node_i u; node_j := node_j u;
     beam_section_data := beam_section_data u;
     _alpha := _alpha u; _length := Some l; _area := _area u;
     _E := _E u; _kij := _kij u; axial_forces := axial_forces u;
     max_force := max_force u |}.

Definition set_area (u : t) (a : float) : t :=
  {| num := num u; node_i := node_i u; node_j := node_j u;
     beam_section_data := beam_section_data u;
     _alpha := _alpha u; _length := _length u; _area := Some a;
     _E := _E u; _kij := _kij u; axial_forces := axial_forces u;
     max_force := max_force u |}.

Definition set_E (u : t) (e : option float) : t :=
  {| num := num u; node_i := node_i u; node_j := node_j u;
     beam_section_data := beam_section_data u;
     _alpha := _alpha u; _length := _length u; _area := _area u;
     _E := e; _kij := _kij u; axial_forces := axial_forces u;
     max_force := max_force u |}.

Definition set_kij (u : t) (k : NP.matrix) : t :=
  {| num := num u; node_i := node_i u; node_j := node_j u;
     beam_section_data := beam_section_data u;
     _alpha := _alpha u; _length := _length u; _area := _area u;
     _E := _E u; _kij := Some k; axial_forces := axial_forces u;
     max_force := max_force u |}.

Definition set_axial_forces (u : t) (l : list float) : t :=
  {| num := num u; node_i := node_i u; node_j := node_j u;
     beam_section_data := beam_section_data u;
     _alpha := _alpha u; _length := _length u; _area := _area u;
     _E := _E u; _kij := _kij u; axial_forces := l;
     max_force := max_force u |}.

Definition set_max_force (u : t) (m : float * float) : t :=
  {| num := num u; node_i := node_i u; node_j := node_j u;
     beam_section_data := beam_section_data u;
     _alpha := _alpha u; _length := _length u; _area := _area u;
     _E := _E u; _kij := _kij u; axial_forces := axial_forces u;
     max_force := Some m |}.

Section Properties.

Variable libm : Libm.t.

(** The [alpha] property: the cached angle when it is set and not
    zero, else [pi / 2] for equal abscissas and the arctangent of the
    slope otherwise; the result is cached.  The slope is the quotient of
    two ints, which raises OverflowError when it is too large for a
    float. *)
Definition alpha (self : t) : Py.result (float * t) :=
  match Py.if_truthy (_alpha self) with
  | Some a => Py.Ok (a, self)
  | None =>
      let '(xi, yi) := Node.coordinates (node_i self) in
      let '(xj, yj) := Node.coordinates (node_j self) in
      a <- (if xi =? xj then Py.Ok (Libm.pi / 2)%float
            else
              slope <- Py.int_truediv (yj - yi) (xj - xi) ;;
              Py.Ok (Libm.atan libm slope)) ;;
      Py.Ok (a, set_alpha self a)
  end.

(** The [length] property: [sqrt] of an int, which raises OverflowError
    when the int is too large for a float. *)
Definition length (self : t) : Py.result (float * t) :=
  match Py.if_truthy (_length self) with
  | Some l => Py.Ok (l, self)
  | None =>
      let '(xi, yi) := Node.coordinates (node_i self) in
      let '(xj, yj) := Node.coordinates (node_j self) in
      x <- Py.int_to_float ((yj - yi) ^ 2 + (xj - xi) ^ 2) ;;
      let l := PrimFloat.sqrt x in
      Py.Ok (l, set_length self l)
  end.

(** The [area] property: [a, b, c, d = self.beam_section_data] raises
    ValueError unless there are exactly four entries. *)
Definition area (self : t) : Py.result (float * t) :=
  match Py.if_truthy (_area self) with
  | Some a => Py.Ok (a, self)
  | None =>
      match beam_section_data self with
      | [a; b; c; d] =>
          let v := (2 * b * d + (a - 2 * b) * c)%float in
          Py.Ok (v, set_area self v)
      | _ => Py.Raise Py.ValueError
      end
  end.

(** The matrix [M] of [kij]: [cos(a)**2] and [sin(a)**2] are the
    operator [**], the products are float products; [-cos(a)**2] negates
    the square and [-cos(a)*sin(a)] multiplies the negated cosine. *)
Definition direction_matrix (a : float) : Py.result NP.matrix :=
  let c := Libm.cos libm a in
  let s := Libm.sin libm a in
  c2 <- Libm.pow2 libm c ;;
  s2 <- Libm.pow2 libm s ;;
  Py.Ok [ [ c2;         c * s;      - c2;       (- c) * s ];
          [ c * s;      s2;         (- c) * s;  - s2      ];
          [ - c2;       (- c) * s;  c2;         c * s     ];
          [ (- c) * s;  - s2;       c * s;      s2        ] ]%float.

(** The [kij] property: [E * A / l * M].  [E] still [None] makes the
    product raise TypeError; a zero length makes the division raise
    ZeroDivisionError. *)
Definition kij (self : t) : Py.result (NP.matrix * t) :=
  match _kij self with
  | Some k => Py.Ok (k, self)
  | None =>
      '(a, self) <- alpha self ;;
      '(l, self) <- length self ;;
      M <- direction_matrix a ;;
      '(A, self) <- area self ;;
      match _E self with
      | None => Py.Raise Py.TypeError
      | Some E =>
          if PrimFloat.eqb l 0%float then Py.Raise Py.ZeroDivisionError
          else
            let k := NP.scale (E * A / l)%float M in
            Py.Ok (k, set_kij self k)
      end
  end.

End Properties.

(** What the spec gives as the area formula, on the section 4-tuple
    (height, flange thickness, web thickness, flange width). *)
Definition spec_area_formula (height flange_thickness web_thickness
                              flange_width : float) : float :=
  (2 * flange_width * flange_thickness
   + (height - 2 * flange_width) * web_thickness)%float.

End Unit.

(** ** [utils]: the helpers the module imports
    ([partition_kij] and [pretty_print] are imported and never called) *)
Module Utils.

Record t : Type := {
  update_K : NP.tensor -> Unit.t -> NP.matrix -> Py.result NP.tensor;
  reshape_K : NP.tensor -> Z -> Py.result NP.matrix;
  reduce_K : NP.matrix -> option Z -> Py.result NP.matrix
}.

End Utils.

(** ** The helpers of [utils], as the spec describes them
    Used to run the examples; the theorems hold for any [Utils.t]. *)
Module UtilsSpec.

Definition block := list (list float).

Definition add_block (x y : block) : block :=
  map (fun rr => map (fun p => (fst p + snd p)%float)
                     (combine (fst rr) (snd rr)))
      (combine x y).

(** The 2x2 sub-block of a 4x4 matrix at block row [r], block column
    [c]. *)
Definition sub_block (k : NP.matrix) (r c : nat) : block :=
  map (fun row => firstn 2 (skipn (2 * c) row)) (firstn 2 (skipn (2 * r) k)).

Definition add_at (K : NP.tensor) (i j : nat) (b : block) : NP.tensor :=
  Py.replace_nth K i
    (let row := nth i K [] in
     Py.replace_nth row j (add_block (nth j row []) b)).

(** Modelled from the spec: [utils.update_K], which is not among the
    sources.  For a member joining nodes [i] and [j], each 2x2 sub-block
    of its 4x4 stiffness is added into positions (i,i), (i,j), (j,i),
    (j,j) of the block tensor; node [k] has index [k - 1]. *)
Definition update_K (K : NP.tensor) (unit : Unit.t) (kij : NP.matrix)
  : Py.result NP.tensor :=
  let i := Node.num (Unit.node_i unit) - 1 in
  let j := Node.num (Unit.node_j unit) - 1 in
  let n := Z.of_nat (List.length K) in
  if (0 <=? i) && (i <? n) && (0 <=? j) && (j <? n) then
    let i := Z.to_nat i in
    let j := Z.to_nat j in
    Py.Ok (add_at (add_at (add_at (add_at K i i (sub_block kij 0 0))
                                  i j (sub_block kij 0 1))
                          j i (sub_block kij 1 0))
                  j j (sub_block kij 1 1))
  else Py.Raise Py.IndexError.

(** Modelled from the spec: [utils.reshape_K].  The (n, n, 2, 2) tensor
    is flattened into a (2n, 2n) matrix, the two degrees of freedom of a
    node next to each other, in node order. *)
Definition reshape_K (K : NP.tensor) (n : Z) : Py.result NP.matrix :=
  if Z.of_nat (List.length K) =? n then
    Py.Ok (flat_map
             (fun brow =>
                [ flat_map (fun b => nth 0 b []) brow;
                  flat_map (fun b => nth 1 b []) brow ])
             K)
  else Py.Raise Py.ValueError.

(** The degrees of freedom fixed by the supports: [u1], [v1] and the
    vertical one of the last node; for the two-span profile also the
    vertical one of the centre node 21. *)
Definition fixed_dofs (length : option Z) : list nat :=
  match length with
  | Some 64 => [0; 1; 31]%nat
  | Some 160 => [0; 1; 41; 79]%nat
  | _ => []
  end.

Definition drop_indices {A : Type} (fixed : list nat) (l : list A) : list A :=
  map snd
    (filter (fun ix => negb (existsb (Nat.eqb (fst ix)) fixed))
            (combine (seq 0 (List.length l)) l)).

(** Modelled from the spec: [utils.reduce_K].  The rows and columns of
    the fixed degrees of freedom are removed. *)
Definition reduce_K (K : NP.matrix) (length : option Z)
  : Py.result NP.matrix :=
  let fixed := fixed_dofs length in
  Py.Ok (map (drop_indices fixed) (drop_indices fixed K)).

Definition utils : Utils.t :=
  {| Utils.update_K := update_K;
     Utils.reshape_K := reshape_K;
     Utils.reduce_K := reduce_K |}.

End UtilsSpec.

(** ** class Bridge: what the two profiles share *)
Module Bridge.

Record t : Type := {
  nodes : list (Z * Node.t);          (** OrderedDict {node_num: node} *)
  units : list (Z * Unit.t);          (** OrderedDict {unit_num: unit} *)
  _length : option Z;
  _K : option NP.matrix;
  _reduced_K : option NP.matrix;
  _n_nodes : option Z;
  _E : option float;
  (** attributes that only [load_params] creates *)
  P : option float;
  h : option float;
  bottom_chord_nodes_nums : option (list Z);
  bottom_chord_nodes_indices : option (list Z);
  (** [self.n] is read by [K]; no method of the module creates it *)
  n : option Z
}.

(** [Bridge.__init__], with the length a subclass sets after it. *)
Definition init (length : option Z) : t :=
  {| nodes := []; units := []; _length := length; _K := None;
     _reduced_K := None; _n_nodes := None; _E := None;
     P := None; h := None; bottom_chord_nodes_nums := None;
     bottom_chord_nodes_indices := None; n := None |}.

Definition set_nodes (b : t) (ns : list (Z * Node.t)) : t :=
  {| nodes := ns; units := units b; _length := _length b; _K := _K b;
     _reduced_K := _reduced_K b; _n_nodes := _n_nodes b; _E := _E b;
     P := P b; h := h b;
     bottom_chord_nodes_nums := bottom_chord_nodes_nums b;
     bottom_chord_nodes_indices := bottom_chord_nodes_indices b;
     n := n b |}.

Definition set_units (b : t) (us : list (Z * Unit.t)) : t :=
  {| nodes := nodes b; units := us; _length := _length b; _K := _K b;
     _reduced_K := _reduced_K b; _n_nodes := _n_nodes b; _E := _E b;
     P := P b; h := h b;
     bottom_chord_nodes_nums := bottom_chord_nodes_nums b;
     bottom_chord_nodes_indices := bottom_chord_nodes_indices b;
     n := n b |}.

Definition set_K (b : t) (k : NP.matrix) : t :=
  {| nodes := nodes b; units := units b; _length := _length b;
     _K := Some k;
     _reduced_K := _reduced_K b; _n_nodes := _n_nodes b; _E := _E b;
     P := P b; h := h b;
     bottom_chord_nodes_nums := bottom_chord_nodes_nums b;
     bottom_chord_nodes_indices := bottom_chord_nodes_indices b;
     n := n b |}.

Definition set_reduced_K (b : t) (k : NP.matrix) : t :=
  {| nodes := nodes b; units := units b; _length := _length b;
     _K := _K b;
     _reduced_K := Some k; _n_nodes := _n_nodes b; _E := _E b;
     P := P b; h := h b;
     bottom_chord_nodes_nums := bottom_chord_nodes_nums b;
     bottom_chord_nodes_indices := bottom_chord_nodes_indices b;
     n := n b |}.

(** The attribute [n], when the caller has created it on the object. *)
Definition set_n (b : t) (k : Z) : t :=
  {| nodes := nodes b; units := units b; _length := _length b;
     _K := _K b;
     _reduced_K := _reduced_K b; _n_nodes := _n_nodes b; _E := _E b;
     P := P b; h := h b;
     bottom_chord_nodes_nums := bottom_chord_nodes_nums b;
     bottom_chord_nodes_indices := bottom_chord_nodes_indices b;
     n := Some k |}.

(** [self.P = p] *)
Definition set_P (b : t) (p : float) : t :=
  {| nodes := nodes b; units := units b; _length := _length b;
     _K := _K b;
     _reduced_K := _reduced_K b; _n_nodes := _n_nodes b; _E := _E b;
     P := Some p; h := h b;
     bottom_chord_nodes_nums := bottom_chord_nodes_nums b;
     bottom_chord_nodes_indices := bottom_chord_nodes_indices b;
     n := n b |}.

(** [load_params(E=..., P=..., h=..., bottom_chord_nodes_nums=...)] *)
Definition load_params (self : t) (E P h : float) (bc : list Z) : t :=
  {| nodes := nodes self;
     units := map (fun ku => (fst ku, Unit.set_E (snd ku) (Some E)))
                  (units self);
     _length := _length self; _K := _K self;
     _reduced_K := _reduced_K self; _n_nodes := _n_nodes self;
     _E := Some E;
     P := Some P; h := Some h;
     bottom_chord_nodes_nums := Some bc;
     bottom_chord_nodes_indices := Some (Py.range (List.length bc));
     n := n self |}.

(** *** The dictionaries and the loaders *)

(** [d[k] = v] on an OrderedDict: the value of an existing key is
    replaced where it stands, a new key goes to the end. *)
Fixpoint dict_set {A : Type} (d : list (Z * A)) (k : Z) (v : A)
  : list (Z * A) :=
  match d with
  | [] => [(k, v)]
  | (k', v') :: rest =>
      if k' =? k then (k, v) :: rest else (k', v') :: dict_set rest k v
  end.

(** [d[k]]: KeyError for a key that is not there. *)
Definition dict_get {A : Type} (d : list (Z * A)) (k : Z) : Py.result A :=
  match find (fun kv => fst kv =? k) d with
  | Some kv => Py.Ok (snd kv)
  | None => Py.Raise Py.KeyError
  end.

Definition set_n_nodes (b : t) (k : Z) : t :=
  {| nodes := nodes b; units := units b; _length := _length b;
     _K := _K b;
     _reduced_K := _reduced_K b; _n_nodes := Some k; _E := _E b;
     P := P b; h := h b;
     bottom_chord_nodes_nums := bottom_chord_nodes_nums b;
     bottom_chord_nodes_indices := bottom_chord_nodes_indices b;
     n := n b |}.

(** [self.__init__()] on an existing object of a class whose [__init__]
    sets the length [class_length]: the seven attributes of
    [Bridge.__init__] are reset, the others stay as they are. *)
Definition reinit (class_length : option Z) (self : t) : t :=
  {| nodes := []; units := []; _length := class_length; _K := None;
     _reduced_K := None; _n_nodes := None; _E := None;
     P := P self; h := h self;
     bottom_chord_nodes_nums := bottom_chord_nodes_nums self;
     bottom_chord_nodes_indices := bottom_chord_nodes_indices self;
     n := n self |}.

(** The loop of [load_nodes_coordinates] over the lines of the file.  A
    row is the list of the tokens of a line after [int]: opening the file,
    splitting the line and the ValueError of a token that is no int are
    outside the model; the unpacking into three names is inside. *)
Fixpoint load_nodes_rows (ns : list (Z * Node.t)) (rows : list (list Z))
  : Py.result (list (Z * Node.t)) :=
  match rows with
  | [] => Py.Ok ns
  | [node_num; x; y] :: rest =>
      load_nodes_rows (dict_set ns node_num (Node.init node_num (x, y))) rest
  | _ :: _ => Py.Raise Py.ValueError
  end.

Definition load_nodes_coordinates (self : t) (rows : list (list Z))
  : Py.result t :=
  ns <- load_nodes_rows (nodes self) rows ;;
  Py.Ok (set_nodes self ns).

(** The first loop of [load_units_data]: a member per line, its two nodes
    looked up in [self.nodes]. *)
Fixpoint load_units_rows (ns : list (Z * Node.t)) (us : list (Z * Unit.t))
                         (rows : list (list Z))
  : Py.result (list (Z * Unit.t)) :=
  match rows with
  | [] => Py.Ok us
  | [unit_num; i; j] :: rest =>
      node_i <- dict_get ns i ;;
      node_j <- dict_get ns j ;;
      load_units_rows ns
        (dict_set us unit_num (Unit.init unit_num (node_i, node_j))) rest
  | _ :: _ => Py.Raise Py.ValueError
  end.

(** The second loop of [load_units_data]: a line of section data is the
    number of a member, read by [int], and the list of the other tokens,
    read by [float], however many there are; an empty line and tokens that
    do not convert are outside the model. *)
Fixpoint load_sections_rows (us : list (Z * Unit.t))
                            (rows : list (Z * list float))
  : Py.result (list (Z * Unit.t)) :=
  match rows with
  | [] => Py.Ok us
  | (unit_num, dims) :: rest =>
      unit <- dict_get us unit_num ;;
      load_sections_rows
        (dict_set us unit_num (Unit.set_beam_section_data unit dims)) rest
  end.

Definition load_units_data (self : t) (unit_rows : list (list Z))
                           (section_rows : list (Z * list float))
  : Py.result t :=
  us <- load_units_rows (nodes self) (units self) unit_rows ;;
  us <- load_sections_rows us section_rows ;;
  Py.Ok (set_units self us).

(** [load_data]: [self.__init__()], then the two loaders. *)
Definition load_data (class_length : option Z) (self : t)
                     (node_rows unit_rows : list (list Z))
                     (section_rows : list (Z * list float))
  : Py.result t :=
  let self := reinit class_length self in
  self <- load_nodes_coordinates self node_rows ;;
  load_units_data self unit_rows section_rows.

(** The [length] property. *)
Definition length (self : t) : option Z := _length self.

(** The [n_nodes] property: the cached count when it is set and not
    zero, else the number of keys of [self.nodes], which is cached. *)
Definition n_nodes (self : t) : Z * t :=
  let count := Z.of_nat (List.length (nodes self)) in
  match _n_nodes self with
  | Some k => if k =? 0 then (count, set_n_nodes self count) else (k, self)
  | None => (count, set_n_nodes self count)
  end.

(** The methods a profile overrides. *)
Record methods : Type := {
  save_nodes_vdisps_moment : t -> NP.vec -> Py.result t;
  get_nodes_vdisps_moment_on_nodes : t -> float -> Py.result (NP.vec * t);
  get_nodes_vdisps_moment_between_nodes :
    t -> float -> Py.result (NP.vec * t);
  get_one_unit_axial_force_moment :
    t -> Unit.t -> NP.vec -> Py.result (float * Unit.t)
}.

(** The base class raises NotImplementedError in all four. *)
Definition base : methods :=
  {| save_nodes_vdisps_moment := fun _ _ => Py.Raise Py.NotImplementedError;
     get_nodes_vdisps_moment_on_nodes :=
       fun _ _ => Py.Raise Py.NotImplementedError;
     get_nodes_vdisps_moment_between_nodes :=
       fun _ _ => Py.Raise Py.NotImplementedError;
     get_one_unit_axial_force_moment :=
       fun _ _ _ => Py.Raise Py.NotImplementedError |}.

Section Stiffness.

Variable libm : Libm.t.
Variable utils : Utils.t.

(** The loop of [K]: [K = update_K(K, unit, unit.kij)] per member. *)
Fixpoint K_loop (Kt : NP.tensor) (us : list (Z * Unit.t))
  : Py.result (NP.tensor * list (Z * Unit.t)) :=
  match us with
  | [] => Py.Ok (Kt, [])
  | (k, u) :: rest =>
      '(kij, u') <- Unit.kij libm u ;;
      Kt' <- Utils.update_K utils Kt u' kij ;;
      '(Kt'', rest') <- K_loop Kt' rest ;;
      Py.Ok (Kt'', (k, u') :: rest')
  end.

(** The [K] property. *)
Definition K (self : t) : Py.result (NP.matrix * t) :=
  match _K self with
  | Some k => Py.Ok (k, self)
  | None =>
      n0 <- Py.getattr "n" (n self) ;;
      K0 <- NP.zeros_blocks n0 ;;
      '(Kt, us) <- K_loop K0 (units self) ;;
      Km <- Utils.reshape_K utils Kt n0 ;;
      Py.Ok (Km, set_K (set_units self us) Km)
  end.

(** The [reduced_K] property. *)
Definition reduced_K (self : t) : Py.result (NP.matrix * t) :=
  match _reduced_K self with
  | Some k => Py.Ok (k, self)
  | None =>
      '(Km, self) <- K self ;;
      Kr <- Utils.reduce_K utils Km (length self) ;;
      Py.Ok (Kr, set_reduced_K self Kr)
  end.

End Stiffness.

Section Sweep.

(** The class of [self]: the base class or one of the two profiles. *)
Variable cls : methods.

(** [get_nodes_vdisps_moment]: the load is on a node when [point] is
    integral and equals [8.0 * index] for a bottom-chord index. *)
Definition on_node_test (bc_nodes_indices : list Z) (point : float)
  : Py.result bool :=
  let bc_nodes_corr_force_disps :=
    map (fun i => (8 * Py.float_of_int i)%float) bc_nodes_indices in
  p <- Py.int point ;;
  Py.Ok (PrimFloat.eqb (Py.float_of_int p) point
         && Py.float_in point bc_nodes_corr_force_disps).

Definition get_nodes_vdisps_moment (self : t) (point : float)
  : Py.result (NP.vec * t) :=
  bc_nodes_indices <-
    Py.getattr "bottom_chord_nodes_indices"
               (bottom_chord_nodes_indices self) ;;
  on_node <- on_node_test bc_nodes_indices point ;;
  if on_node then get_nodes_vdisps_moment_on_nodes cls self point
  else get_nodes_vdisps_moment_between_nodes cls self point.

Definition nodes_vdisps_init (self : t) : t :=
  set_nodes self
    (map (fun kn => (fst kn, Node.clear_vdisps (snd kn))) (nodes self)).

(** [np.arange(0, (len(bc_nodes_indices) - 1) * 8 + 0.1, step=0.1)] *)
Definition bc_axis (self : t) : Py.result NP.vec :=
  bc_nodes_indices <-
    Py.getattr "bottom_chord_nodes_indices"
               (bottom_chord_nodes_indices self) ;;
  let end_ := (Z.of_nat (List.length bc_nodes_indices) - 1) * 8 in
  NP.arange 0%float (Py.float_of_int end_ + 0.1)%float 0.1%float.

Fixpoint nodes_vdisps_loop (self : t) (points : list float)
  : Py.result t :=
  match points with
  | [] => Py.Ok self
  | point :: rest =>
      '(nodes_vdisps_moment, self) <- get_nodes_vdisps_moment self point ;;
      self <- save_nodes_vdisps_moment cls self nodes_vdisps_moment ;;
      nodes_vdisps_loop self rest
  end.

(** [get_nodes_vdisps]: the sweep that records the displacement
    influence lines. *)
Definition get_nodes_vdisps (self : t) : Py.result t :=
  let self := nodes_vdisps_init self in
  axis <- bc_axis self ;;
  nodes_vdisps_loop self axis.

Definition units_axial_forces_init (self : t) : t :=
  set_units self
    (map (fun ku => (fst ku, Unit.set_axial_forces (snd ku) []))
         (units self)).

(** [zip(self.units.values(), units_axial_forces_moment)] with one
    append per pair. *)
Fixpoint save_units_loop (us : list (Z * Unit.t)) (fs : list float)
  : list (Z * Unit.t) :=
  match us, fs with
  | (k, u) :: us', f :: fs' =>
      (k, Unit.set_axial_forces u (Unit.axial_forces u ++ [f]))
        :: save_units_loop us' fs'
  | _, _ => us
  end.

Definition save_units_axial_forces_moment (self : t) (fs : list float)
  : t :=
  set_units self (save_units_loop (units self) fs).

Fixpoint units_loop (self : t) (us : list (Z * Unit.t)) (D : NP.vec)
  : Py.result (list float * list (Z * Unit.t)) :=
  match us with
  | [] => Py.Ok ([], [])
  | (k, u) :: rest =>
      '(f, u') <- get_one_unit_axial_force_moment cls self u D ;;
      '(fs, rest') <- units_loop self rest D ;;
      Py.Ok (f :: fs, (k, u') :: rest')
  end.

Definition get_units_axial_forces_moment (self : t) (point : float)
  : Py.result (list float * t) :=
  '(nodes_vdisps_moment, self) <- get_nodes_vdisps_moment self point ;;
  '(fs, us) <- units_loop self (units self) nodes_vdisps_moment ;;
  Py.Ok (fs, set_units self us).

Fixpoint units_axial_forces_loop (self : t) (points : list float)
  : Py.result t :=
  match points with
  | [] => Py.Ok self
  | point :: rest =>
      '(fs, self) <- get_units_axial_forces_moment self point ;;
      units_axial_forces_loop
        (save_units_axial_forces_moment self fs) rest
  end.

(** [get_units_axial_forces]: the sweep that records the axial-force
    influence lines. *)
Definition get_units_axial_forces (self : t) : Py.result t :=
  let self := units_axial_forces_init self in
  axis <- bc_axis self ;;
  units_axial_forces_loop self axis.

End Sweep.

(** *** The worst-case load search *)

Inductive half : Type := left | right.

(** One pass of the loop of [get_uniform_load_max_trick]. *)
Definition uniform_step (pos_data neg_data load : NP.vec) (hf : half)
                        (i : nat) (acc : float * float)
  : Py.result (float * float) :=
  let '(pos_max, neg_min) := acc in
  let load_selected :=
    match hf with
    | right => rev (firstn i load)
    | left => firstn i load
    end in
  z <- NP.zeros (641 - Z.of_nat i) ;;
  let selected := load_selected ++ z in
  pos_prod <- NP.mul pos_data selected ;;
  neg_prod <- NP.mul neg_data selected ;;
  Py.Ok (py_max pos_max (NP.sum pos_prod), py_min neg_min (NP.sum neg_prod)).

(** One pass of the loop of [get_both_load_max_trick]. *)
Definition both_step (pos_data neg_data load : NP.vec)
                     (i : nat) (acc : float * float)
  : Py.result (float * float) :=
  let '(pos_max, neg_min) := acc in
  let selected := NP.slice load i (i + 641) in
  pos_prod <- NP.mul pos_data selected ;;
  neg_prod <- NP.mul neg_data selected ;;
  Py.Ok (py_max pos_max (NP.sum pos_prod), py_min neg_min (NP.sum neg_prod)).

Fixpoint for_range (step : nat -> float * float -> Py.result (float * float))
                   (idxs : list nat) (acc : float * float)
  : Py.result (float * float) :=
  match idxs with
  | [] => Py.Ok acc
  | i :: rest => acc' <- step i acc ;; for_range step rest acc'
  end.

(** [get_uniform_load_max_trick]: the uniform load alone, entering the
    span ([self] is not used). *)
Definition get_uniform_load_max_trick
           (unit_axial_forces load : NP.vec) (pos_max neg_min : float)
           (hf : half) : Py.result (float * float) :=
  let data :=
    match hf with
    | right => rev unit_axial_forces
    | left => unit_axial_forces
    end in
  let pos_data := NP.mask_pos data in
  let neg_data := NP.mask_neg data in
  for_range (uniform_step pos_data neg_data load hf)
            (seq 0 (641 + 1)) (pos_max, neg_min).

(** [get_both_load_max_trick]: the uniform and the concentrated loads
    together, a window of 641 samples at each of 353 offsets. *)
Definition get_both_load_max_trick
           (unit_axial_forces load : NP.vec) (pos_max neg_min : float)
           (hf : half) : Py.result (float * float) :=
  let data :=
    match hf with
    | right => rev unit_axial_forces
    | left => unit_axial_forces
    end in
  let pos_data := NP.mask_pos data in
  let neg_data := NP.mask_neg data in
  for_range (both_step pos_data neg_data load)
            (seq 0 353) (pos_max, neg_min).

(** What a name can be bound to at module level in bridge.py: an
    imported object or one of the five classes.  The module has no
    module-level [def] and no module-level assignment of data. *)
Inductive global : Type := Imported | Class.

Definition module_globals : list (string * global) :=
  [ ("OrderedDict", Imported); ("sqrt", Imported); ("sin", Imported);
    ("cos", Imported); ("tan", Imported); ("atan", Imported);
    ("pi", Imported); ("floor", Imported); ("plt", Imported);
    ("np", Imported); ("partition_kij", Imported);
    ("update_K", Imported); ("reshape_K", Imported);
    ("reduce_K", Imported); ("pretty_print", Imported);
    ("Node", Class); ("Unit", Class); ("Bridge", Class);
    ("Bridge_64", Class); ("Bridge_160", Class) ]%string.

(** Looking up a name that is neither a local nor a builtin. *)
Definition load_global (name : string) : Py.result global :=
  match find (fun kv => String.eqb (fst kv) name) module_globals with
  | Some kv => Py.Ok (snd kv)
  | None => Py.Raise (Py.NameError name)
  end.

(** Calling an imported object or a class of the module with the five
    arguments of a trick: none of them accepts that call. *)
Definition call_global (f : global) (data : global) (load : NP.vec)
                       (pos_max neg_min : float) (hf : half)
  : Py.result (float * float) :=
  Py.Raise Py.TypeError.

(** [get_unit_worst_cases_load_trick]: its four statements call
    [compute_uniform_load_max_trick] and [compute_both_load_max_trick]
    on [data]; the three names are neither parameters of the method nor
    locals, so each is looked up among the globals. *)
Definition get_unit_worst_cases_load_trick
           (unit_axial_forces load : NP.vec) (pos_max neg_min : float)
  : Py.result (float * float) :=
  f <- load_global "compute_uniform_load_max_trick" ;;
  data <- load_global "data" ;;
  '(pos_max, neg_min) <- call_global f data load pos_max neg_min left ;;
  f <- load_global "compute_both_load_max_trick" ;;
  data <- load_global "data" ;;
  '(pos_max, neg_min) <- call_global f data load pos_max neg_min left ;;
  f <- load_global "compute_both_load_max_trick" ;;
  data <- load_global "data" ;;
  '(pos_max, neg_min) <- call_global f data load pos_max neg_min right ;;
  f <- load_global "compute_uniform_load_max_trick" ;;
  data <- load_global "data" ;;
  '(pos_max, neg_min) <- call_global f data load pos_max neg_min right ;;
  Py.Ok (pos_max, neg_min).

(** [get_unit_worst_cases_load_trick2]: the variant that inlines both
    loops; [data] is reversed in place for the right half. *)
Definition trick2_half (load : NP.vec) (hf : half)
                       (st : NP.vec * (float * float))
  : Py.result (NP.vec * (float * float)) :=
  let '(data, acc) := st in
  let data := match hf with right => rev data | left => data end in
  let pos_data := NP.mask_pos data in
  let neg_data := NP.mask_neg data in
  acc <- for_range (uniform_step pos_data neg_data load hf)
                   (seq 0 (641 + 1)) acc ;;
  acc <- for_range (both_step pos_data neg_data load) (seq 0 353) acc ;;
  Py.Ok (data, acc).

Definition get_unit_worst_cases_load_trick2
           (unit_axial_forces load : NP.vec) (pos_max neg_min : float)
  : Py.result (float * float) :=
  st <- trick2_half load left (unit_axial_forces, (pos_max, neg_min)) ;;
  st <- trick2_half load right st ;;
  Py.Ok (snd st).

(** The loop of [get_worst_cases_load] over the members. *)
Fixpoint worst_cases_loop (us : list (Z * Unit.t)) (load : NP.vec)
  : Py.result (list (Z * Unit.t)) :=
  match us with
  | [] => Py.Ok []
  | (k, unit) :: rest =>
      let unit_axial_forces := Unit.axial_forces unit in
      '(pos_max, neg_min) <-
        get_unit_worst_cases_load_trick unit_axial_forces load
          neg_infinity infinity ;;
      let unit := Unit.set_max_force unit (pos_max, neg_min) in
      rest' <- worst_cases_loop rest load ;;
      Py.Ok ((k, unit) :: rest')
  end.

(** [get_worst_cases_load] *)
Definition get_worst_cases_load (self : t) (load : NP.vec)
  : Py.result t :=
  us <- worst_cases_loop (units self) load ;;
  Py.Ok (set_units self us).

End Bridge.

(** ** Force recovery: what both profiles write identically *)
Module Recovery.

(** An operand of [==]: an int or a member object. *)
Inductive pyobj : Type :=
| PyInt (z : Z)
| PyUnit (u : Unit.t).

(** [a == b].  [Unit] defines no [__eq__]: comparing a member with an
    int is answered by neither side and falls back to identity, which is
    False; two members are the same object when they are the same entry
    of the [units] dictionary. *)
Definition py_eq (a b : pyobj) : bool :=
  match a, b with
  | PyInt x, PyInt y => x =? y
  | PyUnit u, PyUnit v => Unit.num u =? Unit.num v
  | PyInt _, PyUnit _ | PyUnit _, PyInt _ => false
  end.

(** [x in l] *)
Definition py_in (x : pyobj) (l : list pyobj) : bool :=
  existsb (fun y => py_eq y x) l.

(** The two branches that close [get_one_unit_axial_force_moment]:
    [f if Fij[0] > 0 else -f] for a member found among the verticals,
    [-f if Fij[0] > 0 else f] for the others. *)
Definition signed_force (among_verticals : bool) (Fij0 f : float) : float :=
  if among_verticals then
    (if PrimFloat.ltb 0 Fij0 then f else - f)%float
  else
    (if PrimFloat.ltb 0 Fij0 then - f else f)%float.

Section EndForces.

Variable libm : Libm.t.

(** The matrix [T]. *)
Definition T (a : float) : NP.matrix :=
  let c := Libm.cos libm a in
  let s := Libm.sin libm a in
  [ [ c;    s;  0;    0 ];
    [ - s;  c;  0;    0 ];
    [ 0;    0;  c;    s ];
    [ 0;    0;  - s;  c ] ]%float.

(** [Fij = np.matmul(T, np.matmul(kij, dij))], from [kij = unit.kij]
    on. *)
Definition end_forces (unit : Unit.t) (ui vi uj vj : float)
  : Py.result (NP.vec * Unit.t) :=
  '(kij, unit) <- Unit.kij libm unit ;;
  '(a, unit) <- Unit.alpha libm unit ;;
  let dij := [ui; vi; uj; vj] in
  kd <- NP.matmul kij dij ;;
  Fij <- NP.matmul (T a) kd ;;
  Py.Ok (Fij, unit).

(** The rest of the method once the four end displacements are known:
    the magnitude [sqrt(Fij[0]**2 + Fij[1]**2)] and its sign, with
    [verticals] the list the member is looked up in. *)
Definition axial_force (verticals : list pyobj) (unit : Unit.t)
                       (ui vi uj vj : float)
  : Py.result (float * Unit.t) :=
  '(Fij, unit) <- end_forces unit ui vi uj vj ;;
  Fij0 <- Py.getitem Fij 0 ;;
  Fij1 <- Py.getitem Fij 1 ;;
  let f := PrimFloat.sqrt (Fij0 * Fij0 + Fij1 * Fij1)%float in
  Py.Ok (signed_force (py_in (PyUnit unit) verticals) Fij0 f, unit).

End EndForces.

End Recovery.

(** ** class Bridge_64: the single span *)
Module Bridge_64.

Definition init : Bridge.t := Bridge.init (Some 64).

(** [unit in [3, 7, 11, 15, 19, 23, 27]] looks the member up here. *)
Definition verticals : list Recovery.pyobj :=
  map Recovery.PyInt [3; 7; 11; 15; 19; 23; 27].

(** The load shares of [get_nodes_vdisps_moment_between_nodes]:
    [(prev_node_index, next_node_index, prev_node_force,
    next_node_force)]. *)
Definition lever_rule (point : float) : Py.result (Z * Z * float * float) :=
  prev_node_index <- Py.int_floordiv point 8 ;;
  let next_node_index := prev_node_index + 1 in
  let prev_node_offset :=
    (point - Py.float_of_int (8 * prev_node_index))%float in
  let next_node_force := (- prev_node_offset / 8)%float in
  let prev_node_force := (-1 - next_node_force)%float in
  Py.Ok (prev_node_index, next_node_index, prev_node_force, next_node_force).

(** The force vector [F] of the between-nodes case, starting from
    [m] zeros ([m] is [reduced_K.shape[0]]). *)
Definition between_nodes_F (self : Bridge.t) (m : Z) (point : float)
  : Py.result NP.vec :=
  bc_nodes_indices <-
    Py.getattr "bottom_chord_nodes_indices"
               (Bridge.bottom_chord_nodes_indices self) ;;
  F <- NP.zeros m ;;
  '(prev_node_index, next_node_index, prev_node_force, next_node_force) <-
    lever_rule point ;;
  first <- Py.getitem bc_nodes_indices 0 ;;
  F <- (if negb (prev_node_index =? first)
        then Py.setitem F (4 * (prev_node_index + 1) - 5) prev_node_force
        else Py.Ok F) ;;
  before_last <- Py.getitem bc_nodes_indices (-2) ;;
  F <- (if negb (prev_node_index =? before_last)
        then Py.setitem F (4 * (next_node_index + 1) - 5) next_node_force
        else Py.Ok F) ;;
  Py.Ok F.

(** The force vector of the on-node case at an interior node. *)
Definition on_nodes_F (self : Bridge.t) (m : Z) (current_node_index : Z)
  : Py.result NP.vec :=
  F <- NP.zeros m ;;
  P <- Py.getattr "P" (Bridge.P self) ;;
  Py.setitem F (4 * (current_node_index + 1) - 5) (- P)%float.

(** The nested [get_u_and_v] of [get_one_unit_axial_force_moment]. *)
Definition get_u_and_v (self : Bridge.t) (node_num : Z) (D : NP.vec)
  : Py.result (float * float) :=
  bc_nodes_nums <-
    Py.getattr "bottom_chord_nodes_nums"
               (Bridge.bottom_chord_nodes_nums self) ;;
  first <- Py.getitem bc_nodes_nums 0 ;;
  last <- Py.getitem bc_nodes_nums (-1) ;;
  if negb ((first <=? node_num) && (node_num <=? last)) then
    Py.Raise Py.AssertionError
  else if node_num =? first then Py.Ok (0, 0)%float
  else if (first <? node_num) && (node_num <? last) then
    u <- Py.getitem D (2 * (node_num - 1) - 2) ;;
    v <- Py.getitem D (2 * (node_num - 1) - 1) ;;
    Py.Ok (u, v)
  else if node_num =? last then Py.Ok (0, 0)%float
  else Py.Raise Py.UnboundLocalError.

(** The loop of [save_nodes_vdisps_moment] over [self.nodes.keys()]. *)
Fixpoint save_loop (bc_nodes_nums : list Z) (D : NP.vec)
                   (ns : list (Z * Node.t))
  : Py.result (list (Z * Node.t)) :=
  match ns with
  | [] => Py.Ok []
  | (node_num, node) :: rest =>
      first <- Py.getitem bc_nodes_nums 0 ;;
      last <- Py.getitem bc_nodes_nums (-1) ;;
      v <- (if Py.int_in node_num [first; last] then Py.Ok 0%float
            else Py.getitem D (2 * (node_num - 1) - 1)) ;;
      rest' <- save_loop bc_nodes_nums D rest ;;
      Py.Ok ((node_num, Node.append_vdisp node v) :: rest')
  end.

Definition save_nodes_vdisps_moment (self : Bridge.t)
                                    (nodes_vdisps_moment : NP.vec)
  : Py.result Bridge.t :=
  bc_nodes_nums <-
    Py.getattr "bottom_chord_nodes_nums"
               (Bridge.bottom_chord_nodes_nums self) ;;
  ns <- save_loop bc_nodes_nums nodes_vdisps_moment (Bridge.nodes self) ;;
  Py.Ok (Bridge.set_nodes self ns).

Section Methods.

Variable libm : Libm.t.
Variable utils : Utils.t.
(** [np.linalg.inv] *)
Variable inv : NP.matrix -> Py.result NP.matrix.

Definition get_nodes_vdisps_moment_on_nodes (self : Bridge.t)
                                            (point : float)
  : Py.result (NP.vec * Bridge.t) :=
  bc_nodes_indices <-
    Py.getattr "bottom_chord_nodes_indices"
               (Bridge.bottom_chord_nodes_indices self) ;;
  current_node_index <- Py.int_floordiv point 8 ;;
  first <- Py.getitem bc_nodes_indices 0 ;;
  last <- Py.getitem bc_nodes_indices (-1) ;;
  if Py.int_in current_node_index [first; last] then
    '(Kr, self) <- Bridge.reduced_K libm utils self ;;
    D <- NP.zeros (NP.shape0 Kr) ;;
    Py.Ok (D, self)
  else
    '(Kr, self) <- Bridge.reduced_K libm utils self ;;
    F <- on_nodes_F self (NP.shape0 Kr) current_node_index ;;
    '(Kr, self) <- Bridge.reduced_K libm utils self ;;
    Kinv <- inv Kr ;;
    D <- NP.matmul Kinv F ;;
    Py.Ok (D, self).

Definition get_nodes_vdisps_moment_between_nodes (self : Bridge.t)
                                                 (point : float)
  : Py.result (NP.vec * Bridge.t) :=
  _ <- Py.getattr "bottom_chord_nodes_indices"
                  (Bridge.bottom_chord_nodes_indices self) ;;
  '(Kr, self) <- Bridge.reduced_K libm utils self ;;
  F <- between_nodes_F self (NP.shape0 Kr) point ;;
  '(Kr, self) <- Bridge.reduced_K libm utils self ;;
  Kinv <- inv Kr ;;
  D <- NP.matmul Kinv F ;;
  Py.Ok (D, self).

Definition get_one_unit_axial_force_moment (self : Bridge.t)
                                           (unit : Unit.t)
                                           (nodes_vdisps_moment : NP.vec)
  : Py.result (float * Unit.t) :=
  let i := Node.num (Unit.node_i unit) in
  let j := Node.num (Unit.node_j unit) in
  '(ui, vi) <- get_u_and_v self i nodes_vdisps_moment ;;
  '(uj, vj) <- get_u_and_v self j nodes_vdisps_moment ;;
  Recovery.axial_force libm verticals unit ui vi uj vj.

(** The class, as the base class's sweeps see it. *)
Definition cls : Bridge.methods :=
  {| Bridge.save_nodes_vdisps_moment := save_nodes_vdisps_moment;
     Bridge.get_nodes_vdisps_moment_on_nodes :=
       get_nodes_vdisps_moment_on_nodes;
     Bridge.get_nodes_vdisps_moment_between_nodes :=
       get_nodes_vdisps_moment_between_nodes;
     Bridge.get_one_unit_axial_force_moment :=
       get_one_unit_axial_force_moment |}.

End Methods.

End Bridge_64.

(** ** class Bridge_160: two spans over a centre support *)
Module Bridge_160.

Definition init : Bridge.t := Bridge.init (Some 160).

(** [shaft_units = list(range(3, 75 + 1, 4))], where [unit] is looked
    up. *)
Definition shaft_units : list Recovery.pyobj :=
  map Recovery.PyInt (Py.range_step 100 3 (75 + 1) 4).

(** The load shares, as in the single-span class. *)
Definition lever_rule (point : float) : Py.result (Z * Z * float * float) :=
  prev_node_index <- Py.int_floordiv point 8 ;;
  let next_node_index := prev_node_index + 1 in
  let prev_node_offset :=
    (point - Py.float_of_int (8 * prev_node_index))%float in
  let next_node_force := (- prev_node_offset / 8)%float in
  let prev_node_force := (-1 - next_node_force)%float in
  Py.Ok (prev_node_index, next_node_index, prev_node_force, next_node_force).

(** [len(self.bottom_chord_nodes_nums) // 2] *)
Definition bc_middle_node_index (self : Bridge.t) : Py.result Z :=
  bc_nodes_nums <-
    Py.getattr "bottom_chord_nodes_nums"
               (Bridge.bottom_chord_nodes_nums self) ;;
  Py.Ok (Z.of_nat (List.length bc_nodes_nums) / 2).

(** The force vector [F] of the between-nodes case, starting from [m]
    zeros. *)
Definition between_nodes_F (self : Bridge.t) (m : Z) (point : float)
  : Py.result NP.vec :=
  bc_nodes_indices <-
    Py.getattr "bottom_chord_nodes_indices"
               (Bridge.bottom_chord_nodes_indices self) ;;
  middle <- bc_middle_node_index self ;;
  '(prev_node_index, next_node_index, prev_node_force, next_node_force) <-
    lever_rule point ;;
  F <- NP.zeros m ;;
  if next_node_index <=? middle - 1 then
    first <- Py.getitem bc_nodes_indices 0 ;;
    if prev_node_index =? first then
      Py.setitem F (4 * (next_node_index + 1) - 5) next_node_force
    else
      F <- Py.setitem F (4 * (prev_node_index + 1) - 5) prev_node_force ;;
      Py.setitem F (4 * (next_node_index + 1) - 5) next_node_force
  else if middle + 1 <=? prev_node_index then
    last <- Py.getitem bc_nodes_indices (-1) ;;
    if next_node_index =? last then
      Py.setitem F (4 * (prev_node_index + 1) - 6) prev_node_force
    else
      F <- Py.setitem F (4 * (prev_node_index + 1) - 6) prev_node_force ;;
      Py.setitem F (4 * (next_node_index + 1) - 6) next_node_force
  else
    if next_node_index =? 21 then
      Py.setitem F (4 * (prev_node_index + 1) - 5) prev_node_force
    else if prev_node_index =? 21 then
      Py.setitem F (4 * (next_node_index + 1) - 6) next_node_force
    else Py.Ok F.

(** The force vector of the on-node case at a node that is no support. *)
Definition on_nodes_F (self : Bridge.t) (m : Z)
                      (current_node_index middle : Z)
  : Py.result NP.vec :=
  F <- NP.zeros m ;;
  if current_node_index <? middle then
    P <- Py.getattr "P" (Bridge.P self) ;;
    Py.setitem F (4 * (current_node_index + 1) - 5) (- P)%float
  else
    P <- Py.getattr "P" (Bridge.P self) ;;
    Py.setitem F (4 * (current_node_index + 1) - 6) (- P)%float.

(** The nested [get_u_and_v] of [get_one_unit_axial_force_moment]. *)
Definition get_u_and_v (self : Bridge.t) (node_num : Z) (D : NP.vec)
  : Py.result (float * float) :=
  bc_nodes_nums <-
    Py.getattr "bottom_chord_nodes_nums"
               (Bridge.bottom_chord_nodes_nums self) ;;
  bc_middle_node_num <-
    Py.getitem bc_nodes_nums (Z.of_nat (List.length bc_nodes_nums) / 2) ;;
  first <- Py.getitem bc_nodes_nums 0 ;;
  last <- Py.getitem bc_nodes_nums (-1) ;;
  if negb ((first <=? node_num) && (node_num <=? last)) then
    Py.Raise Py.AssertionError
  else if node_num =? first then Py.Ok (0, 0)%float
  else if (first <? node_num) && (node_num <? bc_middle_node_num) then
    u <- Py.getitem D (2 * (node_num - 1) - 2) ;;
    v <- Py.getitem D (2 * (node_num - 1) - 1) ;;
    Py.Ok (u, v)
  else if node_num =? bc_middle_node_num then Py.Ok (0, 0)%float
  else if (bc_middle_node_num <? node_num) && (node_num <? last) then
    u <- Py.getitem D (2 * (node_num - 1) - 3) ;;
    v <- Py.getitem D (2 * (node_num - 1) - 2) ;;
    Py.Ok (u, v)
  else if node_num =? last then Py.Ok (0, 0)%float
  else Py.Raise Py.UnboundLocalError.

(** The loop of [save_nodes_vdisps_moment] over [self.nodes.keys()]. *)
Fixpoint save_loop (bc_nodes_nums : list Z) (bc_middle_node_num : Z)
                   (D : NP.vec) (ns : list (Z * Node.t))
  : Py.result (list (Z * Node.t)) :=
  match ns with
  | [] => Py.Ok []
  | (node_num, node) :: rest =>
      first <- Py.getitem bc_nodes_nums 0 ;;
      last <- Py.getitem bc_nodes_nums (-1) ;;
      v <- (if Py.int_in node_num [first; bc_middle_node_num; last]
            then Py.Ok 0%float
            else if node_num <? bc_middle_node_num
                 then Py.getitem D (2 * node_num - 3)
                 else Py.getitem D (2 * node_num - 4)) ;;
      rest' <- save_loop bc_nodes_nums bc_middle_node_num D rest ;;
      Py.Ok ((node_num, Node.append_vdisp node v) :: rest')
  end.

Definition save_nodes_vdisps_moment (self : Bridge.t)
                                    (nodes_vdisps_moment : NP.vec)
  : Py.result Bridge.t :=
  bc_nodes_nums <-
    Py.getattr "bottom_chord_nodes_nums"
               (Bridge.bottom_chord_nodes_nums self) ;;
  bc_middle_node_num <-
    Py.getitem bc_nodes_nums (Z.of_nat (List.length bc_nodes_nums) / 2) ;;
  ns <- save_loop bc_nodes_nums bc_middle_node_num nodes_vdisps_moment
                  (Bridge.nodes self) ;;
  Py.Ok (Bridge.set_nodes self ns).

Section Methods.

Variable libm : Libm.t.
Variable utils : Utils.t.
(** [np.linalg.inv] *)
Variable inv : NP.matrix -> Py.result NP.matrix.

Definition get_nodes_vdisps_moment_on_nodes (self : Bridge.t)
                                            (point : float)
  : Py.result (NP.vec * Bridge.t) :=
  middle <- bc_middle_node_index self ;;
  bc_nodes_indices <-
    Py.getattr "bottom_chord_nodes_indices"
               (Bridge.bottom_chord_nodes_indices self) ;;
  current_node_index <- Py.int_floordiv point 8 ;;
  first <- Py.getitem bc_nodes_indices 0 ;;
  last <- Py.getitem bc_nodes_indices (-1) ;;
  if Py.int_in current_node_index [first; middle; last] then
    '(Kr, self) <- Bridge.reduced_K libm utils self ;;
    D <- NP.zeros (NP.shape0 Kr) ;;
    Py.Ok (D, self)
  else
    '(Kr, self) <- Bridge.reduced_K libm utils self ;;
    F <- on_nodes_F self (NP.shape0 Kr) current_node_index middle ;;
    '(Kr, self) <- Bridge.reduced_K libm utils self ;;
    Kinv <- inv Kr ;;
    D <- NP.matmul Kinv F ;;
    Py.Ok (D, self).

Definition get_nodes_vdisps_moment_between_nodes (self : Bridge.t)
                                                 (point : float)
  : Py.result (NP.vec * Bridge.t) :=
  _ <- Py.getattr "bottom_chord_nodes_indices"
                  (Bridge.bottom_chord_nodes_indices self) ;;
  _ <- bc_middle_node_index self ;;
  _ <- lever_rule point ;;
  '(Kr, self) <- Bridge.reduced_K libm utils self ;;
  F <- between_nodes_F self (NP.shape0 Kr) point ;;
  '(Kr, self) <- Bridge.reduced_K libm utils self ;;
  Kinv <- inv Kr ;;
  D <- NP.matmul Kinv F ;;
  Py.Ok (D, self).

Definition get_one_unit_axial_force_moment (self : Bridge.t)
                                           (unit : Unit.t)
                                           (nodes_vdisps_moment : NP.vec)
  : Py.result (float * Unit.t) :=
  let i := Node.num (Unit.node_i unit) in
  let j := Node.num (Unit.node_j unit) in
  '(ui, vi) <- get_u_and_v self i nodes_vdisps_moment ;;
  '(uj, vj) <- get_u_and_v self j nodes_vdisps_moment ;;
  Recovery.axial_force libm shaft_units unit ui vi uj vj.

(** The class, as the base class's sweeps see it. *)
Definition cls : Bridge.methods :=
  {| Bridge.save_nodes_vdisps_moment := save_nodes_vdisps_moment;
     Bridge.get_nodes_vdisps_moment_on_nodes :=
       get_nodes_vdisps_moment_on_nodes;
     Bridge.get_nodes_vdisps_moment_between_nodes :=
       get_nodes_vdisps_moment_between_nodes;
     Bridge.get_one_unit_axial_force_moment :=
       get_one_unit_axial_force_moment |}.

End Methods.

End Bridge_160.

(** ** A structure to run the code on
    Sixteen nodes on a 64-unit span, the bottom chord 1, 3, ..., 15, 16 at
    abscissas 0, 8, ..., 64 and the even nodes 11 units above; three
    members: a bottom-chord member, the vertical member 3 and a top-chord
    member. *)
Module Example.

(** libm at the two angles of the example's members, 0 for a horizontal
    member and [pi / 2] for a vertical one, with a [pow] that is correctly
    rounded for the exponent 2. *)
Definition libm : Libm.t :=
  {| Libm.cos := fun a =>
       if PrimFloat.eqb a (Libm.pi / 2)%float
       then 6.123233995736766e-17%float else 1%float;
     Libm.sin := fun a =>
       if PrimFloat.eqb a (Libm.pi / 2)%float then 1%float else 0%float;
     Libm.atan := fun _ => 0%float;
     Libm.pow := fun x _ => (x * x)%float |}.

Definition identity (n : nat) : NP.matrix :=
  map (fun i => map (fun j => if Nat.eqb i j then 1%float else 0%float)
                    (seq 0 n))
      (seq 0 n).

(** [np.linalg.inv] on an identity matrix. *)
Definition inv (m : NP.matrix) : Py.result NP.matrix := Py.Ok m.

Definition node_xy (k : Z) : Z * Z :=
  if k =? 16 then (64, 0)
  else if Z.odd k then (8 * (k / 2), 0)
  else (8 * (k / 2), 11).

Definition node (k : Z) : Node.t := Node.init k (node_xy k).

Definition nodes : list (Z * Node.t) :=
  map (fun k => (k, node k)) (map Z.of_nat (seq 1 16)).

(** The section of the spec's scenario: height 1.0, flange thickness
    0.02, web thickness 0.01, flange width 0.3. *)
Definition section : list float := [1.0; 0.02; 0.01; 0.3]%float.

Definition member (k i j : Z) (data : list float) : Unit.t :=
  Unit.set_beam_section_data (Unit.init k (node i, node j)) data.

Definition units : list (Z * Unit.t) :=
  [ (2, member 2 1 3 section);
    (3, member 3 2 3 section);
    (4, member 4 2 4 section) ].

Definition bc64 : list Z := [1; 3; 5; 7; 9; 11; 13; 15; 16].

(** The single-span bridge after [load_data] and [load_params], its
    reduced stiffness cached as the identity of order 29. *)
Definition bridge64 (P : float) : Bridge.t :=
  Bridge.set_reduced_K
    (Bridge.load_params
       (Bridge.set_units (Bridge.set_nodes Bridge_64.init nodes) units)
       2.1e11%float P 0%float bc64)
    (identity 29).

Definition cls64 : Bridge.methods := Bridge_64.cls libm UtilsSpec.utils inv.

(** The two-span bridge with its 21 bottom-chord nodes 1, 3, ..., 39, 40
    and no structure loaded, its reduced stiffness cached as the identity
    of order 76. *)
Definition bc160 : list Z :=
  map (fun i => 2 * Z.of_nat i + 1) (seq 0 20) ++ [40].

Definition bridge160 (P : float) : Bridge.t :=
  Bridge.set_reduced_K
    (Bridge.load_params Bridge_160.init 2.1e11%float P 0%float bc160)
    (identity 76).

Definition cls160 : Bridge.methods :=
  Bridge_160.cls libm UtilsSpec.utils inv.

(** Sample [i] of the displacement influence line of node [k]. *)
Definition vdisp_at (r : Py.result Bridge.t) (k : Z) (i : nat)
  : option float :=
  match r with
  | Py.Ok b =>
      match find (fun kn => fst kn =? k) (Bridge.nodes b) with
      | Some kn => nth_error (Node.vdisps (snd kn)) i
      | None => None
      end
  | Py.Raise _ => None
  end.

(** Sample [i] of the axial-force influence line of member [k]. *)
Definition axial_force_at (r : Py.result Bridge.t) (k : Z) (i : nat)
  : option float :=
  match r with
  | Py.Ok b =>
      match find (fun ku => fst ku =? k) (Bridge.units b) with
      | Some ku => nth_error (Unit.axial_forces (snd ku)) i
      | None => None
      end
  | Py.Raise _ => None
  end.

(** The vertical member 3 as [load_params] leaves it, the displacement
    vector of the load position 4.0 (the unit load halfway between the
    nodes 1 and 3), and the end forces of the member under it. *)
Definition vertical3 : Unit.t :=
  Unit.set_E (member 3 2 3 section) (Some 2.1e11%float).

Definition D4 : NP.vec := Py.replace_nth (repeat 0%float 29) 3 (-0.5)%float.

Definition vertical3_Fij : NP.vec :=
  match Recovery.end_forces libm vertical3 0 0 0 (-0.5) with
  | Py.Ok (Fij, _) => Fij
  | Py.Raise _ => []
  end.

Definition vertical3_after : Unit.t :=
  match Recovery.end_forces libm vertical3 0 0 0 (-0.5) with
  | Py.Ok (_, unit) => unit
  | Py.Raise _ => vertical3
  end.

(** A member with a negative web thickness, hence a negative area, on
    a two-node structure. *)
Definition bad_section : list float := [1.0; 0.02; -0.5; 0.3]%float.

Definition bad_member : Unit.t :=
  Unit.set_beam_section_data
    (Unit.init 1 (Node.init 1 (0, 0), Node.init 2 (8, 0))) bad_section.

(** The same member in the bridge, after [load_params] has set its
    modulus. *)
Definition bad_member_loaded : Unit.t :=
  Unit.set_E bad_member (Some 2.1e11%float).

Definition bad_bridge : Bridge.t :=
  Bridge.set_n
    (Bridge.load_params
       (Bridge.set_units
          (Bridge.set_nodes Bridge_64.init
             [(1, Node.init 1 (0, 0)); (2, Node.init 2 (8, 0))])
          [(1, bad_member)])
       2.1e11%float 1%float 0%float [1; 2])
    2.

End Example.

(** ** The sweep, position by position *)
Module Sweep.

(** The positions of the bottom-chord nodes, [8.0 * index], for [nb]
    nodes. *)
Definition node_positions (nb : nat) : list float :=
  map (fun i => (8 * Py.float_of_int i)%float) (Py.range nb).

(** Entry [i] of the axis of the sweep. *)
Definition position (i : nat) : float := NP.arange_item 0%float 0.1%float i.

(** The number of entries of the axis for [nb] bottom-chord nodes at 8
    units from each other, ten per unit and both ends. *)
Definition count (nb : nat) : nat := 80 * (nb - 1) + 1.

(** What is checked of entry [i] by evaluation: it is on a node, for the
    test of [get_nodes_vdisps_moment], exactly when [i] is a multiple of
    80, and it then equals the position of the node of index
    [i / 80]. *)
Definition position_check (nb : nat) (i : nat) : bool :=
  let point := position i in
  let multiple := Nat.eqb (i mod 80) 0 in
  match Bridge.on_node_test (Py.range nb) point with
  | Py.Ok b =>
      Bool.eqb b multiple
      && Bool.eqb (Py.float_in point (node_positions nb)) multiple
      && (negb multiple
          || PrimFloat.eqb point
               (Py.float_of_int (8 * Z.of_nat (i / 80))))
  | Py.Raise _ => false
  end.

(** [floor(span_length / 0.1) + 1], the number of load positions the
    spec gives for a span, in the floats of the code. *)
Definition spec_position_count (span_length : Z) : Py.result Z :=
  q <- Py.int_floordiv (Py.float_of_int span_length / 0.1)%float 1 ;;
  Py.Ok (q + 1).

(** The entries that [save_nodes_vdisps_moment] of the single span
    reads in a vector of [m] entries exist: node number [k] is an end of
    the bottom chord or [2 * (k - 1) - 1] is an index of the vector. *)
Definition readable_64 (first last : Z) (m : nat) (kn : Z * Node.t)
  : bool :=
  Py.int_in (fst kn) [first; last]
  || ((- Z.of_nat m <=? 2 * (fst kn - 1) - 1)
      && (2 * (fst kn - 1) - 1 <? Z.of_nat m)).

(** The force vector the spec describes for a load between the nodes of
    index [prev] and [next], at [offset] from the first: the share
    [offset / 8] on [next] and the remainder [1 - offset / 8] on [prev],
    both downward, no entry for a support, zero elsewhere.  [dof] gives the
    entry of the vertical degree of freedom of a bottom-chord node. *)
Definition spec_between_F (supports : list Z) (dof : Z -> Z) (m : nat)
                          (prev next : Z) (offset : float) : NP.vec :=
  let zero := repeat 0%float m in
  let with_prev :=
    if Py.int_in prev supports then zero
    else Py.replace_nth zero (Z.to_nat (dof prev)) (- (1 - offset / 8))%float in
  if Py.int_in next supports then with_prev
  else Py.replace_nth with_prev (Z.to_nat (dof next)) (- (offset / 8))%float.

(** The entry of the vertical degree of freedom of the bottom-chord node
    of index [k], as the on-node methods of the two profiles compute it. *)
Definition dof_64 (k : Z) : Z := 4 * (k + 1) - 5.
Definition dof_160 (k : Z) : Z :=
  if k <? 10 then 4 * (k + 1) - 5 else 4 * (k + 1) - 6.

Definition vec_eqb (x y : NP.vec) : bool :=
  Nat.eqb (List.length x) (List.length y)
  && forallb (fun p => PrimFloat.eqb (fst p) (snd p)) (combine x y).

(** Whether the force vector [F] computed for entry [i] of the axis is the
    one the spec describes. *)
Definition between_F_agrees (F : Py.result NP.vec) (supports : list Z)
                            (dof : Z -> Z) (m : nat) (i : nat) : bool :=
  let prev := Z.of_nat (i / 80) in
  match F with
  | Py.Ok F =>
      vec_eqb F (spec_between_F supports dof m prev (prev + 1)
                   (position i - Py.float_of_int (8 * prev))%float)
  | Py.Raise _ => false
  end.

(** Entry [i] of the axis is between the nodes next to the centre support
    of the two-span layout. *)
Definition next_to_centre (i : nat) : bool :=
  Nat.eqb (i / 80) 9 || Nat.eqb (i / 80) 10.

(** The lengths of the influence lines of a bridge, node by node and
    member by member. *)
Definition node_lens (b : Bridge.t) : list nat :=
  map (fun kn => List.length (Node.vdisps (snd kn))) (Bridge.nodes b).

Definition unit_lens_of (us : list (Z * Unit.t)) : list nat :=
  map (fun ku => List.length (Unit.axial_forces (snd ku))) us.

Definition unit_lens (b : Bridge.t) : list nat :=
  unit_lens_of (Bridge.units b).

(** What the sweeps of the base class need of the four methods of a
    profile: computing a displacement vector or an axial force changes no
    influence line, and saving a displacement vector adds one sample to
    the line of every node. *)
Record keeps_lines (cls : Bridge.methods) : Prop := {
  on_nodes_keeps :
    forall self point D self',
      Bridge.get_nodes_vdisps_moment_on_nodes cls self point
      = Py.Ok (D, self') ->
      node_lens self' = node_lens self /\ unit_lens self' = unit_lens self;
  between_nodes_keeps :
    forall self point D self',
      Bridge.get_nodes_vdisps_moment_between_nodes cls self point
      = Py.Ok (D, self') ->
      node_lens self' = node_lens self /\ unit_lens self' = unit_lens self;
  save_adds_one :
    forall self D self',
      Bridge.save_nodes_vdisps_moment cls self D = Py.Ok self' ->
      node_lens self' = map S (node_lens self);
  one_unit_keeps :
    forall self unit D f unit',
      Bridge.get_one_unit_axial_force_moment cls self unit D
      = Py.Ok (f, unit') ->
      List.length (Unit.axial_forces unit')
      = List.length (Unit.axial_forces unit)
}.

(** The bridges the sweeps of the example return. *)
Definition swept_nodes : Bridge.t :=
  match Bridge.get_nodes_vdisps Example.cls64 (Example.bridge64 1) with
  | Py.Ok b => b
  | Py.Raise _ => Example.bridge64 1
  end.

Definition swept_units : Bridge.t :=
  match Bridge.get_units_axial_forces Example.cls64 (Example.bridge64 1)
  with
  | Py.Ok b => b
  | Py.Raise _ => Example.bridge64 1
  end.

End Sweep.

(** ** Notions used to state further properties *)
Module Facts.

(** The transpose of a matrix given by its rows. *)
Definition transpose (M : NP.matrix) : NP.matrix :=
  match M with
  | [] => []
  | r :: _ =>
      map (fun j => map (fun row => nth j row 0%float) M)
          (seq 0 (List.length r))
  end.

(** The sequence of the four calls that
    [get_unit_worst_cases_load_trick2] inlines: uniform then combined load
    for the left orientation, then the same for the right one. *)
Definition four_calls (unit_axial_forces load : NP.vec)
                      (pos_max neg_min : float)
  : Py.result (float * float) :=
  '(pos_max, neg_min) <-
     Bridge.get_uniform_load_max_trick unit_axial_forces load
                                       pos_max neg_min Bridge.left ;;
  '(pos_max, neg_min) <-
     Bridge.get_both_load_max_trick unit_axial_forces load
                                    pos_max neg_min Bridge.left ;;
  '(pos_max, neg_min) <-
     Bridge.get_uniform_load_max_trick unit_axial_forces load
                                       pos_max neg_min Bridge.right ;;
  Bridge.get_both_load_max_trick unit_axial_forces load
                                 pos_max neg_min Bridge.right.

(** A bridge as the module's own methods build it: [__init__] of a class
    of length [class_length], the two loaders, then [load_params]. *)
Definition built (class_length : option Z)
                 (node_rows unit_rows : list (list Z))
                 (section_rows : list (Z * list float))
                 (E P h : float) (bc : list Z) : Py.result Bridge.t :=
  b <- Bridge.load_data class_length (Bridge.init class_length)
                        node_rows unit_rows section_rows ;;
  Py.Ok (Bridge.load_params b E P h bc).

(** The rows of the example's structure, as the three files give them. *)
Definition node_rows : list (list Z) :=
  map (fun k => [k; fst (Example.node_xy k); snd (Example.node_xy k)])
      (map Z.of_nat (seq 1 16)).

Definition unit_rows : list (list Z) := [[2; 1; 3]; [3; 2; 3]; [4; 2; 4]].

Definition section_rows : list (Z * list float) :=
  [(2, Example.section); (3, Example.section); (4, Example.section)].

(** Two states of one member: everything but the four caches of its
    properties is the same. *)
Definition same_member (u u' : Unit.t) : Prop :=
  Unit.num u' = Unit.num u
  /\ Unit.node_i u' = Unit.node_i u
  /\ Unit.node_j u' = Unit.node_j u
  /\ Unit.beam_section_data u' = Unit.beam_section_data u
  /\ Unit._E u' = Unit._E u
  /\ Unit.axial_forces u' = Unit.axial_forces u
  /\ Unit.max_force u' = Unit.max_force u.

(** A member as [Unit(num, nodes_pair)] leaves it, whatever its section
    data: the four caches and the modulus are still [None]. *)
Definition fresh (u : Unit.t) : Prop :=
  Unit._alpha u = None /\ Unit._length u = None /\ Unit._area u = None
  /\ Unit._kij u = None /\ Unit._E u = None.

(** The keys of a dictionary, in its order. *)
Definition keys {A : Type} (d : list (Z * A)) : list Z := map fst d.

(** The part of the unit load that a force vector can carry when the load
    is between the bottom-chord nodes of index [prev] and [next]: the
    share of a node that is a support has no entry in the vector. *)
Definition carried (supports : list Z) (prev next : Z)
                   (prev_node_force next_node_force : float) : float :=
  if Py.int_in prev supports then next_node_force
  else if Py.int_in next supports then prev_node_force
  else (-1)%float.

(** What is checked, by evaluation, of the force vector [F] computed for
    entry [i] of the axis and of the shares [lever] of that entry: [F]
    has [m] entries, the load is between the nodes of index [i / 80] and
    [i / 80 + 1], and the entries of [F] add up to the part of the load
    that is carried. *)
Definition load_check (F : Py.result NP.vec)
                      (lever : Py.result (Z * Z * float * float))
                      (supports : list Z) (m : nat) (i : nat) : bool :=
  match F, lever with
  | Py.Ok F, Py.Ok (prev, next, prev_node_force, next_node_force) =>
      Nat.eqb (List.length F) m
      && (prev =? Z.of_nat (i / 80)) && (next =? prev + 1)
      && PrimFloat.eqb (NP.sum F)
           (carried supports prev next prev_node_force next_node_force)
  | _, _ => false
  end.

(** The recorded axial forces of the members of a bridge, by member
    number and in the order of the dictionary. *)
Definition axial_lines (b : Bridge.t) : list (Z * list float) :=
  map (fun ku => (fst ku, Unit.axial_forces (snd ku))) (Bridge.units b).

(** A node without its line, and a member without its caches and its
    line, each under its key. *)
Definition node_id (kn : Z * Node.t) : Z * Z * (Z * Z) :=
  (fst kn, Node.num (snd kn), Node.coordinates (snd kn)).

Definition unit_id (ku : Z * Unit.t) : Z * Z * Node.t * Node.t * list float :=
  (fst ku, Unit.num (snd ku), Unit.node_i (snd ku), Unit.node_j (snd ku),
   Unit.beam_section_data (snd ku)).

Definition node_ids (b : Bridge.t) : list (Z * Z * (Z * Z)) :=
  map node_id (Bridge.nodes b).

Definition unit_ids (b : Bridge.t)
  : list (Z * Z * Node.t * Node.t * list float) :=
  map unit_id (Bridge.units b).

(** Two states of one structure: the same nodes and the same members,
    key by key and in the same order, and the same bottom chord and
    length; lines and caches may differ. *)
Definition same_structure (b b' : Bridge.t) : Prop :=
  node_ids b' = node_ids b
  /\ unit_ids b' = unit_ids b
  /\ Bridge.bottom_chord_nodes_indices b'
     = Bridge.bottom_chord_nodes_indices b
  /\ Bridge.bottom_chord_nodes_nums b' = Bridge.bottom_chord_nodes_nums b
  /\ Bridge._length b' = Bridge._length b.

(** The example after both sweeps, the displacements first and the
    forces first. *)
Definition swept_nodes_then_units : Bridge.t :=
  match Bridge.get_units_axial_forces Example.cls64 Sweep.swept_nodes with
  | Py.Ok b => b
  | Py.Raise _ => Example.bridge64 1
  end.

Definition swept_units_then_nodes : Bridge.t :=
  match Bridge.get_nodes_vdisps Example.cls64 Sweep.swept_units with
  | Py.Ok b => b
  | Py.Raise _ => Example.bridge64 1
  end.

End Facts.

(** * Properties of the embedded code *)

(** ** Reasoning about [Py.result] *)

Lemma bind_Ok_inv {A B : Type} (r : Py.result A) (k : A -> Py.result B) (b : B) :
  Py.bind r k = Py.Ok b -> exists a, r = Py.Ok a /\ k a = Py.Ok b.
Proof.
  destruct r as [a|e]; simpl; intros H; [exists a; split; trivial | discriminate].
Qed.

(** Splits a hypothesis [x <- c ;; k = Ok b] into [c = Ok a] and the rest. *)
Ltac bind_inv H :=
  let a := fresh "a" in
  let Ha := fresh "Ha" in
  apply bind_Ok_inv in H; destruct H as [a [Ha H]].

Lemma zeros_Ok (m : Z) :
  0 <= m -> NP.zeros m = Py.Ok (repeat 0%float (Z.to_nat m)).
Proof.
  intros Hm; unfold NP.zeros.
  destruct (Z.ltb_spec m 0) as [Hlt|_]; [lia | reflexivity].
Qed.

(** Two floats that the [==] test separates are different. *)
Lemma float_neq_of_eqb (x y : float) : PrimFloat.eqb x y = false -> PrimFloat.eqb y y = true -> x <> y.
Proof. intros Hxy Hyy ->. rewrite Hyy in Hxy. discriminate. Qed.

(** ** The area of a member (C1) *)

(** C1, as the code has it: for every member whose section data is the
    4-tuple (height [a], flange thickness [b], web thickness [c], flange
    width [d]) and whose area cache is empty or holds the value the
    property stores, the [area] property returns
    [2*b*d + (a - 2*b)*c]: the web term subtracts twice the flange
    THICKNESS from the height, not twice the flange width.  The value is
    left in the cache and the section data is unchanged. *)
Theorem area_subtracts_flange_thickness :
  forall (u : Unit.t) (a b c d : float),
    Unit.beam_section_data u = [a; b; c; d] ->
    (Unit._area u = None
     \/ Unit._area u = Some (2 * b * d + (a - 2 * b) * c)%float) ->
    exists u' : Unit.t,
      Unit.area u = Py.Ok ((2 * b * d + (a - 2 * b) * c)%float, u')
      /\ Unit._area u' = Some (2 * b * d + (a - 2 * b) * c)%float
      /\ Unit.beam_section_data u' = [a; b; c; d].
Proof.
  intros u a b c d Hdata Hcache.
  unfold Unit.area.
  destruct Hcache as [Hnone | Hsome].
  - rewrite Hnone; simpl. rewrite Hdata.
    eexists; split; [reflexivity | split; [reflexivity | exact Hdata]].
  - rewrite Hsome; unfold Py.if_truthy.
    destruct (Py.truthy (2 * b * d + (a - 2 * b) * c)%float).
    + exists u; split; [reflexivity | split; assumption].
    + rewrite Hdata.
      eexists; split; [reflexivity | split; [reflexivity | exact Hdata]].
Qed.

(** The instance of C1 at the section of the spec's scenario: the area is
    0.0216. *)
Lemma area_subtracts_flange_thickness_witness :
  exists u' : Unit.t,
    Unit.area (Example.member 3 2 3 Example.section)
    = Py.Ok (0.0216%float, u')
    /\ Unit._area u' = Some 0.0216%float
    /\ Unit.beam_section_data u' = Example.section.
Proof.
  exact (area_subtracts_flange_thickness
           (Example.member 3 2 3 Example.section)
           1.0%float 0.02%float 0.01%float 0.3%float
           eq_refl (or_introl eq_refl)).
Defined.

(** C1 fails as the spec words it: at height 1.0, flange thickness 0.02,
    web thickness 0.01, flange width 0.3 the spec's formula gives 0.016
    and the [area] property returns another number. *)
Lemma area_differs_from_spec_formula :
  Unit.spec_area_formula 1.0 0.02 0.01 0.3 = 0.016%float
  /\ exists (v : float) (u' : Unit.t),
       Unit.area (Example.member 3 2 3 Example.section) = Py.Ok (v, u')
       /\ v <> Unit.spec_area_formula 1.0 0.02 0.01 0.3
       /\ v <> 0.016%float.
Proof.
  split; [vm_compute; reflexivity |].
  eexists; eexists; split; [vm_compute; reflexivity |].
  split; apply float_neq_of_eqb; vm_compute; reflexivity.
Qed.

(** ** The worst-case load search (C2) *)

(** C2 on the code: [get_unit_worst_cases_load_trick] stops at its first
    statement, where the name [compute_uniform_load_max_trick] is bound
    nowhere, and so does [get_worst_cases_load] on every bridge that has a
    member: no regime is evaluated and no pair is stored. *)
Theorem get_worst_cases_load_raises_NameError :
  forall (self : Bridge.t) (ku : Z * Unit.t) (rest : list (Z * Unit.t))
         (unit_axial_forces load : NP.vec) (pos_max neg_min : float),
    Bridge.get_unit_worst_cases_load_trick unit_axial_forces load
                                           pos_max neg_min
    = Py.Raise (Py.NameError "compute_uniform_load_max_trick")
    /\ Bridge.get_worst_cases_load (Bridge.set_units self (ku :: rest)) load
       = Py.Raise (Py.NameError "compute_uniform_load_max_trick").
Proof.
  intros self [k u] rest uaf load pos_max neg_min.
  split; reflexivity.
Qed.

(** ** The sign of the recovered axial force (C4) *)

Lemma py_in_unit_ints (u : Unit.t) (l : list Z) :
  Recovery.py_in (Recovery.PyUnit u) (map Recovery.PyInt l) = false.
Proof.
  unfold Recovery.py_in.
  induction l as [|z l IH]; simpl; [reflexivity | exact IH].
Qed.

Lemma axial_force_chord_sign (libm : Libm.t) (l : list Z)
      (unit unit' : Unit.t) (ui vi uj vj : float)
      (Fij : NP.vec) (Fij0 Fij1 : float) :
  Recovery.end_forces libm unit ui vi uj vj = Py.Ok (Fij, unit') ->
  Py.getitem Fij 0 = Py.Ok Fij0 ->
  Py.getitem Fij 1 = Py.Ok Fij1 ->
  Recovery.axial_force libm (map Recovery.PyInt l) unit ui vi uj vj
  = Py.Ok ((if PrimFloat.ltb 0 Fij0
            then - PrimFloat.sqrt (Fij0 * Fij0 + Fij1 * Fij1)
            else PrimFloat.sqrt (Fij0 * Fij0 + Fij1 * Fij1))%float, unit').
Proof.
  intros Hend H0 H1.
  unfold Recovery.axial_force.
  rewrite Hend; simpl. rewrite H0; simpl. rewrite H1; simpl.
  rewrite py_in_unit_ints. reflexivity.
Qed.

(** C4 on the code: a member whose number is in the list of verticals,
    and whose local axial-x force component [Fij[0]] is positive, is
    recorded with the NEGATIVE magnitude in both profiles, exactly as a
    chord or diagonal member is: [unit in [3, 7, ...]] compares a member
    object with ints and never holds. *)
Theorem vertical_member_gets_chord_sign :
  forall (libm : Libm.t) (self : Bridge.t) (unit unit' : Unit.t)
         (D : NP.vec) (ui vi uj vj : float)
         (Fij : NP.vec) (Fij0 Fij1 : float),
    In (Recovery.PyInt (Unit.num unit)) Bridge_64.verticals ->
    In (Recovery.PyInt (Unit.num unit)) Bridge_160.shaft_units ->
    Recovery.end_forces libm unit ui vi uj vj = Py.Ok (Fij, unit') ->
    Py.getitem Fij 0 = Py.Ok Fij0 ->
    Py.getitem Fij 1 = Py.Ok Fij1 ->
    PrimFloat.ltb 0 Fij0 = true ->
    (Bridge_64.get_u_and_v self (Node.num (Unit.node_i unit)) D
       = Py.Ok (ui, vi) ->
     Bridge_64.get_u_and_v self (Node.num (Unit.node_j unit)) D
       = Py.Ok (uj, vj) ->
     Bridge_64.get_one_unit_axial_force_moment libm self unit D
     = Py.Ok ((- PrimFloat.sqrt (Fij0 * Fij0 + Fij1 * Fij1))%float, unit'))
    /\ (Bridge_160.get_u_and_v self (Node.num (Unit.node_i unit)) D
          = Py.Ok (ui, vi) ->
        Bridge_160.get_u_and_v self (Node.num (Unit.node_j unit)) D
          = Py.Ok (uj, vj) ->
        Bridge_160.get_one_unit_axial_force_moment libm self unit D
        = Py.Ok ((- PrimFloat.sqrt (Fij0 * Fij0 + Fij1 * Fij1))%float,
                 unit')).
Proof.
  intros libm self unit unit' D ui vi uj vj Fij Fij0 Fij1
         _ _ Hend H0 H1 Hpos.
  split; intros Hi Hj.
  - unfold Bridge_64.get_one_unit_axial_force_moment.
    rewrite Hi; simpl. rewrite Hj; simpl.
    unfold Bridge_64.verticals.
    rewrite (axial_force_chord_sign libm _ unit unit' ui vi uj vj
               Fij Fij0 Fij1 Hend H0 H1).
    rewrite Hpos. reflexivity.
  - unfold Bridge_160.get_one_unit_axial_force_moment.
    rewrite Hi; simpl. rewrite Hj; simpl.
    unfold Bridge_160.shaft_units.
    rewrite (axial_force_chord_sign libm _ unit unit' ui vi uj vj
               Fij Fij0 Fij1 Hend H0 H1).
    rewrite Hpos. reflexivity.
Qed.

(** The instance of C4 at the vertical member 3 of the example, under the
    unit load at position 4.0: [Fij[0]] is positive and the recorded force
    is negative. *)
Lemma vertical_member_gets_chord_sign_witness :
  Py.getitem Example.vertical3_Fij 0 = Py.Ok 206181818.18181819%float
  /\ Bridge_64.get_one_unit_axial_force_moment
       Example.libm (Example.bridge64 0) Example.vertical3 Example.D4
     = Py.Ok ((-206181818.18181819)%float, Example.vertical3_after).
Proof.
  split; [vm_compute; reflexivity |].
  refine (proj1 (vertical_member_gets_chord_sign
                   Example.libm (Example.bridge64 0)
                   Example.vertical3 Example.vertical3_after Example.D4
                   0 0 0 (-0.5) Example.vertical3_Fij
                   206181818.18181819 0 _ _ _ _ _ _) _ _).
  - vm_compute; auto.
  - vm_compute; auto.
  - vm_compute; reflexivity.
  - vm_compute; reflexivity.
  - vm_compute; reflexivity.
  - vm_compute; reflexivity.
  - vm_compute; reflexivity.
  - vm_compute; reflexivity.
Defined.

(** ** The unit load of the between-nodes case (C3) *)

Lemma between_nodes_F_64_ignores_P (self : Bridge.t) (p : float) (m : Z)
      (point : float) :
  Bridge_64.between_nodes_F (Bridge.set_P self p) m point
  = Bridge_64.between_nodes_F self m point.
Proof. reflexivity. Qed.

Lemma between_nodes_F_160_ignores_P (self : Bridge.t) (p : float) (m : Z)
      (point : float) :
  Bridge_160.between_nodes_F (Bridge.set_P self p) m point
  = Bridge_160.between_nodes_F self m point.
Proof. reflexivity. Qed.

(** C3 on the code: the between-nodes force vector does not depend on
    [P] (the shares are those of a load of magnitude 1), so a sweep with
    [P = 0] is not all zero.  On the example, with [P = 0], sample 40
    (load position 4.0) of the influence line of node 3 is -0.5 and that of
    member 3 is not zero either. *)
Theorem sweep_with_zero_load_is_not_zero :
  (forall (self : Bridge.t) (p : float) (m : Z) (point : float),
      Bridge_64.between_nodes_F (Bridge.set_P self p) m point
      = Bridge_64.between_nodes_F self m point
      /\ Bridge_160.between_nodes_F (Bridge.set_P self p) m point
         = Bridge_160.between_nodes_F self m point)
  /\ Bridge.P (Example.bridge64 0) = Some 0%float
  /\ Example.vdisp_at
       (Bridge.get_nodes_vdisps Example.cls64 (Example.bridge64 0)) 3 40
     = Some (-0.5)%float
  /\ Example.axial_force_at
       (Bridge.get_units_axial_forces Example.cls64 (Example.bridge64 0)) 3 40
     = Some (-206181818.18181819)%float.
Proof.
  split.
  { intros self p m point.
    split; [apply between_nodes_F_64_ignores_P
           | apply between_nodes_F_160_ignores_P]. }
  split; [reflexivity |].
  split; vm_compute; reflexivity.
Qed.

(** ** The force vector next to the centre support (C6) *)

Lemma lever_rule_160_next (point : float) (prev next : Z) (pf nf : float) :
  Bridge_160.lever_rule point = Py.Ok (prev, next, pf, nf) -> next = prev + 1.
Proof.
  unfold Bridge_160.lever_rule; intros H.
  bind_inv H. inversion H; subst. reflexivity.
Qed.

(** C6 on the code of the two-span profile: with 21 bottom-chord nodes
    (centre support at index 10), every load position whose previous node
    index is 9 or 10 gets the ALL-ZERO force vector.  The node at index 9
    (resp. 11) is no support, yet its share [1 - offset/8] (resp.
    [offset/8]) is not entered: the last branch compares the indices with
    the node number 21. *)
Theorem two_span_force_vector_vanishes_next_to_centre :
  forall (self : Bridge.t) (bc : list Z) (m : Z) (point : float)
         (prev next : Z) (prev_force next_force : float),
    Bridge.bottom_chord_nodes_nums self = Some bc ->
    Bridge.bottom_chord_nodes_indices self
      = Some (Py.range (List.length bc)) ->
    List.length bc = 21%nat ->
    0 <= m ->
    Bridge_160.lever_rule point
      = Py.Ok (prev, next, prev_force, next_force) ->
    prev = 9 \/ prev = 10 ->
    Bridge_160.between_nodes_F self m point
    = Py.Ok (repeat 0%float (Z.to_nat m)).
Proof.
  intros self bc m point prev next pf nf Hnums Hidx Hlen Hm Hlever Hprev.
  pose proof (lever_rule_160_next _ _ _ _ _ Hlever) as Hnext.
  unfold Bridge_160.between_nodes_F, Bridge_160.bc_middle_node_index.
  rewrite Hidx, Hnums; simpl.
  rewrite Hlever; simpl.
  rewrite (zeros_Ok m Hm); simpl.
  rewrite Hlen, Hnext.
  destruct Hprev as [-> | ->]; reflexivity.
Qed.

(** The instance of C6 at load position 76.0, halfway between the nodes
    of index 9 and 10: the shares are -0.5 and -0.5 and the force vector of
    order 76 is zero. *)
Lemma two_span_force_vector_vanishes_next_to_centre_witness :
  Bridge_160.lever_rule 76%float = Py.Ok (9, 10, (-0.5)%float, (-0.5)%float)
  /\ Bridge_160.between_nodes_F (Example.bridge160 1) 76 76%float
     = Py.Ok (repeat 0%float 76).
Proof.
  split; [vm_compute; reflexivity |].
  refine (two_span_force_vector_vanishes_next_to_centre
            (Example.bridge160 1) Example.bc160 76 76%float
            9 10 (-0.5)%float (-0.5)%float _ _ _ _ _ _).
  - reflexivity.
  - reflexivity.
  - reflexivity.
  - lia.
  - vm_compute; reflexivity.
  - left; reflexivity.
Defined.

(** ** Classification of the load positions (C5) *)

Lemma position_check_9 :
  forallb (Sweep.position_check 9) (seq 0 (Sweep.count 9)) = true.
Proof. vm_compute. reflexivity. Qed.

Lemma position_check_21 :
  forallb (Sweep.position_check 21) (seq 0 (Sweep.count 21)) = true.
Proof. vm_compute. reflexivity. Qed.

Lemma length_range (n : nat) : List.length (Py.range n) = n.
Proof. unfold Py.range. rewrite length_map, length_seq. reflexivity. Qed.

(** The axis of the sweep for the two layouts: 641 and 1601 positions. *)
Lemma bc_axis_positions (self : Bridge.t) (nb : nat) :
  (nb = 9 \/ nb = 21)%nat ->
  Bridge.bottom_chord_nodes_indices self = Some (Py.range nb) ->
  Bridge.bc_axis self
  = Py.Ok (map Sweep.position (seq 0 (Sweep.count nb))).
Proof.
  intros Hnb Hidx. unfold Bridge.bc_axis.
  rewrite Hidx; simpl. rewrite length_range.
  destruct Hnb as [-> | ->]; vm_compute; reflexivity.
Qed.

Lemma nth_error_positions (n i : nat) (point : float) :
  nth_error (map Sweep.position (seq 0 n)) i = Some point ->
  (i < n)%nat /\ point = Sweep.position i.
Proof.
  rewrite nth_error_map, nth_error_seq.
  destruct (Nat.ltb_spec i n) as [Hlt | Hge]; simpl; intros H.
  - inversion H. split; [exact Hlt | reflexivity].
  - discriminate.
Qed.

Lemma position_check_holds (nb i : nat) :
  (nb = 9 \/ nb = 21)%nat -> (i < Sweep.count nb)%nat ->
  Sweep.position_check nb i = true.
Proof.
  intros Hnb Hi.
  assert (Hall : forallb (Sweep.position_check nb) (seq 0 (Sweep.count nb))
                 = true).
  { destruct Hnb as [-> | ->];
      [exact position_check_9 | exact position_check_21]. }
  rewrite forallb_forall in Hall. apply Hall.
  apply in_seq. lia.
Qed.

(** C5: for the layouts of the two profiles (9 or 21 bottom-chord nodes),
    entry [i] of the sweep's axis equals a node position [8.0 * index]
    exactly when [i] is a multiple of 80, that is when the position
    [i / 10] is a multiple of 8; [get_nodes_vdisps_moment] then takes the
    on-node method and otherwise the between-nodes method.  The first and
    the last entries, 0 and the span length, are among the on-node ones.
    Entry 40 is the position 4.0: it takes the between-nodes method, whose
    shares for the nodes of index 0 and 1 are -0.5 and -0.5. *)
Theorem load_position_classification :
  forall (cls : Bridge.methods) (self : Bridge.t) (nb : nat)
         (axis : NP.vec) (i : nat) (point : float),
    (nb = 9 \/ nb = 21)%nat ->
    Bridge.bottom_chord_nodes_indices self = Some (Py.range nb) ->
    Bridge.bc_axis self = Py.Ok axis ->
    nth_error axis i = Some point ->
    Py.float_in point (Sweep.node_positions nb) = Nat.eqb (i mod 80) 0
    /\ Bridge.get_nodes_vdisps_moment cls self point
       = (if Nat.eqb (i mod 80) 0
          then Bridge.get_nodes_vdisps_moment_on_nodes cls self point
          else Bridge.get_nodes_vdisps_moment_between_nodes cls self point)
    /\ ((i mod 80 = 0)%nat ->
        PrimFloat.eqb point (Py.float_of_int (8 * Z.of_nat (i / 80))) = true)
    /\ nth_error axis 0 = Some 0%float
    /\ nth_error axis (80 * (nb - 1))
       = Some (Py.float_of_int (8 * (Z.of_nat nb - 1)))
    /\ (i = 40%nat ->
        point = 4%float
        /\ Bridge_64.lever_rule point
           = Py.Ok (0, 1, (-0.5)%float, (-0.5)%float)
        /\ Bridge_160.lever_rule point
           = Py.Ok (0, 1, (-0.5)%float, (-0.5)%float)).
Proof.
  intros cls self nb axis i point Hnb Hidx Haxis Hnth.
  rewrite (bc_axis_positions self nb Hnb Hidx) in Haxis.
  inversion Haxis; subst axis; clear Haxis.
  destruct (nth_error_positions _ _ _ Hnth) as [Hi Hpoint].
  pose proof (position_check_holds nb i Hnb Hi) as Hcheck.
  unfold Sweep.position_check in Hcheck. rewrite <- Hpoint in Hcheck.
  destruct (Bridge.on_node_test (Py.range nb) point) as [b|e] eqn:Htest;
    [| discriminate].
  apply andb_prop in Hcheck. destruct Hcheck as [Hcheck Hpos].
  apply andb_prop in Hcheck. destruct Hcheck as [Hb Hin].
  apply eqb_prop in Hb. apply eqb_prop in Hin.
  split; [exact Hin |].
  split.
  { unfold Bridge.get_nodes_vdisps_moment.
    rewrite Hidx; simpl. rewrite Htest; simpl. rewrite Hb. reflexivity. }
  split.
  { intros Hmod. rewrite Hmod in Hpos. simpl in Hpos. exact Hpos. }
  split; [destruct Hnb as [-> | ->]; reflexivity |].
  split; [destruct Hnb as [-> | ->]; vm_compute; reflexivity |].
  intros ->. subst point.
  split; [vm_compute; reflexivity |].
  split; vm_compute; reflexivity.
Qed.

(** The instance of C5 at entry 40 of the example's sweep: position 4.0,
    between the nodes. *)
Lemma load_position_classification_witness :
  nth_error (map Sweep.position (seq 0 641)) 40 = Some 4%float
  /\ Bridge.get_nodes_vdisps_moment Example.cls64 (Example.bridge64 1)
                                    4%float
     = Bridge.get_nodes_vdisps_moment_between_nodes
         Example.cls64 (Example.bridge64 1) 4%float
  /\ Bridge_64.lever_rule 4%float
     = Py.Ok (0, 1, (-0.5)%float, (-0.5)%float).
Proof.
  assert (Hnth : nth_error (map Sweep.position (seq 0 641)) 40
                 = Some 4%float) by (vm_compute; reflexivity).
  destruct (load_position_classification
              Example.cls64 (Example.bridge64 1) 9
              (map Sweep.position (seq 0 641)) 40 4%float
              (or_introl eq_refl) eq_refl
              (bc_axis_positions (Example.bridge64 1) 9
                 (or_introl eq_refl) eq_refl)
              Hnth)
    as [_ [Hdispatch [_ [_ [_ H40]]]]].
  destruct (H40 eq_refl) as [_ [Hlever _]].
  split; [exact Hnth |].
  split; [exact Hdispatch | exact Hlever].
Defined.

(** ** Indexing *)

Lemma getitem_in_range {A : Type} (l : list A) (i : Z) :
  - Z.of_nat (List.length l) <= i < Z.of_nat (List.length l) ->
  exists a : A,
    Py.getitem l i = Py.Ok a
    /\ nth_error l (Z.to_nat (if i <? 0 then i + Z.of_nat (List.length l)
                              else i)) = Some a.
Proof.
  intros Hi. unfold Py.getitem.
  set (k := if i <? 0 then i + Z.of_nat (List.length l) else i).
  assert (Hk : 0 <= k < Z.of_nat (List.length l)).
  { subst k. destruct (Z.ltb_spec i 0); lia. }
  destruct (Z.leb_spec 0 k) as [_|]; [| lia].
  destruct (Z.ltb_spec k (Z.of_nat (List.length l))) as [_|]; [| lia].
  simpl.
  destruct (nth_error l (Z.to_nat k)) as [a|] eqn:Hnth.
  - exists a. split; reflexivity.
  - apply nth_error_None in Hnth. lia.
Qed.

Lemma getitem_repeat {A : Type} (x : A) (m : nat) (i : Z) :
  - Z.of_nat m <= i < Z.of_nat m ->
  Py.getitem (repeat x m) i = Py.Ok x.
Proof.
  intros Hi.
  destruct (getitem_in_range (repeat x m) i) as [a [Hget Hnth]].
  { rewrite repeat_length. exact Hi. }
  rewrite Hget. f_equal.
  apply nth_error_In in Hnth. apply repeat_spec in Hnth. exact Hnth.
Qed.

Lemma getitem_range_first (n : nat) :
  (0 < n)%nat -> Py.getitem (Py.range n) 0 = Py.Ok 0.
Proof.
  intros Hn.
  destruct (getitem_in_range (Py.range n) 0) as [a [Hget Hnth]].
  { rewrite length_range. lia. }
  rewrite Hget. f_equal.
  change (0 <? 0) with false in Hnth. cbv iota in Hnth.
  change (Z.to_nat 0) with 0%nat in Hnth.
  unfold Py.range in Hnth. rewrite nth_error_map, nth_error_seq in Hnth.
  destruct (Nat.ltb_spec 0 n); [| lia].
  simpl in Hnth. inversion Hnth. reflexivity.
Qed.

Lemma getitem_range_last (n : nat) :
  (0 < n)%nat -> Py.getitem (Py.range n) (-1) = Py.Ok (Z.of_nat n - 1).
Proof.
  intros Hn.
  destruct (getitem_in_range (Py.range n) (-1)) as [a [Hget Hnth]].
  { rewrite length_range. lia. }
  rewrite Hget. f_equal. rewrite length_range in Hnth.
  change (-1 <? 0) with true in Hnth. cbv iota in Hnth.
  unfold Py.range in Hnth. rewrite nth_error_map, nth_error_seq in Hnth.
  destruct (Nat.ltb_spec (Z.to_nat (-1 + Z.of_nat n)) n); [| lia].
  cbv beta iota delta [option_map] in Hnth.
  assert (Ha : a = Z.of_nat (0 + Z.to_nat (-1 + Z.of_nat n))) by congruence.
  rewrite Ha. rewrite Nat.add_0_l. lia.
Qed.

(** ** What the stiffness properties leave untouched *)

Lemma K_fields (libm : Libm.t) (utils : Utils.t) (self self' : Bridge.t)
      (Km : NP.matrix) :
  Bridge.K libm utils self = Py.Ok (Km, self') ->
  Bridge.nodes self' = Bridge.nodes self
  /\ Bridge.bottom_chord_nodes_nums self' = Bridge.bottom_chord_nodes_nums self
  /\ Bridge.bottom_chord_nodes_indices self'
     = Bridge.bottom_chord_nodes_indices self
  /\ Bridge.P self' = Bridge.P self
  /\ Bridge._length self' = Bridge._length self
  /\ Bridge._reduced_K self' = Bridge._reduced_K self.
Proof.
  unfold Bridge.K. destruct (Bridge._K self) as [k|].
  - intros H; inversion H; subst. repeat split.
  - intros H. bind_inv H. bind_inv H. bind_inv H.
    destruct a1 as [Kt us]. bind_inv H.
    inversion H; subst. repeat split.
Qed.

Lemma reduced_K_fields (libm : Libm.t) (utils : Utils.t)
      (self self' : Bridge.t) (Kr : NP.matrix) :
  Bridge.reduced_K libm utils self = Py.Ok (Kr, self') ->
  Bridge.nodes self' = Bridge.nodes self
  /\ Bridge.bottom_chord_nodes_nums self' = Bridge.bottom_chord_nodes_nums self
  /\ Bridge.bottom_chord_nodes_indices self'
     = Bridge.bottom_chord_nodes_indices self
  /\ Bridge.P self' = Bridge.P self
  /\ Bridge._length self' = Bridge._length self
  /\ Bridge._reduced_K self' = Some Kr.
Proof.
  unfold Bridge.reduced_K.
  destruct (Bridge._reduced_K self) as [k|] eqn:Hcache.
  - intros H; inversion H; subst. repeat split. exact Hcache.
  - intros H. bind_inv H. destruct a as [Km s1]. bind_inv H.
    inversion H; subst.
    destruct (K_fields _ _ _ _ _ Ha) as [Hn [Hb [Hi [Hp [Hl _]]]]].
    simpl. repeat split; assumption.
Qed.

(** Once computed, the reduced matrix is returned from the cache and the
    bridge is left as it is. *)
Lemma reduced_K_cached (libm : Libm.t) (utils : Utils.t)
      (self self' : Bridge.t) (Kr : NP.matrix) :
  Bridge.reduced_K libm utils self = Py.Ok (Kr, self') ->
  Bridge.reduced_K libm utils self' = Py.Ok (Kr, self').
Proof.
  intros H. destruct (reduced_K_fields _ _ _ _ _ H) as [_ [_ [_ [_ [_ Hc]]]]].
  unfold Bridge.reduced_K. rewrite Hc. reflexivity.
Qed.

(** ** A load on a support (C7) *)

Lemma on_nodes_64_at_support (libm : Libm.t) (utils : Utils.t)
      (inv : NP.matrix -> Py.result NP.matrix)
      (self self1 : Bridge.t) (nb : nat) (Kr : NP.matrix)
      (point : float) (c : Z) :
  Bridge.bottom_chord_nodes_indices self = Some (Py.range nb) ->
  (0 < nb)%nat ->
  Bridge.reduced_K libm utils self = Py.Ok (Kr, self1) ->
  Py.int_floordiv point 8 = Py.Ok c ->
  c = 0 \/ c = Z.of_nat nb - 1 ->
  Bridge_64.get_nodes_vdisps_moment_on_nodes libm utils inv self point
  = Py.Ok (repeat 0%float (List.length Kr), self1).
Proof.
  intros Hidx Hnb HK Hfloor Hc.
  unfold Bridge_64.get_nodes_vdisps_moment_on_nodes.
  rewrite Hidx; cbn [Py.bind Py.getattr]. rewrite Hfloor; cbn [Py.bind].
  rewrite (getitem_range_first nb Hnb); cbn [Py.bind].
  rewrite (getitem_range_last nb Hnb); cbn [Py.bind].
  assert (Hin : Py.int_in c [0; Z.of_nat nb - 1] = true).
  { unfold Py.int_in; simpl.
    destruct Hc as [-> | ->]; rewrite ?Z.eqb_refl, ?orb_true_r; reflexivity. }
  rewrite Hin, HK; cbn [Py.bind].
  unfold NP.shape0. rewrite zeros_Ok by lia. cbn [Py.bind].
  rewrite Nat2Z.id. reflexivity.
Qed.

Lemma on_nodes_160_at_support (libm : Libm.t) (utils : Utils.t)
      (inv : NP.matrix -> Py.result NP.matrix)
      (self self1 : Bridge.t) (bc : list Z) (Kr : NP.matrix)
      (point : float) (c : Z) :
  Bridge.bottom_chord_nodes_nums self = Some bc ->
  Bridge.bottom_chord_nodes_indices self
    = Some (Py.range (List.length bc)) ->
  bc <> [] ->
  Bridge.reduced_K libm utils self = Py.Ok (Kr, self1) ->
  Py.int_floordiv point 8 = Py.Ok c ->
  c = 0 \/ c = Z.of_nat (List.length bc) / 2
  \/ c = Z.of_nat (List.length bc) - 1 ->
  Bridge_160.get_nodes_vdisps_moment_on_nodes libm utils inv self point
  = Py.Ok (repeat 0%float (List.length Kr), self1).
Proof.
  intros Hnums Hidx Hne HK Hfloor Hc.
  assert (Hnb : (0 < List.length bc)%nat).
  { destruct bc; [contradiction | simpl; lia]. }
  unfold Bridge_160.get_nodes_vdisps_moment_on_nodes,
         Bridge_160.bc_middle_node_index.
  rewrite Hnums; cbn [Py.bind Py.getattr].
  rewrite Hidx; cbn [Py.bind Py.getattr]. rewrite Hfloor; cbn [Py.bind].
  rewrite (getitem_range_first _ Hnb); cbn [Py.bind].
  rewrite (getitem_range_last _ Hnb); cbn [Py.bind].
  assert (Hin : Py.int_in c [0; Z.of_nat (List.length bc) / 2;
                             Z.of_nat (List.length bc) - 1] = true).
  { unfold Py.int_in; simpl.
    destruct Hc as [-> | [-> | ->]];
      rewrite ?Z.eqb_refl, ?orb_true_r; reflexivity. }
  rewrite Hin, HK; cbn [Py.bind].
  unfold NP.shape0. rewrite zeros_Ok by lia. cbn [Py.bind].
  rewrite Nat2Z.id. reflexivity.
Qed.

Lemma save_loop_64_zeros (bc : list Z) (first last : Z) (m : nat)
      (ns : list (Z * Node.t)) :
  Py.getitem bc 0 = Py.Ok first ->
  Py.getitem bc (-1) = Py.Ok last ->
  forallb (Sweep.readable_64 first last m) ns = true ->
  Bridge_64.save_loop bc (repeat 0%float m) ns
  = Py.Ok (map (fun kn => (fst kn, Node.append_vdisp (snd kn) 0%float)) ns).
Proof.
  intros Hfirst Hlast.
  induction ns as [| [k nd] ns IH]; intros Hall; [reflexivity |].
  cbn [forallb] in Hall. apply andb_prop in Hall. destruct Hall as [Hk Hall].
  cbn [Bridge_64.save_loop map fst snd].
  rewrite Hfirst, Hlast; cbn [Py.bind].
  assert (Hv : (if Py.int_in k [first; last] then Py.Ok 0%float
                else Py.getitem (repeat 0%float m) (2 * (k - 1) - 1))
               = Py.Ok 0%float).
  { unfold Sweep.readable_64 in Hk. cbn [fst] in Hk.
    destruct (Py.int_in k [first; last]) eqn:Hin; [reflexivity |].
    cbn [orb] in Hk. apply andb_prop in Hk. destruct Hk as [Hlo Hhi].
    apply getitem_repeat. lia. }
  rewrite Hv; cbn [Py.bind]. rewrite (IH Hall); cbn [Py.bind]. reflexivity.
Qed.

(** C7: when the load is on a support - the node of index 0 or the last
    one, and also the middle one in the two-span profile - the on-node
    method returns the zero vector of the order of the reduced matrix,
    whatever [np.linalg.inv] would do (the statement holds for every
    [inv], one that always raises included: it is not called).  For the
    single span with its 9 bottom-chord nodes, the load positions 0 and 64
    are such positions, and [save_nodes_vdisps_moment] then appends 0.0 to
    the influence line of every node. *)
Theorem support_load_gives_zero_displacement :
  forall (libm : Libm.t) (utils : Utils.t)
         (inv : NP.matrix -> Py.result NP.matrix)
         (self self1 : Bridge.t) (bc : list Z) (first last : Z)
         (Kr : NP.matrix) (point : float) (c : Z),
    Bridge.bottom_chord_nodes_nums self = Some bc ->
    Bridge.bottom_chord_nodes_indices self
      = Some (Py.range (List.length bc)) ->
    Py.getitem bc 0 = Py.Ok first ->
    Py.getitem bc (-1) = Py.Ok last ->
    Bridge.reduced_K libm utils self = Py.Ok (Kr, self1) ->
    Py.int_floordiv point 8 = Py.Ok c ->
    (c = 0 \/ c = Z.of_nat (List.length bc) - 1 ->
     Bridge_64.get_nodes_vdisps_moment_on_nodes libm utils inv self point
     = Py.Ok (repeat 0%float (List.length Kr), self1))
    /\ (c = 0 \/ c = Z.of_nat (List.length bc) / 2
        \/ c = Z.of_nat (List.length bc) - 1 ->
        Bridge_160.get_nodes_vdisps_moment_on_nodes libm utils inv self point
        = Py.Ok (repeat 0%float (List.length Kr), self1))
    /\ (List.length bc = 9%nat ->
        point = 0%float \/ point = 64%float ->
        forallb (Sweep.readable_64 first last (List.length Kr)) (Bridge.nodes self)
        = true ->
        Bridge.get_nodes_vdisps_moment (Bridge_64.cls libm utils inv)
                                       self point
        = Py.Ok (repeat 0%float (List.length Kr), self1)
        /\ exists self2 : Bridge.t,
             Bridge_64.save_nodes_vdisps_moment
               self1 (repeat 0%float (List.length Kr)) = Py.Ok self2
             /\ Bridge.nodes self2
                = map (fun kn => (fst kn, Node.append_vdisp (snd kn) 0%float))
                      (Bridge.nodes self)).
Proof.
  intros libm utils inv self self1 bc first last Kr point c
         Hnums Hidx Hfirst Hlast HK Hfloor.
  assert (Hne : bc <> []).
  { intros ->. vm_compute in Hfirst. discriminate. }
  assert (Hnb : (0 < List.length bc)%nat).
  { destruct bc; [contradiction | simpl; lia]. }
  split; [| split].
  - intros Hc.
    exact (on_nodes_64_at_support libm utils inv self self1 _ Kr point c
             Hidx Hnb HK Hfloor Hc).
  - intros Hc.
    exact (on_nodes_160_at_support libm utils inv self self1 bc Kr point c
             Hnums Hidx Hne HK Hfloor Hc).
  - intros Hlen Hpoint Hnodes.
    assert (Hc : c = 0 \/ c = Z.of_nat (List.length bc) - 1).
    { rewrite Hlen.
      destruct Hpoint as [-> | ->]; vm_compute in Hfloor;
        inversion Hfloor; [left | right]; reflexivity. }
    assert (Htest : Bridge.on_node_test (Py.range (List.length bc)) point
                    = Py.Ok true).
    { rewrite Hlen. destruct Hpoint as [-> | ->]; vm_compute; reflexivity. }
    split.
    + unfold Bridge.get_nodes_vdisps_moment.
      rewrite Hidx; cbn [Py.bind Py.getattr]. rewrite Htest; cbn [Py.bind].
      exact (on_nodes_64_at_support libm utils inv self self1 _ Kr point c
               Hidx Hnb HK Hfloor Hc).
    + destruct (reduced_K_fields _ _ _ _ _ HK) as [Hn [Hb _]].
      unfold Bridge_64.save_nodes_vdisps_moment.
      rewrite Hb, Hnums; cbn [Py.bind Py.getattr].
      rewrite Hn.
      rewrite (save_loop_64_zeros bc first last _ _ Hfirst Hlast Hnodes).
      cbn [Py.bind]. eexists; split; reflexivity.
Qed.

(** The instance of C7 at the load position 64.0 of the example, with an
    [inv] that always raises: the displacement vector is zero and no
    exception comes out. *)
Lemma support_load_gives_zero_displacement_witness :
  Bridge.get_nodes_vdisps_moment
    (Bridge_64.cls Example.libm UtilsSpec.utils
                   (fun _ => Py.Raise Py.LinAlgError))
    (Example.bridge64 1) 64%float
  = Py.Ok (repeat 0%float 29, Example.bridge64 1)
  /\ exists self2 : Bridge.t,
       Bridge_64.save_nodes_vdisps_moment
         (Example.bridge64 1) (repeat 0%float 29) = Py.Ok self2
       /\ Bridge.nodes self2
          = map (fun kn => (fst kn, Node.append_vdisp (snd kn) 0%float))
                (Bridge.nodes (Example.bridge64 1)).
Proof.
  refine (proj2 (proj2 (support_load_gives_zero_displacement
            Example.libm UtilsSpec.utils (fun _ => Py.Raise Py.LinAlgError)
            (Example.bridge64 1) (Example.bridge64 1) Example.bc64 1 16
            (Example.identity 29) 64%float 8 _ _ _ _ _ _)) _ _ _).
  - reflexivity.
  - reflexivity.
  - reflexivity.
  - reflexivity.
  - reflexivity.
  - vm_compute; reflexivity.
  - reflexivity.
  - right; reflexivity.
  - vm_compute; reflexivity.
Defined.

(** ** The displacement lookup of force recovery (C10) *)

(** Decides the integer comparisons of the goal, one after the other. *)
Ltac decide_comparisons :=
  repeat match goal with
         | |- context [Z.eqb ?a ?b] => destruct (Z.eqb_spec a b)
         | |- context [Z.ltb ?a ?b] => destruct (Z.ltb_spec a b)
         | |- context [Z.leb ?a ?b] => destruct (Z.leb_spec a b)
         end;
  cbn [negb andb orb].

(** Reads entry [i] of [D], which exists. *)
Ltac read_entry D i :=
  let u := fresh "u" in
  let Hu := fresh "Hu" in
  destruct (getitem_in_range D i) as [u [Hu _]];
  [lia | rewrite Hu; cbn [Py.bind]].

Lemma get_u_and_v_64_spec (self : Bridge.t) (bc : list Z) (first last : Z)
      (D : NP.vec) (node_num : Z) :
  Bridge.bottom_chord_nodes_nums self = Some bc ->
  Py.getitem bc 0 = Py.Ok first ->
  Py.getitem bc (-1) = Py.Ok last ->
  3 - 2 * first <= Z.of_nat (List.length D) ->
  2 * last - 5 < Z.of_nat (List.length D) ->
  (node_num < first \/ last < node_num ->
   Bridge_64.get_u_and_v self node_num D = Py.Raise Py.AssertionError)
  /\ (first <= node_num <= last ->
      exists u v : float,
        Bridge_64.get_u_and_v self node_num D = Py.Ok (u, v)).
Proof.
  intros Hnums Hfirst Hlast Hlo Hhi.
  unfold Bridge_64.get_u_and_v.
  rewrite Hnums; cbn [Py.bind Py.getattr].
  rewrite Hfirst, Hlast; cbn [Py.bind].
  split; intros Hrange.
  - decide_comparisons; solve [reflexivity | lia].
  - decide_comparisons; try lia; try (eexists; eexists; reflexivity).
    read_entry D (2 * (node_num - 1) - 2).
    read_entry D (2 * (node_num - 1) - 1).
    eexists; eexists; reflexivity.
Qed.

Lemma get_u_and_v_160_spec (self : Bridge.t) (bc : list Z)
      (first middle last : Z) (D : NP.vec) (node_num : Z) :
  Bridge.bottom_chord_nodes_nums self = Some bc ->
  Py.getitem bc 0 = Py.Ok first ->
  Py.getitem bc (Z.of_nat (List.length bc) / 2) = Py.Ok middle ->
  Py.getitem bc (-1) = Py.Ok last ->
  first <= middle <= last ->
  3 - 2 * first <= Z.of_nat (List.length D) ->
  2 * last - 5 < Z.of_nat (List.length D) ->
  (node_num < first \/ last < node_num ->
   Bridge_160.get_u_and_v self node_num D = Py.Raise Py.AssertionError)
  /\ (first <= node_num <= last ->
      exists u v : float,
        Bridge_160.get_u_and_v self node_num D = Py.Ok (u, v)).
Proof.
  intros Hnums Hfirst Hmiddle Hlast Hmid Hlo Hhi.
  unfold Bridge_160.get_u_and_v.
  rewrite Hnums; cbn [Py.bind Py.getattr].
  rewrite Hmiddle; cbn [Py.bind].
  rewrite Hfirst, Hlast; cbn [Py.bind].
  split; intros Hrange.
  - decide_comparisons; solve [reflexivity | lia].
  - decide_comparisons; try lia; try (eexists; eexists; reflexivity).
    + read_entry D (2 * (node_num - 1) - 2).
      read_entry D (2 * (node_num - 1) - 1).
      eexists; eexists; reflexivity.
    + read_entry D (2 * (node_num - 1) - 3).
      read_entry D (2 * (node_num - 1) - 2).
      eexists; eexists; reflexivity.
Qed.

(** C10: with the displacement vector long enough for the entries of the
    nodes between the first and the last bottom-chord node (and the middle
    bottom-chord node numbered between these two), the lookup
    [get_u_and_v] of either profile raises AssertionError for a node number
    outside the closed range of these two, and returns a pair [(u, v)] for
    every node number inside it; [get_one_unit_axial_force_moment] raises
    AssertionError as soon as one end of the member is outside the range. *)
Theorem endpoint_outside_bottom_chord_range_fails_assertion :
  forall (libm : Libm.t) (self : Bridge.t) (bc : list Z)
         (first middle last : Z)
         (D : NP.vec) (unit : Unit.t) (node_num : Z),
    Bridge.bottom_chord_nodes_nums self = Some bc ->
    Py.getitem bc 0 = Py.Ok first ->
    Py.getitem bc (Z.of_nat (List.length bc) / 2) = Py.Ok middle ->
    Py.getitem bc (-1) = Py.Ok last ->
    first <= middle <= last ->
    3 - 2 * first <= Z.of_nat (List.length D) ->
    2 * last - 5 < Z.of_nat (List.length D) ->
    ((node_num < first \/ last < node_num ->
      Bridge_64.get_u_and_v self node_num D = Py.Raise Py.AssertionError
      /\ Bridge_160.get_u_and_v self node_num D = Py.Raise Py.AssertionError)
     /\ (first <= node_num <= last ->
         (exists u v : float,
             Bridge_64.get_u_and_v self node_num D = Py.Ok (u, v))
         /\ (exists u v : float,
                Bridge_160.get_u_and_v self node_num D = Py.Ok (u, v))))
    /\ (Node.num (Unit.node_i unit) < first
        \/ last < Node.num (Unit.node_i unit)
        \/ Node.num (Unit.node_j unit) < first
        \/ last < Node.num (Unit.node_j unit) ->
        Bridge_64.get_one_unit_axial_force_moment libm self unit D
        = Py.Raise Py.AssertionError
        /\ Bridge_160.get_one_unit_axial_force_moment libm self unit D
           = Py.Raise Py.AssertionError).
Proof.
  intros libm self bc first middle last D unit node_num
         Hnums Hfirst Hmiddle Hlast Hmid Hlo Hhi.
  pose proof (fun n => get_u_and_v_64_spec self bc first last D n
                         Hnums Hfirst Hlast Hlo Hhi) as H64.
  pose proof (fun n => get_u_and_v_160_spec self bc first middle last D n
                         Hnums Hfirst Hmiddle Hlast Hmid Hlo Hhi) as H160.
  split; [split |].
  - intros Hout. split; [apply H64 | apply H160]; exact Hout.
  - intros Hin. split; [apply H64 | apply H160]; exact Hin.
  - intros Hout.
    set (i := Node.num (Unit.node_i unit)) in *.
    set (j := Node.num (Unit.node_j unit)) in *.
    unfold Bridge_64.get_one_unit_axial_force_moment,
           Bridge_160.get_one_unit_axial_force_moment.
    fold i j.
    destruct (Z.ltb_spec i first) as [Hi1 | Hi1];
      [| destruct (Z.ltb_spec last i) as [Hi2 | Hi2]].
    + rewrite (proj1 (H64 i)) by lia. rewrite (proj1 (H160 i)) by lia.
      split; reflexivity.
    + rewrite (proj1 (H64 i)) by lia. rewrite (proj1 (H160 i)) by lia.
      split; reflexivity.
    + assert (Hj : j < first \/ last < j) by lia.
      destruct (proj2 (H64 i)) as [u [v Huv]]; [lia |].
      destruct (proj2 (H160 i)) as [u' [v' Huv']]; [lia |].
      rewrite Huv, Huv'; cbn [Py.bind].
      rewrite (proj1 (H64 j) Hj), (proj1 (H160 j) Hj).
      split; reflexivity.
Qed.

(** The instance of C10 on the example: node 17 is beyond the last
    bottom-chord node 16, node 2 is inside the range. *)
Lemma endpoint_outside_bottom_chord_range_fails_assertion_witness :
  Bridge_64.get_u_and_v (Example.bridge64 1) 17 Example.D4
  = Py.Raise Py.AssertionError
  /\ exists u v : float,
       Bridge_64.get_u_and_v (Example.bridge64 1) 2 Example.D4
       = Py.Ok (u, v).
Proof.
  pose proof (fun n =>
                endpoint_outside_bottom_chord_range_fails_assertion
                  Example.libm (Example.bridge64 1) Example.bc64 1 9 16
                  Example.D4 Example.vertical3 n
                  eq_refl eq_refl eq_refl eq_refl
                  ltac:(split; discriminate)
                  ltac:(vm_compute; discriminate)
                  ltac:(vm_compute; reflexivity)) as H.
  split.
  - destruct (H 17) as [[Hout _] _].
    destruct Hout as [H64 _]; [right; reflexivity | exact H64].
  - destruct (H 2) as [[_ Hin] _].
    destruct Hin as [H64 _]; [split; discriminate | exact H64].
Defined.

(** ** One sample per load position (C9) *)

Tactic Notation "bind_inv" hyp(H) "as" simple_intropattern(x) ident(Hx) :=
  apply bind_Ok_inv in H; destruct H as [x [Hx H]].

(** What a cached property returns with its value: the member as it was,
    or the member with that one cache filled. *)
Lemma alpha_inv (libm : Libm.t) (u u' : Unit.t) (a : float) :
  Unit.alpha libm u = Py.Ok (a, u') -> u' = u \/ u' = Unit.set_alpha u a.
Proof.
  unfold Unit.alpha.
  destruct (Py.if_truthy (Unit._alpha u)).
  - intros H; inversion H; left; reflexivity.
  - destruct (Node.coordinates (Unit.node_i u)) as [xi yi].
    destruct (Node.coordinates (Unit.node_j u)) as [xj yj].
    intros H. bind_inv H as a0 Ha0. inversion H; subst.
    right; reflexivity.
Qed.

Lemma length_inv (u u' : Unit.t) (l : float) :
  Unit.length u = Py.Ok (l, u') -> u' = u \/ u' = Unit.set_length u l.
Proof.
  unfold Unit.length.
  destruct (Py.if_truthy (Unit._length u)).
  - intros H; inversion H; left; reflexivity.
  - destruct (Node.coordinates (Unit.node_i u)) as [xi yi].
    destruct (Node.coordinates (Unit.node_j u)) as [xj yj].
    intros H. bind_inv H as x Hx. inversion H; subst.
    right; reflexivity.
Qed.

Lemma area_inv (u u' : Unit.t) (v : float) :
  Unit.area u = Py.Ok (v, u') -> u' = u \/ u' = Unit.set_area u v.
Proof.
  unfold Unit.area.
  destruct (Py.if_truthy (Unit._area u)).
  - intros H; inversion H; left; reflexivity.
  - destruct (Unit.beam_section_data u) as [|a [|b [|c [|d [|e l]]]]];
      intros H; inversion H; right; reflexivity.
Qed.

(** The cached properties of a member change nothing but its caches. *)
Lemma alpha_same_member (libm : Libm.t) (u u' : Unit.t) (a : float) :
  Unit.alpha libm u = Py.Ok (a, u') -> Facts.same_member u u'.
Proof.
  intros H. destruct (alpha_inv _ _ _ _ H) as [-> | ->]; repeat split.
Qed.

Lemma length_same_member (u u' : Unit.t) (l : float) :
  Unit.length u = Py.Ok (l, u') -> Facts.same_member u u'.
Proof.
  intros H. destruct (length_inv _ _ _ H) as [-> | ->]; repeat split.
Qed.

Lemma area_same_member (u u' : Unit.t) (v : float) :
  Unit.area u = Py.Ok (v, u') -> Facts.same_member u u'.
Proof.
  intros H. destruct (area_inv _ _ _ H) as [-> | ->]; repeat split.
Qed.

Lemma same_member_trans (u1 u2 u3 : Unit.t) :
  Facts.same_member u1 u2 -> Facts.same_member u2 u3 ->
  Facts.same_member u1 u3.
Proof.
  unfold Facts.same_member.
  intros [A1 [A2 [A3 [A4 [A5 [A6 A7]]]]]] [B1 [B2 [B3 [B4 [B5 [B6 B7]]]]]].
  repeat split; congruence.
Qed.

Lemma kij_same_member (libm : Libm.t) (u u' : Unit.t) (k : NP.matrix) :
  Unit.kij libm u = Py.Ok (k, u') -> Facts.same_member u u'.
Proof.
  unfold Unit.kij.
  destruct (Unit._kij u) as [k0|];
    [intros H; inversion H; repeat split |].
  intros H. bind_inv H as [a u1] Ha. bind_inv H as [l u2] Hl.
  bind_inv H as M HM. bind_inv H as [A u3] HA.
  destruct (Unit._E u3) as [E|]; [| discriminate].
  destruct (PrimFloat.eqb l 0); [discriminate |].
  inversion H; subst.
  apply (same_member_trans _ _ _ (alpha_same_member _ _ _ _ Ha)).
  apply (same_member_trans _ _ _ (length_same_member _ _ _ Hl)).
  apply (same_member_trans _ _ _ (area_same_member _ _ _ HA)).
  repeat split.
Qed.

Lemma axial_force_same_member (libm : Libm.t) (l : list Recovery.pyobj)
      (u u' : Unit.t) (ui vi uj vj f : float) :
  Recovery.axial_force libm l u ui vi uj vj = Py.Ok (f, u') ->
  Facts.same_member u u'.
Proof.
  unfold Recovery.axial_force, Recovery.end_forces. intros H.
  bind_inv H as [Fij u1] HF.
  bind_inv HF as [k u2] Hk. bind_inv HF as [a u3] Ha.
  bind_inv HF as kd Hkd. bind_inv HF as F HF'.
  inversion HF; subst.
  bind_inv H as F0 H0. bind_inv H as F1 H1.
  inversion H; subst.
  apply (same_member_trans _ _ _ (kij_same_member _ _ _ _ Hk)).
  exact (alpha_same_member _ _ _ _ Ha).
Qed.

Lemma kij_axial_forces (libm : Libm.t) (u u' : Unit.t) (k : NP.matrix) :
  Unit.kij libm u = Py.Ok (k, u') ->
  Unit.axial_forces u' = Unit.axial_forces u.
Proof.
  intros H.
  exact (proj1 (proj2 (proj2 (proj2 (proj2 (proj2
           (kij_same_member _ _ _ _ H))))))).
Qed.

Lemma axial_force_axial_forces (libm : Libm.t) (l : list Recovery.pyobj)
      (u u' : Unit.t) (ui vi uj vj f : float) :
  Recovery.axial_force libm l u ui vi uj vj = Py.Ok (f, u') ->
  Unit.axial_forces u' = Unit.axial_forces u.
Proof.
  intros H.
  exact (proj1 (proj2 (proj2 (proj2 (proj2 (proj2
           (axial_force_same_member _ _ _ _ _ _ _ _ _ H))))))).
Qed.

Lemma K_loop_unit_lens (libm : Libm.t) (utils : Utils.t) (us : list (Z * Unit.t)) :
  forall (Kt Kt' : NP.tensor) (us' : list (Z * Unit.t)),
    Bridge.K_loop libm utils Kt us = Py.Ok (Kt', us') ->
    Sweep.unit_lens_of us' = Sweep.unit_lens_of us.
Proof.
  induction us as [| [k u] us IH]; intros Kt Kt' us' H.
  - inversion H; reflexivity.
  - cbn [Bridge.K_loop] in H.
    bind_inv H as [kij u1] Hk. bind_inv H as Kt1 Hu.
    bind_inv H as [Kt2 rest] Hrest.
    inversion H; subst.
    unfold Sweep.unit_lens_of in *. cbn [map snd].
    rewrite (kij_axial_forces _ _ _ _ Hk).
    rewrite (IH _ _ _ Hrest). reflexivity.
Qed.

Lemma K_lens (libm : Libm.t) (utils : Utils.t) (self self' : Bridge.t)
      (Km : NP.matrix) :
  Bridge.K libm utils self = Py.Ok (Km, self') ->
  Sweep.node_lens self' = Sweep.node_lens self
  /\ Sweep.unit_lens self' = Sweep.unit_lens self.
Proof.
  unfold Bridge.K. destruct (Bridge._K self) as [k|].
  - intros H; inversion H; subst. split; reflexivity.
  - intros H. bind_inv H as n0 Hn. bind_inv H as K0 H0.
    bind_inv H as [Kt us] Hloop. bind_inv H as Km' Hr.
    inversion H; subst.
    split; [reflexivity |].
    unfold Sweep.unit_lens. cbn.
    exact (K_loop_unit_lens _ _ _ _ _ _ Hloop).
Qed.

Lemma reduced_K_lens (libm : Libm.t) (utils : Utils.t)
      (self self' : Bridge.t) (Kr : NP.matrix) :
  Bridge.reduced_K libm utils self = Py.Ok (Kr, self') ->
  Sweep.node_lens self' = Sweep.node_lens self
  /\ Sweep.unit_lens self' = Sweep.unit_lens self.
Proof.
  unfold Bridge.reduced_K.
  destruct (Bridge._reduced_K self) as [k|].
  - intros H; inversion H; subst. split; reflexivity.
  - intros H. bind_inv H as [Km s1] HK. bind_inv H as Kr' Hr.
    inversion H; subst.
    exact (K_lens _ _ _ _ _ HK).
Qed.

Lemma save_loop_64_lens (bc : list Z) (D : NP.vec) (ns : list (Z * Node.t)) :
  forall ns' : list (Z * Node.t),
    Bridge_64.save_loop bc D ns = Py.Ok ns' ->
    map (fun kn => List.length (Node.vdisps (snd kn))) ns'
    = map S (map (fun kn => List.length (Node.vdisps (snd kn))) ns).
Proof.
  induction ns as [| [k nd] ns IH]; intros ns' H.
  - inversion H; reflexivity.
  - cbn [Bridge_64.save_loop] in H.
    bind_inv H as first Hf. bind_inv H as last Hl. bind_inv H as v Hv.
    bind_inv H as rest Hrest. inversion H; subst.
    cbn [map snd]. rewrite (IH _ Hrest).
    unfold Node.append_vdisp; cbn [Node.vdisps].
    rewrite length_app. cbn [List.length]. f_equal. lia.
Qed.

Lemma save_loop_160_lens (bc : list Z) (middle : Z) (D : NP.vec)
      (ns : list (Z * Node.t)) :
  forall ns' : list (Z * Node.t),
    Bridge_160.save_loop bc middle D ns = Py.Ok ns' ->
    map (fun kn => List.length (Node.vdisps (snd kn))) ns'
    = map S (map (fun kn => List.length (Node.vdisps (snd kn))) ns).
Proof.
  induction ns as [| [k nd] ns IH]; intros ns' H.
  - inversion H; reflexivity.
  - cbn [Bridge_160.save_loop] in H.
    bind_inv H as first Hf. bind_inv H as last Hl. bind_inv H as v Hv.
    bind_inv H as rest Hrest. inversion H; subst.
    cbn [map snd]. rewrite (IH _ Hrest).
    unfold Node.append_vdisp; cbn [Node.vdisps].
    rewrite length_app. cbn [List.length]. f_equal. lia.
Qed.

Lemma Bridge_64_keeps_lines (libm : Libm.t) (utils : Utils.t)
      (inv : NP.matrix -> Py.result NP.matrix) :
  Sweep.keeps_lines (Bridge_64.cls libm utils inv).
Proof.
  constructor; cbn [Bridge_64.cls Bridge.get_nodes_vdisps_moment_on_nodes
                    Bridge.get_nodes_vdisps_moment_between_nodes
                    Bridge.save_nodes_vdisps_moment
                    Bridge.get_one_unit_axial_force_moment].
  - intros self point D self' H.
    unfold Bridge_64.get_nodes_vdisps_moment_on_nodes in H.
    bind_inv H as idx Hidx. bind_inv H as c Hc.
    bind_inv H as first Hf. bind_inv H as last Hl.
    destruct (Py.int_in c [first; last]).
    + bind_inv H as [Kr s1] HK. bind_inv H as D' HD. inversion H; subst.
      exact (reduced_K_lens _ _ _ _ _ HK).
    + bind_inv H as [Kr s1] HK. bind_inv H as F HF.
      bind_inv H as [Kr2 s2] HK2. bind_inv H as Kinv Hinv.
      bind_inv H as D' HD. inversion H; subst.
      destruct (reduced_K_lens _ _ _ _ _ HK) as [Hn1 Hu1].
      destruct (reduced_K_lens _ _ _ _ _ HK2) as [Hn2 Hu2].
      split; congruence.
  - intros self point D self' H.
    unfold Bridge_64.get_nodes_vdisps_moment_between_nodes in H.
    bind_inv H as idx Hidx.
    bind_inv H as [Kr s1] HK. bind_inv H as F HF.
    bind_inv H as [Kr2 s2] HK2. bind_inv H as Kinv Hinv.
    bind_inv H as D' HD. inversion H; subst.
    destruct (reduced_K_lens _ _ _ _ _ HK) as [Hn1 Hu1].
    destruct (reduced_K_lens _ _ _ _ _ HK2) as [Hn2 Hu2].
    split; congruence.
  - intros self D self' H.
    unfold Bridge_64.save_nodes_vdisps_moment in H.
    bind_inv H as bc Hbc. bind_inv H as ns Hns. inversion H; subst.
    exact (save_loop_64_lens _ _ _ _ Hns).
  - intros self unit D f unit' H.
    unfold Bridge_64.get_one_unit_axial_force_moment in H.
    bind_inv H as [ui vi] Hi. bind_inv H as [uj vj] Hj.
    rewrite (axial_force_axial_forces _ _ _ _ _ _ _ _ _ H). reflexivity.
Qed.

Lemma Bridge_160_keeps_lines (libm : Libm.t) (utils : Utils.t)
      (inv : NP.matrix -> Py.result NP.matrix) :
  Sweep.keeps_lines (Bridge_160.cls libm utils inv).
Proof.
  constructor; cbn [Bridge_160.cls Bridge.get_nodes_vdisps_moment_on_nodes
                    Bridge.get_nodes_vdisps_moment_between_nodes
                    Bridge.save_nodes_vdisps_moment
                    Bridge.get_one_unit_axial_force_moment].
  - intros self point D self' H.
    unfold Bridge_160.get_nodes_vdisps_moment_on_nodes in H.
    bind_inv H as middle Hm. bind_inv H as idx Hidx. bind_inv H as c Hc.
    bind_inv H as first Hf. bind_inv H as last Hl.
    destruct (Py.int_in c [first; middle; last]).
    + bind_inv H as [Kr s1] HK. bind_inv H as D' HD. inversion H; subst.
      exact (reduced_K_lens _ _ _ _ _ HK).
    + bind_inv H as [Kr s1] HK. bind_inv H as F HF.
      bind_inv H as [Kr2 s2] HK2. bind_inv H as Kinv Hinv.
      bind_inv H as D' HD. inversion H; subst.
      destruct (reduced_K_lens _ _ _ _ _ HK) as [Hn1 Hu1].
      destruct (reduced_K_lens _ _ _ _ _ HK2) as [Hn2 Hu2].
      split; congruence.
  - intros self point D self' H.
    unfold Bridge_160.get_nodes_vdisps_moment_between_nodes in H.
    bind_inv H as idx Hidx. bind_inv H as middle Hm.
    bind_inv H as lever Hlever.
    bind_inv H as [Kr s1] HK. bind_inv H as F HF.
    bind_inv H as [Kr2 s2] HK2. bind_inv H as Kinv Hinv.
    bind_inv H as D' HD. inversion H; subst.
    destruct (reduced_K_lens _ _ _ _ _ HK) as [Hn1 Hu1].
    destruct (reduced_K_lens _ _ _ _ _ HK2) as [Hn2 Hu2].
    split; congruence.
  - intros self D self' H.
    unfold Bridge_160.save_nodes_vdisps_moment in H.
    bind_inv H as bc Hbc. bind_inv H as middle Hm.
    bind_inv H as ns Hns. inversion H; subst.
    exact (save_loop_160_lens _ _ _ _ _ Hns).
  - intros self unit D f unit' H.
    unfold Bridge_160.get_one_unit_axial_force_moment in H.
    bind_inv H as [ui vi] Hi. bind_inv H as [uj vj] Hj.
    rewrite (axial_force_axial_forces _ _ _ _ _ _ _ _ _ H). reflexivity.
Qed.

Lemma moment_keeps_lines (cls : Bridge.methods) :
  Sweep.keeps_lines cls ->
  forall (self self' : Bridge.t) (point : float) (D : NP.vec),
    Bridge.get_nodes_vdisps_moment cls self point = Py.Ok (D, self') ->
    Sweep.node_lens self' = Sweep.node_lens self
    /\ Sweep.unit_lens self' = Sweep.unit_lens self.
Proof.
  intros Hcls self self' point D H.
  unfold Bridge.get_nodes_vdisps_moment in H.
  bind_inv H as idx Hidx. bind_inv H as on_node Htest.
  destruct on_node.
  - exact (Sweep.on_nodes_keeps cls Hcls _ _ _ _ H).
  - exact (Sweep.between_nodes_keeps cls Hcls _ _ _ _ H).
Qed.

Lemma nodes_vdisps_loop_lens (cls : Bridge.methods) :
  Sweep.keeps_lines cls ->
  forall (points : list float) (self self' : Bridge.t),
    Bridge.nodes_vdisps_loop cls self points = Py.Ok self' ->
    Sweep.node_lens self'
    = map (fun l => (List.length points + l)%nat) (Sweep.node_lens self).
Proof.
  intros Hcls.
  induction points as [| point rest IH]; intros self self' H.
  - inversion H; subst. cbn [List.length].
    rewrite <- (map_id (Sweep.node_lens self')) at 1.
    apply map_ext. intros l. reflexivity.
  - cbn [Bridge.nodes_vdisps_loop] in H.
    bind_inv H as [D s1] Hmoment. bind_inv H as s2 Hsave.
    rewrite (IH _ _ H).
    rewrite (Sweep.save_adds_one cls Hcls _ _ _ Hsave).
    rewrite (proj1 (moment_keeps_lines cls Hcls _ _ _ _ Hmoment)).
    rewrite map_map. apply map_ext. intros l. cbn [List.length]. lia.
Qed.

Lemma units_loop_lens (cls : Bridge.methods) :
  Sweep.keeps_lines cls ->
  forall (self : Bridge.t) (D : NP.vec) (us us' : list (Z * Unit.t))
         (fs : list float),
    Bridge.units_loop cls self us D = Py.Ok (fs, us') ->
    List.length fs = List.length us'
    /\ Sweep.unit_lens_of us' = Sweep.unit_lens_of us.
Proof.
  intros Hcls self D.
  induction us as [| [k u] us IH]; intros us' fs H.
  - inversion H; subst. split; reflexivity.
  - cbn [Bridge.units_loop] in H.
    bind_inv H as [f u'] Hone. bind_inv H as [fs' rest] Hrest.
    inversion H; subst.
    destruct (IH _ _ Hrest) as [Hlen Hlens].
    split; [cbn [List.length]; congruence |].
    unfold Sweep.unit_lens_of in *. cbn [map snd].
    rewrite (Sweep.one_unit_keeps cls Hcls _ _ _ _ _ Hone).
    rewrite Hlens. reflexivity.
Qed.

Lemma save_units_loop_lens (us : list (Z * Unit.t)) :
  forall fs : list float,
    List.length fs = List.length us ->
    Sweep.unit_lens_of (Bridge.save_units_loop us fs)
    = map S (Sweep.unit_lens_of us).
Proof.
  induction us as [| [k u] us IH]; intros fs Hlen.
  - destruct fs; reflexivity.
  - destruct fs as [| f fs]; [discriminate |].
    cbn [Bridge.save_units_loop]. unfold Sweep.unit_lens_of in *.
    cbn [map snd Unit.set_axial_forces Unit.axial_forces].
    rewrite IH by (cbn [List.length] in Hlen; lia).
    rewrite length_app. cbn [List.length]. f_equal. lia.
Qed.

Lemma units_axial_forces_loop_lens (cls : Bridge.methods) :
  Sweep.keeps_lines cls ->
  forall (points : list float) (self self' : Bridge.t),
    Bridge.units_axial_forces_loop cls self points = Py.Ok self' ->
    Sweep.unit_lens self'
    = map (fun l => (List.length points + l)%nat) (Sweep.unit_lens self).
Proof.
  intros Hcls.
  induction points as [| point rest IH]; intros self self' H.
  - inversion H; subst. cbn [List.length].
    rewrite <- (map_id (Sweep.unit_lens self')) at 1.
    apply map_ext. intros l. reflexivity.
  - cbn [Bridge.units_axial_forces_loop] in H.
    bind_inv H as [fs s1] Hmoment.
    rewrite (IH _ _ H).
    unfold Bridge.get_units_axial_forces_moment in Hmoment.
    bind_inv Hmoment as [D s0] HD. bind_inv Hmoment as [fs' us] Hus.
    inversion Hmoment; subst.
    destruct (units_loop_lens cls Hcls _ _ _ _ _ Hus) as [Hlen Hlens].
    destruct (moment_keeps_lines cls Hcls _ _ _ _ HD) as [_ Hu0].
    unfold Sweep.unit_lens, Bridge.save_units_axial_forces_moment.
    cbn [Bridge.units Bridge.set_units].
    rewrite (save_units_loop_lens us fs Hlen).
    rewrite Hlens. fold (Sweep.unit_lens s0). rewrite Hu0.
    rewrite map_map. apply map_ext. intros l. cbn [List.length]. lia.
Qed.

Lemma get_nodes_vdisps_lens (cls : Bridge.methods) (self self' : Bridge.t)
      (axis : NP.vec) :
  Sweep.keeps_lines cls ->
  Bridge.bc_axis self = Py.Ok axis ->
  Bridge.get_nodes_vdisps cls self = Py.Ok self' ->
  Forall (fun kn => List.length (Node.vdisps (snd kn)) = List.length axis)
         (Bridge.nodes self').
Proof.
  intros Hcls Haxis H.
  unfold Bridge.get_nodes_vdisps in H.
  change (Bridge.bc_axis (Bridge.nodes_vdisps_init self))
    with (Bridge.bc_axis self) in H.
  rewrite Haxis in H; cbn [Py.bind] in H.
  apply (nodes_vdisps_loop_lens cls Hcls) in H.
  apply Forall_forall. intros kn Hin.
  assert (Hl : In (List.length (Node.vdisps (snd kn))) (Sweep.node_lens self')).
  { unfold Sweep.node_lens.
    apply (in_map (fun kn => List.length (Node.vdisps (snd kn)))). exact Hin. }
  rewrite H in Hl. apply in_map_iff in Hl. destruct Hl as [l [Hl Hin0]].
  unfold Sweep.node_lens, Bridge.nodes_vdisps_init in Hin0.
  cbn [Bridge.nodes Bridge.set_nodes] in Hin0.
  rewrite map_map in Hin0. apply in_map_iff in Hin0.
  destruct Hin0 as [kn0 [Hkn0 _]]. cbn in Hkn0. lia.
Qed.

Lemma get_units_axial_forces_lens (cls : Bridge.methods)
      (self self' : Bridge.t) (axis : NP.vec) :
  Sweep.keeps_lines cls ->
  Bridge.bc_axis self = Py.Ok axis ->
  Bridge.get_units_axial_forces cls self = Py.Ok self' ->
  Forall (fun ku => List.length (Unit.axial_forces (snd ku))
                    = List.length axis)
         (Bridge.units self').
Proof.
  intros Hcls Haxis H.
  unfold Bridge.get_units_axial_forces in H.
  change (Bridge.bc_axis (Bridge.units_axial_forces_init self))
    with (Bridge.bc_axis self) in H.
  rewrite Haxis in H; cbn [Py.bind] in H.
  apply (units_axial_forces_loop_lens cls Hcls) in H.
  apply Forall_forall. intros ku Hin.
  assert (Hl : In (List.length (Unit.axial_forces (snd ku)))
                  (Sweep.unit_lens self')).
  { unfold Sweep.unit_lens, Sweep.unit_lens_of.
    apply (in_map (fun ku => List.length (Unit.axial_forces (snd ku)))).
    exact Hin. }
  rewrite H in Hl. apply in_map_iff in Hl. destruct Hl as [l [Hl Hin0]].
  unfold Sweep.unit_lens, Sweep.unit_lens_of,
         Bridge.units_axial_forces_init in Hin0.
  cbn [Bridge.units Bridge.set_units] in Hin0.
  rewrite map_map in Hin0. apply in_map_iff in Hin0.
  destruct Hin0 as [ku0 [Hku0 _]]. cbn in Hku0. lia.
Qed.

(** ** Section data and stiffness assembly (C8) *)

(** [K] reads the attribute [n], which neither [__init__] nor
    [load_params] creates: on a bridge whose caller has not set it, the
    property raises AttributeError before it looks at any member. *)
Lemma K_needs_attribute_n (libm : Libm.t) (utils : Utils.t)
      (length : option Z) (E P h : float) (bc : list Z)
      (ns : list (Z * Node.t)) (us : list (Z * Unit.t)) :
  Bridge.K libm utils
    (Bridge.load_params
       (Bridge.set_units (Bridge.set_nodes (Bridge.init length) ns) us)
       E P h bc)
  = Py.Raise (Py.AttributeError "n").
Proof. reflexivity. Qed.

(** What a property computes depends on its own cache and on the inputs
    it reads, not on the other caches of the member. *)
Lemma length_transfer (u u1 : Unit.t) :
  Unit._length u1 = Unit._length u ->
  Unit.node_i u1 = Unit.node_i u ->
  Unit.node_j u1 = Unit.node_j u ->
  match Unit.length u with
  | Py.Ok (l, _) => exists u2 : Unit.t, Unit.length u1 = Py.Ok (l, u2)
  | Py.Raise e => Unit.length u1 = Py.Raise e
  end.
Proof.
  intros Hl Hi Hj. unfold Unit.length. rewrite Hl, Hi, Hj.
  destruct (Py.if_truthy (Unit._length u)); [eexists; reflexivity |].
  destruct (Node.coordinates (Unit.node_i u)) as [xi yi].
  destruct (Node.coordinates (Unit.node_j u)) as [xj yj].
  destruct (Py.int_to_float ((yj - yi) ^ 2 + (xj - xi) ^ 2));
    cbn [Py.bind]; [eexists; reflexivity | reflexivity].
Qed.

Lemma area_transfer (u u1 : Unit.t) :
  Unit._area u1 = Unit._area u ->
  Unit.beam_section_data u1 = Unit.beam_section_data u ->
  match Unit.area u with
  | Py.Ok (A, _) => exists u2 : Unit.t, Unit.area u1 = Py.Ok (A, u2)
  | Py.Raise e => Unit.area u1 = Py.Raise e
  end.
Proof.
  intros Ha Hd. unfold Unit.area. rewrite Ha, Hd.
  destruct (Py.if_truthy (Unit._area u)); [eexists; reflexivity |].
  destruct (Unit.beam_section_data u) as [|a [|b [|c [|d [|e l]]]]];
    try reflexivity.
  eexists; reflexivity.
Qed.

(** The other caches and the inputs after a property has been read. *)
Lemma alpha_frame (libm : Libm.t) (u u1 : Unit.t) (a : float) :
  Unit.alpha libm u = Py.Ok (a, u1) ->
  Unit.beam_section_data u1 = Unit.beam_section_data u
  /\ Unit._length u1 = Unit._length u
  /\ Unit._area u1 = Unit._area u
  /\ Unit._E u1 = Unit._E u
  /\ Unit.node_i u1 = Unit.node_i u
  /\ Unit.node_j u1 = Unit.node_j u.
Proof.
  intros H. destruct (alpha_inv _ _ _ _ H) as [-> | ->]; repeat split.
Qed.

Lemma length_frame (u u1 : Unit.t) (l : float) :
  Unit.length u = Py.Ok (l, u1) ->
  Unit.beam_section_data u1 = Unit.beam_section_data u
  /\ Unit._area u1 = Unit._area u
  /\ Unit._E u1 = Unit._E u.
Proof.
  intros H. destruct (length_inv _ _ _ H) as [-> | ->]; repeat split.
Qed.

(** The stiffness of a member whose caches are empty, from its angle, its
    length, its direction matrix and its area, each as the property
    computes it on the member. *)
Lemma kij_computed (libm : Libm.t) (u u1 u2 u3 : Unit.t)
      (al l A E : float) (M : NP.matrix) :
  Unit._kij u = None ->
  Unit._E u = Some E ->
  Unit.alpha libm u = Py.Ok (al, u1) ->
  Unit.length u = Py.Ok (l, u2) ->
  Unit.direction_matrix libm al = Py.Ok M ->
  Unit.area u = Py.Ok (A, u3) ->
  exists u' : Unit.t,
    Unit.kij libm u
    = (if PrimFloat.eqb l 0 then Py.Raise Py.ZeroDivisionError
       else Py.Ok (NP.scale (E * A / l) M, Unit.set_kij u' (NP.scale (E * A / l) M))).
Proof.
  intros Hkij HE Halpha Hlength HM Harea.
  unfold Unit.kij. rewrite Hkij, Halpha. cbn [Py.bind].
  destruct (alpha_frame _ _ _ _ Halpha) as [Hd1 [Hl1 [Ha1 [HE1 [Hi1 Hj1]]]]].
  pose proof (length_transfer u u1 Hl1 Hi1 Hj1) as Ht.
  rewrite Hlength in Ht. destruct Ht as [u2' Ht].
  rewrite Ht. cbn [Py.bind]. rewrite HM. cbn [Py.bind].
  destruct (length_frame _ _ _ Ht) as [Hd2 [Ha2 HE2]].
  pose proof (area_transfer u u2') as Hat.
  rewrite Harea in Hat.
  destruct Hat as [u3' Hat]; [congruence | congruence |].
  rewrite Hat. cbn [Py.bind].
  assert (HE3 : Unit._E u3' = Some E).
  { destruct (area_inv _ _ _ Hat) as [-> | ->];
      cbn [Unit._E Unit.set_area]; congruence. }
  rewrite HE3. exists u3'. reflexivity.
Qed.

(** C8, as the code has it: there is no check of the section data.  For
    every member with four section dimensions, empty caches and a modulus,
    whose angle, length and direction matrix are computed (no quotient,
    squared length or square is too large for a float) and whose length
    is not zero, and WHATEVER the sign of the computed area [A]: the
    [area] property returns [A], the [kij] property returns
    [E * A / l * M], and the loop of [K] hands this matrix to [update_K]
    for assembly. *)
Theorem area_of_any_sign_is_assembled :
  forall (libm : Libm.t) (utils : Utils.t) (u u1 u2 : Unit.t)
         (a b c d E al l : float) (M : NP.matrix)
         (k : Z) (rest : list (Z * Unit.t)) (Kt : NP.tensor),
    Unit.beam_section_data u = [a; b; c; d] ->
    Unit._alpha u = None ->
    Unit._length u = None ->
    Unit._area u = None ->
    Unit._kij u = None ->
    Unit._E u = Some E ->
    Unit.alpha libm u = Py.Ok (al, u1) ->
    Unit.length u = Py.Ok (l, u2) ->
    Unit.direction_matrix libm al = Py.Ok M ->
    PrimFloat.eqb l 0 = false ->
    exists u' : Unit.t,
      Unit.area u
      = Py.Ok ((2 * b * d + (a - 2 * b) * c)%float,
               Unit.set_area u (2 * b * d + (a - 2 * b) * c)%float)
      /\ Unit.kij libm u
         = Py.Ok (NP.scale (E * (2 * b * d + (a - 2 * b) * c) / l) M, u')
      /\ Bridge.K_loop libm utils Kt ((k, u) :: rest)
         = (Kt' <- Utils.update_K utils Kt u'
                     (NP.scale (E * (2 * b * d + (a - 2 * b) * c) / l) M) ;;
            '(Kt'', rest') <- Bridge.K_loop libm utils Kt' rest ;;
            Py.Ok (Kt'', (k, u') :: rest')).
Proof.
  intros libm utils u u1 u2 a b c d E al l M k rest Kt
         Hdata Halpha Hlength Harea Hkij HE Hal Hlen HM Hl.
  assert (Ha : Unit.area u
               = Py.Ok ((2 * b * d + (a - 2 * b) * c)%float,
                        Unit.set_area u (2 * b * d + (a - 2 * b) * c)%float)).
  { unfold Unit.area. rewrite Harea, Hdata. reflexivity. }
  destruct (kij_computed libm u u1 u2 _ al l _ E M Hkij HE Hal Hlen HM Ha)
    as [u' Hk].
  rewrite Hl in Hk.
  eexists.
  split; [exact Ha |]. split; [exact Hk |].
  cbn [Bridge.K_loop]. rewrite Hk. reflexivity.
Qed.

(** The instance of C8 at the member of negative area of the example. *)
Lemma area_of_any_sign_is_assembled_witness :
  exists (M : NP.matrix) (u' : Unit.t),
    Unit.direction_matrix Example.libm 0%float = Py.Ok M
    /\ Unit.area Example.bad_member_loaded
       = Py.Ok ((-0.46799999999999997)%float,
                Unit.set_area Example.bad_member_loaded
                              (-0.46799999999999997)%float)
    /\ Unit.kij Example.libm Example.bad_member_loaded
       = Py.Ok (NP.scale (-12285000000)%float M, u')
    /\ Bridge.K_loop Example.libm UtilsSpec.utils []
                     [(1, Example.bad_member_loaded)]
       = (Kt' <- UtilsSpec.update_K [] u'
                   (NP.scale (-12285000000)%float M) ;;
          '(Kt'', rest') <- Bridge.K_loop Example.libm UtilsSpec.utils Kt' [] ;;
          Py.Ok (Kt'', (1, u') :: rest')).
Proof.
  assert (HM : exists M : NP.matrix,
             Unit.direction_matrix Example.libm 0%float = Py.Ok M)
    by (eexists; vm_compute; reflexivity).
  destruct HM as [M HM]. exists M.
  destruct (area_of_any_sign_is_assembled
              Example.libm UtilsSpec.utils Example.bad_member_loaded
              (Unit.set_alpha Example.bad_member_loaded 0%float)
              (Unit.set_length Example.bad_member_loaded 8%float)
              1.0%float 0.02%float (-0.5)%float 0.3%float 2.1e11%float
              0%float 8%float M 1 [] []
              eq_refl eq_refl eq_refl eq_refl eq_refl eq_refl
              ltac:(vm_compute; reflexivity) ltac:(vm_compute; reflexivity)
              HM eq_refl)
    as [u' [Ha [Hk HK]]].
  exists u'. split; [exact HM |]. split; [exact Ha |].
  split; [exact Hk | exact HK].
Defined.

(** C8 fails as the spec words it: the member of the example has section
    dimensions whose computed area is negative, and the stiffness
    properties raise nothing: [K] returns the assembled matrix and
    [reduced_K] the reduced one, with stiffness values computed from that
    member. *)
Lemma negative_area_raises_no_error :
  exists (v : float) (u' : Unit.t) (Km Kr : NP.matrix) (b1 b2 : Bridge.t),
    Unit.area Example.bad_member = Py.Ok (v, u')
    /\ PrimFloat.ltb v 0 = true
    /\ Bridge.K Example.libm UtilsSpec.utils Example.bad_bridge
       = Py.Ok (Km, b1)
    /\ Py.getitem Km 0
       = Py.Ok [(-12285000000)%float; 0%float; 12285000000%float; 0%float]
    /\ Bridge.reduced_K Example.libm UtilsSpec.utils Example.bad_bridge
       = Py.Ok (Kr, b2).
Proof.
  do 6 eexists.
  split; [vm_compute; reflexivity |].
  split; [vm_compute; reflexivity |].
  split; [vm_compute; reflexivity |].
  split; vm_compute; reflexivity.
Qed.

(** ** The between-nodes force vector against the spec's lever rule *)

(** In the single span of the example, at every between-nodes position of
    the sweep, the force vector is the one the spec describes. *)
Lemma single_span_force_vector_is_lever_rule :
  forallb (fun i =>
             Nat.eqb (i mod 80) 0
             || Sweep.between_F_agrees
                  (Bridge_64.between_nodes_F (Example.bridge64 1) 29
                                             (Sweep.position i))
                  [0; 8] Sweep.dof_64 29 i)
          (seq 0 (Sweep.count 9))
  = true.
Proof. vm_compute. reflexivity. Qed.

(** In the two spans of the example, the force vector is the one the
    spec describes at every between-nodes position of the sweep except
    those next to the centre support, where it is not. *)
Lemma two_span_force_vector_is_lever_rule_away_from_centre :
  forallb (fun i =>
             Nat.eqb (i mod 80) 0
             || Bool.eqb
                  (Sweep.between_F_agrees
                     (Bridge_160.between_nodes_F (Example.bridge160 1) 76
                                                 (Sweep.position i))
                     [0; 10; 20] Sweep.dof_160 76 i)
                  (negb (Sweep.next_to_centre i)))
          (seq 0 (Sweep.count 21))
  = true.
Proof. vm_compute. reflexivity. Qed.

(** ** The two regimes of the envelope search do return *)

Lemma mul_same_length (a b : NP.vec) :
  List.length a = List.length b -> exists r : NP.vec, NP.mul a b = Py.Ok r.
Proof.
  intros H. unfold NP.mul. rewrite H, Nat.eqb_refl. eexists; reflexivity.
Qed.

Lemma for_range_returns (step : nat -> float * float -> Py.result (float * float))
      (idxs : list nat) :
  (forall i acc, In i idxs -> exists acc', step i acc = Py.Ok acc') ->
  forall acc, exists r, Bridge.for_range step idxs acc = Py.Ok r.
Proof.
  induction idxs as [| i idxs IH]; intros Hstep acc.
  - exists acc. reflexivity.
  - destruct (Hstep i acc (or_introl eq_refl)) as [acc' Hacc'].
    cbn [Bridge.for_range]. rewrite Hacc'; cbn [Py.bind].
    apply IH. intros j acc0 Hj. apply Hstep. right. exact Hj.
Qed.

Lemma uniform_step_returns (pos_data neg_data load : NP.vec)
      (hf : Bridge.half) (i : nat) (acc : float * float) :
  List.length pos_data = 641%nat ->
  List.length neg_data = 641%nat ->
  (641 <= List.length load)%nat ->
  (i <= 641)%nat ->
  exists acc', Bridge.uniform_step pos_data neg_data load hf i acc = Py.Ok acc'.
Proof.
  intros Hp Hn Hload Hi. destruct acc as [pos_max neg_min].
  unfold Bridge.uniform_step.
  rewrite zeros_Ok by lia. cbn [Py.bind].
  set (selected := _ ++ _).
  assert (Hsel : List.length selected = 641%nat).
  { subst selected. rewrite length_app, repeat_length.
    destruct hf; rewrite ?length_rev, length_firstn; lia. }
  destruct (mul_same_length pos_data selected) as [pp Hpp]; [congruence |].
  destruct (mul_same_length neg_data selected) as [np Hnp]; [congruence |].
  rewrite Hpp; cbn [Py.bind]. rewrite Hnp; cbn [Py.bind].
  eexists; reflexivity.
Qed.

Lemma both_step_returns (pos_data neg_data load : NP.vec)
      (i : nat) (acc : float * float) :
  List.length pos_data = 641%nat ->
  List.length neg_data = 641%nat ->
  (993 <= List.length load)%nat ->
  (i < 353)%nat ->
  exists acc', Bridge.both_step pos_data neg_data load i acc = Py.Ok acc'.
Proof.
  intros Hp Hn Hload Hi. destruct acc as [pos_max neg_min].
  unfold Bridge.both_step.
  set (selected := NP.slice load i (i + 641)).
  assert (Hsel : List.length selected = 641%nat).
  { subst selected. unfold NP.slice.
    rewrite length_firstn, length_skipn. lia. }
  destruct (mul_same_length pos_data selected) as [pp Hpp]; [congruence |].
  destruct (mul_same_length neg_data selected) as [np Hnp]; [congruence |].
  rewrite Hpp; cbn [Py.bind]. rewrite Hnp; cbn [Py.bind].
  eexists; reflexivity.
Qed.

Lemma length_mask_pos (data : NP.vec) :
  List.length (NP.mask_pos data) = List.length data.
Proof. unfold NP.mask_pos. apply length_map. Qed.

Lemma length_mask_neg (data : NP.vec) :
  List.length (NP.mask_neg data) = List.length data.
Proof. unfold NP.mask_neg. apply length_map. Qed.

(** On an influence line of 641 samples and a load pattern of at least 993
    samples, the two methods that [get_unit_worst_cases_load_trick] means
    to call return a pair in either orientation, and so does the variant
    [get_unit_worst_cases_load_trick2] that inlines them. *)
Lemma envelope_regimes_return (unit_axial_forces load : NP.vec)
      (pos_max neg_min : float) (hf : Bridge.half) :
  List.length unit_axial_forces = 641%nat ->
  (993 <= List.length load)%nat ->
  (exists r, Bridge.get_uniform_load_max_trick unit_axial_forces load
                                               pos_max neg_min hf = Py.Ok r)
  /\ (exists r, Bridge.get_both_load_max_trick unit_axial_forces load
                                               pos_max neg_min hf = Py.Ok r)
  /\ (exists r, Bridge.get_unit_worst_cases_load_trick2
                  unit_axial_forces load pos_max neg_min = Py.Ok r).
Proof.
  intros Hdata Hload.
  assert (Hrev : List.length (rev unit_axial_forces) = 641%nat)
    by (rewrite length_rev; exact Hdata).
  assert (Huni : forall data h acc,
             List.length data = 641%nat ->
             exists r, Bridge.for_range
                         (Bridge.uniform_step (NP.mask_pos data)
                                              (NP.mask_neg data) load h)
                         (seq 0 (641 + 1)) acc = Py.Ok r).
  { intros data h acc Hd. apply for_range_returns.
    intros i acc0 Hin. apply in_seq in Hin.
    apply uniform_step_returns;
      rewrite ?length_mask_pos, ?length_mask_neg; lia. }
  assert (Hboth : forall data acc,
             List.length data = 641%nat ->
             exists r, Bridge.for_range
                         (Bridge.both_step (NP.mask_pos data)
                                           (NP.mask_neg data) load)
                         (seq 0 353) acc = Py.Ok r).
  { intros data acc Hd. apply for_range_returns.
    intros i acc0 Hin. apply in_seq in Hin.
    apply both_step_returns;
      rewrite ?length_mask_pos, ?length_mask_neg; lia. }
  split; [| split].
  - unfold Bridge.get_uniform_load_max_trick.
    destruct hf; apply Huni; assumption.
  - unfold Bridge.get_both_load_max_trick.
    destruct hf; apply Hboth; assumption.
  - unfold Bridge.get_unit_worst_cases_load_trick2, Bridge.trick2_half.
    destruct (Huni unit_axial_forces Bridge.left (pos_max, neg_min) Hdata)
      as [acc1 H1].
    rewrite H1; cbn [Py.bind].
    destruct (Hboth unit_axial_forces acc1 Hdata) as [acc2 H2].
    rewrite H2; cbn [Py.bind].
    destruct (Huni (rev unit_axial_forces) Bridge.right acc2 Hrev)
      as [acc3 H3].
    rewrite H3; cbn [Py.bind].
    destruct (Hboth (rev unit_axial_forces) acc3 Hrev) as [acc4 H4].
    rewrite H4; cbn [Py.bind].
    eexists; reflexivity.
Qed.

(** * Further properties of the code *)

(** ** The stiffness of a member *)

(** X1: whenever [kij] computes the stiffness of a member (its cache being
    empty), the matrix has four rows of four entries and equals its
    transpose, entry for entry, whatever libm returns for the angle. *)
Theorem kij_is_symmetric :
  forall (libm : Libm.t) (u u' : Unit.t) (k : NP.matrix),
    Unit._kij u = None ->
    Unit.kij libm u = Py.Ok (k, u') ->
    Facts.transpose k = k
    /\ List.length k = 4%nat
    /\ Forall (fun row => List.length row = 4%nat) k.
Proof.
  intros libm u u' k Hcache H.
  unfold Unit.kij in H. rewrite Hcache in H.
  bind_inv H as [a u1] Ha. bind_inv H as [l u2] Hl.
  bind_inv H as M HM. bind_inv H as [A u3] HA.
  unfold Unit.direction_matrix in HM.
  bind_inv HM as c2 Hc2. bind_inv HM as s2 Hs2. inversion HM; subst M.
  destruct (Unit._E u3) as [E|]; [| discriminate].
  destruct (PrimFloat.eqb l 0); [discriminate |].
  inversion H; subst.
  split; [reflexivity |]. split; [reflexivity |].
  repeat constructor.
Qed.

(** The instance of X1 at the vertical member 3 of the example. *)
Lemma kij_is_symmetric_witness :
  exists (k : NP.matrix) (u' : Unit.t),
    Unit.kij Example.libm Example.vertical3 = Py.Ok (k, u')
    /\ Facts.transpose k = k
    /\ List.length k = 4%nat
    /\ Forall (fun row => List.length row = 4%nat) k.
Proof.
  assert (H : exists (k : NP.matrix) (u' : Unit.t),
             Unit.kij Example.libm Example.vertical3 = Py.Ok (k, u'))
    by (eexists; eexists; vm_compute; reflexivity).
  destruct H as [k [u' H]]. exists k, u'.
  split; [exact H |].
  exact (kij_is_symmetric Example.libm Example.vertical3 u' k eq_refl H).
Defined.

(** X2: a member whose two end nodes have the same coordinates, with four
    section dimensions, a modulus and empty caches, has no stiffness: its
    angle is taken as [pi / 2] without a division, its length is 0.0, and
    [kij] computes the direction matrix and then raises ZeroDivisionError
    (the one other outcome is the OverflowError of [**] in the direction
    matrix, for a libm whose [pow] overflows there). *)
Theorem kij_of_zero_length_member_raises :
  forall (libm : Libm.t) (u : Unit.t) (a b c d E : float),
    Node.coordinates (Unit.node_i u) = Node.coordinates (Unit.node_j u) ->
    Unit.beam_section_data u = [a; b; c; d] ->
    Unit._alpha u = None ->
    Unit._length u = None ->
    Unit._area u = None ->
    Unit._kij u = None ->
    Unit._E u = Some E ->
    Unit.kij libm u
    = (_ <- Unit.direction_matrix libm (Libm.pi / 2)%float ;;
       Py.Raise Py.ZeroDivisionError)%py
    /\ Unit.alpha libm u
       = Py.Ok ((Libm.pi / 2)%float, Unit.set_alpha u (Libm.pi / 2)%float)
    /\ Unit.length u = Py.Ok (0%float, Unit.set_length u 0%float).
Proof.
  intros libm u a b c d E Hxy Hdata Halpha Hlength Harea Hkij HE.
  assert (Hal : Unit.alpha libm u
                = Py.Ok ((Libm.pi / 2)%float,
                         Unit.set_alpha u (Libm.pi / 2)%float)).
  { unfold Unit.alpha. rewrite Halpha, Hxy. cbn [Py.if_truthy].
    destruct (Node.coordinates (Unit.node_j u)) as [xj yj].
    rewrite Z.eqb_refl. reflexivity. }
  assert (Hlen : Unit.length u = Py.Ok (0%float, Unit.set_length u 0%float)).
  { unfold Unit.length. rewrite Hlength, Hxy. cbn [Py.if_truthy].
    destruct (Node.coordinates (Unit.node_j u)) as [xj yj].
    rewrite !Z.sub_diag. reflexivity. }
  split; [| split; assumption].
  assert (Ha : Unit.area u
               = Py.Ok ((2 * b * d + (a - 2 * b) * c)%float,
                        Unit.set_area u (2 * b * d + (a - 2 * b) * c)%float)).
  { unfold Unit.area. rewrite Harea, Hdata. reflexivity. }
  destruct (Unit.direction_matrix libm (Libm.pi / 2)%float)
    as [M | e] eqn:HM; cbn [Py.bind].
  - destruct (kij_computed libm u _ _ _ _ _ _ E M Hkij HE Hal Hlen HM Ha)
      as [u' Hk].
    exact Hk.
  - unfold Unit.kij. rewrite Hkij, Hal. cbn [Py.bind].
    pose proof (length_transfer
                  u (Unit.set_alpha u (Libm.pi / 2)%float)
                  eq_refl eq_refl eq_refl) as Ht.
    rewrite Hlen in Ht. destruct Ht as [u2 Ht].
    rewrite Ht. cbn [Py.bind]. rewrite HM. reflexivity.
Qed.

(** The instance of X2 at a member from node 1 to node 1 of the example. *)
Lemma kij_of_zero_length_member_raises_witness :
  Unit.kij Example.libm
           (Unit.set_E (Example.member 9 1 1 Example.section)
                       (Some 2.1e11%float))
  = Py.Raise Py.ZeroDivisionError.
Proof.
  exact (eq_trans
           (proj1 (kij_of_zero_length_member_raises
                     Example.libm
                     (Unit.set_E (Example.member 9 1 1 Example.section)
                                 (Some 2.1e11%float))
                     1.0%float 0.02%float 0.01%float 0.3%float 2.1e11%float
                     eq_refl eq_refl eq_refl eq_refl eq_refl eq_refl
                     eq_refl))
           eq_refl).
Defined.

(** ** Caches that are never invalidated *)

(** X3: once [area] has returned a value that is not zero, the member
    keeps returning it, and stays as it is, after its section data has
    been replaced - by any list, one that is no 4-tuple included. *)
Theorem area_ignores_later_section_data :
  forall (u u1 : Unit.t) (v : float) (dims : list float),
    Unit.area u = Py.Ok (v, u1) ->
    Py.truthy v = true ->
    Unit.area (Unit.set_beam_section_data u1 dims)
    = Py.Ok (v, Unit.set_beam_section_data u1 dims).
Proof.
  intros u u1 v dims H Hv.
  assert (Hcache : Unit._area u1 = Some v).
  { unfold Unit.area in H.
    destruct (Unit._area u) as [a0|] eqn:Ha0; cbn [Py.if_truthy] in H.
    - destruct (Py.truthy a0) eqn:Ht.
      + inversion H; subst. exact Ha0.
      + destruct (Unit.beam_section_data u) as [|a [|b [|c [|d [|e l]]]]];
          inversion H; reflexivity.
    - destruct (Unit.beam_section_data u) as [|a [|b [|c [|d [|e l]]]]];
        inversion H; reflexivity. }
  unfold Unit.area.
  cbn [Unit._area Unit.set_beam_section_data].
  rewrite Hcache. cbn [Py.if_truthy]. rewrite Hv. reflexivity.
Qed.

(** The instance of X3 on a member of the example, whose section data is
    replaced by the empty list after its area 0.0216 has been read. *)
Lemma area_ignores_later_section_data_witness :
  Unit.area (Unit.set_beam_section_data
               (Unit.set_area (Example.member 3 2 3 Example.section)
                              0.0216%float) [])
  = Py.Ok (0.0216%float,
           Unit.set_beam_section_data
             (Unit.set_area (Example.member 3 2 3 Example.section)
                            0.0216%float) []).
Proof.
  exact (area_ignores_later_section_data
           (Example.member 3 2 3 Example.section)
           (Unit.set_area (Example.member 3 2 3 Example.section)
                          0.0216%float)
           0.0216%float [] eq_refl eq_refl).
Defined.

(** X4: once [reduced_K] has returned a matrix, [load_params] - with any
    modulus, load, self-weight and bottom chord - does not make the bridge
    compute it again: [reduced_K] returns the same matrix, and so does [K]
    when it had been computed. *)
Theorem stiffness_survives_load_params :
  forall (libm : Libm.t) (utils : Utils.t) (self self1 : Bridge.t)
         (Kr : NP.matrix) (E P h : float) (bc : list Z),
    Bridge.reduced_K libm utils self = Py.Ok (Kr, self1) ->
    Bridge.reduced_K libm utils (Bridge.load_params self1 E P h bc)
    = Py.Ok (Kr, Bridge.load_params self1 E P h bc)
    /\ (forall Km : NP.matrix,
           Bridge._K self1 = Some Km ->
           Bridge.K libm utils (Bridge.load_params self1 E P h bc)
           = Py.Ok (Km, Bridge.load_params self1 E P h bc)).
Proof.
  intros libm utils self self1 Kr E P h bc H.
  destruct (reduced_K_fields _ _ _ _ _ H) as [_ [_ [_ [_ [_ Hc]]]]].
  split.
  - unfold Bridge.reduced_K.
    cbn [Bridge._reduced_K Bridge.load_params]. rewrite Hc. reflexivity.
  - intros Km HKm. unfold Bridge.K.
    cbn [Bridge._K Bridge.load_params]. rewrite HKm. reflexivity.
Qed.

(** The instance of X4 on the two-node bridge of the example: the
    modulus is changed from 2.1e11 to 1.0 and the reduced matrix is the one
    computed before. *)
Lemma stiffness_survives_load_params_witness :
  exists (Kr : NP.matrix) (self1 : Bridge.t),
    Bridge.reduced_K Example.libm UtilsSpec.utils Example.bad_bridge
    = Py.Ok (Kr, self1)
    /\ Bridge.reduced_K Example.libm UtilsSpec.utils
         (Bridge.load_params self1 1%float 1%float 0%float [1; 2])
       = Py.Ok (Kr, Bridge.load_params self1 1%float 1%float 0%float [1; 2]).
Proof.
  assert (H : exists (Kr : NP.matrix) (self1 : Bridge.t),
             Bridge.reduced_K Example.libm UtilsSpec.utils Example.bad_bridge
             = Py.Ok (Kr, self1))
    by (eexists; eexists; vm_compute; reflexivity).
  destruct H as [Kr [self1 H]]. exists Kr, self1.
  split; [exact H |].
  exact (proj1 (stiffness_survives_load_params
                  Example.libm UtilsSpec.utils Example.bad_bridge self1 Kr
                  1%float 1%float 0%float [1; 2] H)).
Defined.

(** ** The dictionaries and the loaders *)

Lemma dict_get_set_same {A : Type} (d : list (Z * A)) (k : Z) (v : A) :
  Bridge.dict_get (Bridge.dict_set d k v) k = Py.Ok v.
Proof.
  unfold Bridge.dict_get.
  induction d as [|[k' v'] rest IH]; cbn.
  - rewrite Z.eqb_refl. reflexivity.
  - destruct (Z.eqb_spec k' k) as [->|Hne]; cbn.
    + rewrite Z.eqb_refl. reflexivity.
    + destruct (Z.eqb_spec k' k); [contradiction | exact IH].
Qed.

Lemma dict_get_set_other {A : Type} (d : list (Z * A)) (k k0 : Z) (v : A) :
  k0 <> k ->
  Bridge.dict_get (Bridge.dict_set d k v) k0 = Bridge.dict_get d k0.
Proof.
  intros Hne. unfold Bridge.dict_get.
  induction d as [|[k' v'] rest IH]; cbn.
  - destruct (Z.eqb_spec k k0); [congruence | reflexivity].
  - destruct (Z.eqb_spec k' k) as [->|Hk]; cbn.
    + destruct (Z.eqb_spec k k0); [congruence | reflexivity].
    + destruct (Z.eqb_spec k' k0); [reflexivity | exact IH].
Qed.

Lemma dict_set_keys {A : Type} (d : list (Z * A)) (k : Z) (v : A) :
  Facts.keys (Bridge.dict_set d k v)
  = if existsb (Z.eqb k) (Facts.keys d) then Facts.keys d
    else Facts.keys d ++ [k].
Proof.
  unfold Facts.keys.
  induction d as [|[k' v'] rest IH]; cbn.
  - reflexivity.
  - rewrite (Z.eqb_sym k k').
    destruct (Z.eqb_spec k' k) as [->|Hk]; cbn.
    + reflexivity.
    + rewrite IH. destruct (existsb (Z.eqb k) (map fst rest)); reflexivity.
Qed.

Lemma existsb_eqb_In (k : Z) (l : list Z) :
  existsb (Z.eqb k) l = true <-> In k l.
Proof.
  rewrite existsb_exists. split.
  - intros [x [Hin Hx]]. apply Z.eqb_eq in Hx. subst. exact Hin.
  - intros Hin. exists k. split; [exact Hin | apply Z.eqb_refl].
Qed.

Lemma dict_set_NoDup {A : Type} (d : list (Z * A)) (k : Z) (v : A) :
  NoDup (Facts.keys d) -> NoDup (Facts.keys (Bridge.dict_set d k v)).
Proof.
  intros Hnd. rewrite dict_set_keys.
  destruct (existsb (Z.eqb k) (Facts.keys d)) eqn:He; [exact Hnd |].
  assert (Hnot : ~ In k (Facts.keys d)).
  { intros Hin. apply existsb_eqb_In in Hin. congruence. }
  clear He. induction (Facts.keys d) as [|x l IH]; cbn.
  - constructor; [intros [] | constructor].
  - inversion Hnd; subst. constructor.
    + rewrite in_app_iff. intros [Hin | [Hx | []]]; [contradiction |].
      apply Hnot. left. symmetry. exact Hx.
    + apply IH; [assumption |]. intros Hin. apply Hnot. right. exact Hin.
Qed.

Lemma dict_get_absent {A : Type} (d : list (Z * A)) (k : Z) :
  ~ In k (Facts.keys d) -> Bridge.dict_get d k = Py.Raise Py.KeyError.
Proof.
  unfold Bridge.dict_get, Facts.keys.
  induction d as [|[k' v'] rest IH]; cbn; intros Hnot.
  - reflexivity.
  - destruct (Z.eqb_spec k' k) as [->|Hk].
    + exfalso. apply Hnot. left. reflexivity.
    + apply IH. intros Hin. apply Hnot. right. exact Hin.
Qed.

Lemma dict_get_present {A : Type} (d : list (Z * A)) (k : Z) (v : A) :
  Bridge.dict_get d k = Py.Ok v -> In k (Facts.keys d) /\ In (k, v) d.
Proof.
  unfold Bridge.dict_get, Facts.keys.
  induction d as [|[k' v'] rest IH]; cbn; intros H.
  - discriminate.
  - destruct (Z.eqb_spec k' k) as [->|Hk].
    + inversion H; subst. split; left; reflexivity.
    + destruct (IH H) as [H1 H2]. split; right; assumption.
Qed.

Lemma dict_get_cases {A : Type} (d : list (Z * A)) (k : Z) :
  (exists v, Bridge.dict_get d k = Py.Ok v)
  \/ Bridge.dict_get d k = Py.Raise Py.KeyError.
Proof.
  unfold Bridge.dict_get.
  destruct (find (fun kv => fst kv =? k) d) as [kv|].
  - left. exists (snd kv). reflexivity.
  - right. reflexivity.
Qed.

Lemma dict_set_Forall {A : Type} (Q : A -> Prop) (d : list (Z * A))
      (k : Z) (v : A) :
  Forall (fun kv => Q (snd kv)) d -> Q v ->
  Forall (fun kv => Q (snd kv)) (Bridge.dict_set d k v).
Proof.
  intros Hd Hv. induction Hd as [|[k' v'] rest Hx Hrest IH]; cbn.
  - constructor; [exact Hv | constructor].
  - destruct (k' =? k); constructor; assumption.
Qed.

Lemma load_nodes_rows_app (ns : list (Z * Node.t)) (r1 r2 : list (list Z)) :
  Bridge.load_nodes_rows ns (r1 ++ r2)
  = (ns1 <- Bridge.load_nodes_rows ns r1 ;; Bridge.load_nodes_rows ns1 r2)%py.
Proof.
  revert ns. induction r1 as [|row r1 IH]; intros ns; cbn [app].
  - reflexivity.
  - destruct row as [|k [|x [|y [|z row]]]]; try reflexivity.
    cbn [Bridge.load_nodes_rows]. apply IH.
Qed.

Lemma load_nodes_rows_NoDup (rows : list (list Z)) :
  forall ns ns' : list (Z * Node.t),
    Bridge.load_nodes_rows ns rows = Py.Ok ns' ->
    NoDup (Facts.keys ns) -> NoDup (Facts.keys ns').
Proof.
  induction rows as [|row rows IH]; intros ns ns' H Hnd.
  - inversion H; subst. exact Hnd.
  - destruct row as [|k [|x [|y [|z row]]]]; try discriminate.
    cbn [Bridge.load_nodes_rows] in H.
    eapply IH; [exact H | apply dict_set_NoDup; exact Hnd].
Qed.

Lemma load_nodes_rows_keeps (rows : list (list Z)) (k : Z) :
  forall ns ns' : list (Z * Node.t),
    Bridge.load_nodes_rows ns rows = Py.Ok ns' ->
    (forall x y : Z, ~ In [k; x; y] rows) ->
    Bridge.dict_get ns' k = Bridge.dict_get ns k.
Proof.
  induction rows as [|row rows IH]; intros ns ns' H Hnot.
  - inversion H; subst. reflexivity.
  - destruct row as [|k' [|x [|y [|z row]]]]; try discriminate.
    cbn [Bridge.load_nodes_rows] in H.
    rewrite (IH _ _ H).
    + apply dict_get_set_other. intros ->.
      apply (Hnot x y). left. reflexivity.
    + intros x' y' Hin. apply (Hnot x' y'). right. exact Hin.
Qed.

(** X5: when the node file gives several lines for one node number, the
    last one decides: after [load_nodes_coordinates], the node filed under
    that number is a new node with the coordinates of the last line and no
    recorded displacement.  The numbers of the dictionary stay pairwise
    different. *)
Theorem load_nodes_last_line_wins :
  forall (self self' : Bridge.t) (rows1 rows2 : list (list Z)) (k x y : Z),
    Bridge.load_nodes_coordinates self (rows1 ++ [k; x; y] :: rows2)
    = Py.Ok self' ->
    (forall x' y' : Z, ~ In [k; x'; y'] rows2) ->
    Bridge.dict_get (Bridge.nodes self') k = Py.Ok (Node.init k (x, y))
    /\ (NoDup (Facts.keys (Bridge.nodes self)) ->
        NoDup (Facts.keys (Bridge.nodes self')))
    /\ Bridge.units self' = Bridge.units self.
Proof.
  intros self self' rows1 rows2 k x y H Hlast.
  unfold Bridge.load_nodes_coordinates in H.
  bind_inv H as ns' Hns. inversion H; subst. cbn [Bridge.nodes Bridge.set_nodes
                                                  Bridge.units].
  split; [| split; [| reflexivity]].
  - rewrite load_nodes_rows_app in Hns.
    bind_inv Hns as ns1 H1.
    cbn [Bridge.load_nodes_rows] in Hns.
    rewrite (load_nodes_rows_keeps _ _ _ _ Hns Hlast).
    apply dict_get_set_same.
  - intros Hnd. exact (load_nodes_rows_NoDup _ _ _ Hns Hnd).
Qed.

(** The instance of X5 with two lines for node 1. *)
Lemma load_nodes_last_line_wins_witness :
  exists self' : Bridge.t,
    Bridge.load_nodes_coordinates (Bridge.init (Some 64))
      ([[1; 5; 5]; [2; 8; 11]] ++ [1; 0; 0] :: [[3; 8; 0]])
    = Py.Ok self'
    /\ Bridge.dict_get (Bridge.nodes self') 1 = Py.Ok (Node.init 1 (0, 0)).
Proof.
  eexists. split; [vm_compute; reflexivity |].
  refine (proj1 (load_nodes_last_line_wins
                   (Bridge.init (Some 64)) _
                   [[1; 5; 5]; [2; 8; 11]] [[3; 8; 0]] 1 0 0 eq_refl _)).
  intros x' y' [Hin | []]. discriminate.
Defined.

Lemma load_units_rows_unknown_node
      (ns : list (Z * Node.t)) (rows : list (list Z)) (k i j : Z) :
  forall us : list (Z * Unit.t),
    Forall (fun row => List.length row = 3%nat) rows ->
    In [k; i; j] rows ->
    ~ In i (Facts.keys ns) \/ ~ In j (Facts.keys ns) ->
    Bridge.load_units_rows ns us rows = Py.Raise Py.KeyError.
Proof.
  induction rows as [|row rows IH]; intros us Hall Hin Hbad.
  - destruct Hin.
  - inversion Hall as [|r rs Hlen Hrest]; subst.
    destruct row as [|k' [|i' [|j' [|z row]]]]; try discriminate.
    cbn [Bridge.load_units_rows].
    destruct (dict_get_cases ns i') as [[ni Hi] | Hi]; rewrite Hi;
      [| reflexivity].
    destruct (dict_get_cases ns j') as [[nj Hj] | Hj]; rewrite Hj;
      [| reflexivity].
    cbn [Py.bind].
    destruct Hin as [Heq | Hin].
    + inversion Heq; subst. exfalso.
      destruct Hbad as [Hb | Hb]; apply Hb.
      * exact (proj1 (dict_get_present _ _ _ Hi)).
      * exact (proj1 (dict_get_present _ _ _ Hj)).
    + apply IH; assumption.
Qed.

Lemma load_sections_rows_unknown_unit
      (rows : list (Z * list float)) (k : Z) (dims : list float) :
  forall us : list (Z * Unit.t),
    In (k, dims) rows ->
    ~ In k (Facts.keys us) ->
    Bridge.load_sections_rows us rows = Py.Raise Py.KeyError.
Proof.
  induction rows as [|[k' dims'] rows IH]; intros us Hin Hbad.
  - destruct Hin.
  - cbn [Bridge.load_sections_rows].
    destruct (dict_get_cases us k') as [[u Hu] | Hu]; rewrite Hu;
      [| reflexivity].
    cbn [Py.bind].
    destruct Hin as [Heq | Hin].
    + inversion Heq; subst. exfalso. apply Hbad.
      exact (proj1 (dict_get_present _ _ _ Hu)).
    + apply IH; [exact Hin |].
      rewrite dict_set_keys.
      assert (He : existsb (Z.eqb k') (Facts.keys us) = true)
        by (apply existsb_eqb_In; exact (proj1 (dict_get_present _ _ _ Hu))).
      rewrite He. exact Hbad.
Qed.

(** X6: [load_units_data] raises KeyError when a line of the member
    file (all of three numbers) names an end node that [self.nodes] does
    not hold; its second loop raises KeyError when a line of section data
    names a member that is not in the dictionary. *)
Theorem load_units_data_unknown_number_raises_KeyError :
  forall (self : Bridge.t) (unit_rows : list (list Z))
         (section_rows : list (Z * list float)) (k i j : Z),
    Forall (fun row => List.length row = 3%nat) unit_rows ->
    In [k; i; j] unit_rows ->
    ~ In i (Facts.keys (Bridge.nodes self))
    \/ ~ In j (Facts.keys (Bridge.nodes self)) ->
    Bridge.load_units_data self unit_rows section_rows
    = Py.Raise Py.KeyError
    /\ (forall (us : list (Z * Unit.t)) (m : Z) (dims : list float),
           In (m, dims) section_rows ->
           ~ In m (Facts.keys us) ->
           Bridge.load_sections_rows us section_rows
           = Py.Raise Py.KeyError).
Proof.
  intros self unit_rows section_rows k i j Hall Hin Hbad. split.
  - unfold Bridge.load_units_data.
    rewrite (load_units_rows_unknown_node _ _ k i j _ Hall Hin Hbad).
    reflexivity.
  - intros us m dims Hm Hnot.
    exact (load_sections_rows_unknown_unit _ m dims us Hm Hnot).
Qed.

(** The instance of X6 with a member from node 1 to a node 99 on a bridge
    that holds the nodes 1 and 2. *)
Lemma load_units_data_unknown_number_raises_KeyError_witness :
  Bridge.load_units_data
    (Bridge.set_nodes (Bridge.init (Some 64))
                      [(1, Node.init 1 (0, 0)); (2, Node.init 2 (8, 0))])
    [[1; 1; 2]; [2; 1; 99]] [(1, Example.section)]
  = Py.Raise Py.KeyError.
Proof.
  refine (proj1 (load_units_data_unknown_number_raises_KeyError
                   (Bridge.set_nodes
                      (Bridge.init (Some 64))
                      [(1, Node.init 1 (0, 0)); (2, Node.init 2 (8, 0))])
                   [[1; 1; 2]; [2; 1; 99]] [(1, Example.section)]
                   2 1 99 _ _ _)).
  - repeat constructor.
  - right. left. reflexivity.
  - right. cbn. intros [H | [H | []]]; discriminate.
Defined.

Lemma dict_get_Forall {A : Type} (Q : A -> Prop) (d : list (Z * A))
      (k : Z) (v : A) :
  Forall (fun kv => Q (snd kv)) d -> Bridge.dict_get d k = Py.Ok v -> Q v.
Proof.
  intros Hd Hget.
  destruct (dict_get_present _ _ _ Hget) as [_ Hin].
  rewrite Forall_forall in Hd. exact (Hd _ Hin).
Qed.

Lemma load_units_rows_fresh (ns : list (Z * Node.t)) (rows : list (list Z)) :
  forall us us' : list (Z * Unit.t),
    Bridge.load_units_rows ns us rows = Py.Ok us' ->
    Forall (fun ku => Facts.fresh (snd ku)) us ->
    Forall (fun ku => Facts.fresh (snd ku)) us'.
Proof.
  induction rows as [|row rows IH]; intros us us' H Hus.
  - inversion H; subst. exact Hus.
  - destruct row as [|k [|i [|j [|z row]]]]; try discriminate.
    cbn [Bridge.load_units_rows] in H.
    bind_inv H as ni Hi. bind_inv H as nj Hj.
    apply (IH _ _ H).
    apply dict_set_Forall; [exact Hus |].
    repeat split.
Qed.

Lemma load_sections_rows_fresh (rows : list (Z * list float)) :
  forall us us' : list (Z * Unit.t),
    Bridge.load_sections_rows us rows = Py.Ok us' ->
    Forall (fun ku => Facts.fresh (snd ku)) us ->
    Forall (fun ku => Facts.fresh (snd ku)) us'.
Proof.
  induction rows as [|[k dims] rows IH]; intros us us' H Hus.
  - inversion H; subst. exact Hus.
  - cbn [Bridge.load_sections_rows] in H.
    bind_inv H as u Hu.
    apply (IH _ _ H).
    apply dict_set_Forall; [exact Hus |].
    exact (dict_get_Forall Facts.fresh _ _ _ Hus Hu).
Qed.

(** The only exception of the angle, of the length and of the direction
    matrix is OverflowError. *)
Lemma alpha_raises (libm : Libm.t) (u : Unit.t) (e : Py.exn) :
  Unit.alpha libm u = Py.Raise e -> e = Py.OverflowError.
Proof.
  unfold Unit.alpha.
  destruct (Py.if_truthy (Unit._alpha u)); [discriminate |].
  destruct (Node.coordinates (Unit.node_i u)) as [xi yi].
  destruct (Node.coordinates (Unit.node_j u)) as [xj yj].
  destruct (Z.eqb_spec xi xj) as [|Hne]; [discriminate |].
  unfold Py.int_truediv.
  destruct (Z.eqb_spec (xj - xi) 0) as [|_]; [lia |].
  match goal with
  | |- context [PrimFloat.is_infinity ?f] =>
      destruct (PrimFloat.is_infinity f)
  end; cbn [Py.bind]; intros H; inversion H; reflexivity.
Qed.

Lemma length_raises (u : Unit.t) (e : Py.exn) :
  Unit.length u = Py.Raise e -> e = Py.OverflowError.
Proof.
  unfold Unit.length.
  destruct (Py.if_truthy (Unit._length u)); [discriminate |].
  destruct (Node.coordinates (Unit.node_i u)) as [xi yi].
  destruct (Node.coordinates (Unit.node_j u)) as [xj yj].
  unfold Py.int_to_float.
  match goal with
  | |- context [PrimFloat.is_infinity ?f] =>
      destruct (PrimFloat.is_infinity f)
  end; cbn [Py.bind]; intros H; inversion H; reflexivity.
Qed.

Lemma pow2_raises (libm : Libm.t) (x : float) (e : Py.exn) :
  Libm.pow2 libm x = Py.Raise e -> e = Py.OverflowError.
Proof.
  unfold Libm.pow2.
  repeat match goal with
         | |- context [if ?b then _ else _] => destruct b
         end;
    intros H; inversion H; reflexivity.
Qed.

Lemma direction_matrix_raises (libm : Libm.t) (a : float) (e : Py.exn) :
  Unit.direction_matrix libm a = Py.Raise e -> e = Py.OverflowError.
Proof.
  unfold Unit.direction_matrix.
  destruct (Libm.pow2 libm (Libm.cos libm a)) as [c2 | e1] eqn:Hc;
    cbn [Py.bind].
  - destruct (Libm.pow2 libm (Libm.sin libm a)) as [s2 | e2] eqn:Hs;
      cbn [Py.bind]; intros H; inversion H; subst.
    exact (pow2_raises _ _ _ Hs).
  - intros H; inversion H; subst. exact (pow2_raises _ _ _ Hc).
Qed.

(** The stiffness of a member that has no modulus yet: the angle, the
    length and the direction matrix are computed first, and may raise;
    then the unpacking of the section data or the product with the
    modulus raises. *)
Lemma kij_fresh (libm : Libm.t) (u : Unit.t) :
  Facts.fresh u ->
  Unit.kij libm u
  = ('(a, _) <- Unit.alpha libm u ;;
     _ <- Unit.length u ;;
     _ <- Unit.direction_matrix libm a ;;
     Py.Raise (if Nat.eqb (List.length (Unit.beam_section_data u)) 4
               then Py.TypeError else Py.ValueError))%py.
Proof.
  intros [Halpha [Hlength [Harea [Hkij HE]]]].
  unfold Unit.kij. rewrite Hkij.
  destruct (Unit.alpha libm u) as [[al u1] | e] eqn:Hal;
    cbn [Py.bind]; [| reflexivity].
  destruct (alpha_frame _ _ _ _ Hal) as [Hd1 [Hl1 [Ha1 [HE1 [Hi1 Hj1]]]]].
  pose proof (length_transfer u u1 Hl1 Hi1 Hj1) as Ht.
  destruct (Unit.length u) as [[l u2] | e] eqn:Hlen.
  - destruct Ht as [u2' Ht]. rewrite Ht. cbn [Py.bind].
    destruct (Unit.direction_matrix libm al) as [M | e];
      cbn [Py.bind]; [| reflexivity].
    destruct (length_frame _ _ _ Ht) as [Hd2 [Ha2 HE2]].
    unfold Unit.area.
    rewrite Ha2, Ha1, Harea. cbn [Py.if_truthy].
    rewrite Hd2, Hd1.
    destruct (Unit.beam_section_data u) as [|a [|b [|c [|d [|e rest]]]]];
      try reflexivity.
    cbn [Py.bind Unit._E Unit.set_area]. rewrite HE2, HE1, HE. reflexivity.
  - rewrite Ht. reflexivity.
Qed.

Lemma kij_fresh_raises (libm : Libm.t) (u : Unit.t) :
  Facts.fresh u ->
  exists e : Py.exn,
    Unit.kij libm u = Py.Raise e
    /\ (e = Py.OverflowError \/ e = Py.ValueError \/ e = Py.TypeError).
Proof.
  intros Hfresh. rewrite (kij_fresh libm u Hfresh).
  destruct (Unit.alpha libm u) as [[al u1] | e] eqn:Hal; cbn [Py.bind].
  - destruct (Unit.length u) as [[l u2] | e] eqn:Hlen; cbn [Py.bind].
    + destruct (Unit.direction_matrix libm al) as [M | e] eqn:HM;
        cbn [Py.bind].
      * eexists. split; [reflexivity |].
        destruct (Nat.eqb _ 4); [right; right | right; left]; reflexivity.
      * exists e. split; [reflexivity |]. left.
        exact (direction_matrix_raises _ _ _ HM).
    + exists e. split; [reflexivity |]. left.
      exact (length_raises _ _ Hlen).
  - exists e. split; [reflexivity |]. left.
    exact (alpha_raises _ _ _ Hal).
Qed.

(** What [load_data] returns: the reset bridge with the loaded
    dictionaries, every member as its constructor left it. *)
Lemma load_data_fields (class_length : option Z) (self b : Bridge.t)
      (node_rows unit_rows : list (list Z))
      (section_rows : list (Z * list float)) :
  Bridge.load_data class_length self node_rows unit_rows section_rows
  = Py.Ok b ->
  exists (ns : list (Z * Node.t)) (us : list (Z * Unit.t)),
    b = Bridge.set_units
          (Bridge.set_nodes (Bridge.reinit class_length self) ns) us
    /\ Forall (fun ku => Facts.fresh (snd ku)) us.
Proof.
  intros H.
  unfold Bridge.load_data, Bridge.load_nodes_coordinates,
    Bridge.load_units_data in H.
  bind_inv H as b1 Hb1. bind_inv Hb1 as ns Hns. inversion Hb1; subst b1.
  bind_inv H as us1 Hus1. bind_inv H as us2 Hus2. inversion H; subst b.
  cbn [Bridge.units Bridge.nodes Bridge.set_units Bridge.set_nodes
       Bridge.reinit] in *.
  exists ns, us2. split; [reflexivity |].
  apply (load_sections_rows_fresh _ _ _ Hus2).
  apply (load_units_rows_fresh _ _ _ _ Hus1). constructor.
Qed.

(** X7: [load_data] starts from [__init__]: on any bridge, also one that
    has been analysed, it clears both stiffness caches, the node count and
    the modulus, and keeps the load, the self-weight, the bottom chord and
    [n].  Every member it leaves has empty caches and no modulus, so that
    its [kij] never returns until [load_params] is called again: it
    raises OverflowError when the angle, the length or the direction
    matrix cannot be computed (coordinates too large for a float), and
    otherwise TypeError with four section dimensions and ValueError with
    another number of them. *)
Theorem load_data_resets_caches_and_keeps_parameters :
  forall (class_length : option Z) (self b : Bridge.t)
         (node_rows unit_rows : list (list Z))
         (section_rows : list (Z * list float)),
    Bridge.load_data class_length self node_rows unit_rows section_rows
    = Py.Ok b ->
    (Bridge._K b = None /\ Bridge._reduced_K b = None
     /\ Bridge._n_nodes b = None /\ Bridge._E b = None
     /\ Bridge.length b = class_length)
    /\ (Bridge.P b = Bridge.P self /\ Bridge.h b = Bridge.h self
        /\ Bridge.bottom_chord_nodes_nums b
           = Bridge.bottom_chord_nodes_nums self
        /\ Bridge.bottom_chord_nodes_indices b
           = Bridge.bottom_chord_nodes_indices self
        /\ Bridge.n b = Bridge.n self)
    /\ Forall (fun ku =>
                 forall libm : Libm.t,
                   (exists e : Py.exn,
                       Unit.kij libm (snd ku) = Py.Raise e
                       /\ (e = Py.OverflowError \/ e = Py.ValueError
                           \/ e = Py.TypeError))
                   /\ Unit.kij libm (snd ku)
                      = ('(a, _) <- Unit.alpha libm (snd ku) ;;
                         _ <- Unit.length (snd ku) ;;
                         _ <- Unit.direction_matrix libm a ;;
                         Py.Raise
                           (if Nat.eqb
                                 (List.length
                                    (Unit.beam_section_data (snd ku))) 4
                            then Py.TypeError else Py.ValueError))%py)
              (Bridge.units b).
Proof.
  intros cl self b nr ur sr H.
  destruct (load_data_fields _ _ _ _ _ _ H) as [ns [us [-> Hfresh]]].
  cbn [Bridge.units Bridge.set_units].
  split; [repeat split |]. split; [repeat split |].
  rewrite Forall_forall in *. intros ku Hin libm.
  split; [apply kij_fresh_raises | apply kij_fresh]; exact (Hfresh ku Hin).
Qed.

(** The instance of X7 on the analysed bridge of the example, reloaded
    from the example's three files. *)
Lemma load_data_resets_caches_and_keeps_parameters_witness :
  exists b : Bridge.t,
    Bridge.load_data (Some 64) (Example.bridge64 1) Facts.node_rows
                     Facts.unit_rows Facts.section_rows
    = Py.Ok b
    /\ Bridge._reduced_K b = None
    /\ Bridge.P b = Some 1%float.
Proof.
  assert (H : exists b : Bridge.t,
             Bridge.load_data (Some 64) (Example.bridge64 1) Facts.node_rows
                              Facts.unit_rows Facts.section_rows
             = Py.Ok b)
    by (eexists; vm_compute; reflexivity).
  destruct H as [b H]. exists b. split; [exact H |].
  destruct (load_data_resets_caches_and_keeps_parameters
              (Some 64) (Example.bridge64 1) b Facts.node_rows
              Facts.unit_rows Facts.section_rows H)
    as [[_ [HK _]] [[HP _] _]].
  split; [exact HK | exact HP].
Defined.

(** ** A bridge built by the module alone *)

Lemma reduced_K_needs_attribute_n (libm : Libm.t) (utils : Utils.t)
      (self : Bridge.t) :
  Bridge._reduced_K self = None -> Bridge._K self = None ->
  Bridge.n self = None ->
  Bridge.reduced_K libm utils self = Py.Raise (Py.AttributeError "n").
Proof.
  intros Hr HK Hn. unfold Bridge.reduced_K, Bridge.K.
  rewrite Hr, HK, Hn. reflexivity.
Qed.

Lemma getitem_range_0 (nb : nat) :
  (nb = 9 \/ nb = 21)%nat ->
  Py.getitem (Py.range nb) 0 = Py.Ok 0
  /\ exists last, Py.getitem (Py.range nb) (-1) = Py.Ok last.
Proof.
  intros [-> | ->]; (split; [reflexivity | eexists; reflexivity]).
Qed.

Lemma on_node_test_0 (nb : nat) :
  (nb = 9 \/ nb = 21)%nat ->
  Bridge.on_node_test (Py.range nb) 0%float = Py.Ok true.
Proof. intros [-> | ->]; vm_compute; reflexivity. Qed.

Lemma first_moment_needs_attribute_n (libm : Libm.t) (utils : Utils.t)
      (inv : NP.matrix -> Py.result NP.matrix) (cls : Bridge.methods)
      (self : Bridge.t) (bc : list Z) :
  cls = Bridge_64.cls libm utils inv \/ cls = Bridge_160.cls libm utils inv ->
  (List.length bc = 9 \/ List.length bc = 21)%nat ->
  Bridge.bottom_chord_nodes_nums self = Some bc ->
  Bridge.bottom_chord_nodes_indices self
  = Some (Py.range (List.length bc)) ->
  Bridge._reduced_K self = None -> Bridge._K self = None ->
  Bridge.n self = None ->
  Bridge.get_nodes_vdisps_moment cls self 0%float
  = Py.Raise (Py.AttributeError "n").
Proof.
  intros Hcls Hnb Hnums Hidx Hr HK Hn.
  unfold Bridge.get_nodes_vdisps_moment.
  rewrite Hidx. cbn [Py.getattr Py.bind].
  rewrite (on_node_test_0 _ Hnb). cbn [Py.bind].
  destruct (getitem_range_0 _ Hnb) as [Hfirst [last Hlast]].
  destruct Hcls as [-> | ->];
    cbn [Bridge.get_nodes_vdisps_moment_on_nodes Bridge_64.cls
         Bridge_160.cls].
  - unfold Bridge_64.get_nodes_vdisps_moment_on_nodes.
    rewrite Hidx. cbn [Py.getattr Py.bind].
    change (Py.int_floordiv 0%float 8) with (Py.Ok (A := Z) 0).
    cbn [Py.bind]. rewrite Hfirst, Hlast. cbn [Py.bind].
    change (Py.int_in 0 [0; last]) with true. cbv iota.
    rewrite (reduced_K_needs_attribute_n _ _ _ Hr HK Hn). reflexivity.
  - unfold Bridge_160.get_nodes_vdisps_moment_on_nodes,
      Bridge_160.bc_middle_node_index.
    rewrite Hnums, Hidx. cbn [Py.getattr Py.bind].
    change (Py.int_floordiv 0%float 8) with (Py.Ok (A := Z) 0).
    cbn [Py.bind]. rewrite Hfirst, Hlast. cbn [Py.bind].
    match goal with
    | |- context [Py.int_in 0 (0 :: ?l)] =>
        change (Py.int_in 0 (0 :: l)) with true
    end.
    cbv iota.
    rewrite (reduced_K_needs_attribute_n _ _ _ Hr HK Hn). reflexivity.
Qed.

(** X8: a bridge that is built through the module alone - [__init__], the
    loaders, [load_params] with a bottom chord of 9 or 21 nodes - cannot
    be analysed by either profile: [K] raises AttributeError for the
    attribute [n], also after [n_nodes] has been read, and both sweeps
    raise it at their first position. *)
Theorem sweeps_of_a_built_bridge_raise_AttributeError :
  forall (libm : Libm.t) (utils : Utils.t)
         (inv : NP.matrix -> Py.result NP.matrix) (cls : Bridge.methods)
         (class_length : option Z) (node_rows unit_rows : list (list Z))
         (section_rows : list (Z * list float)) (E P h : float)
         (bc : list Z) (b : Bridge.t),
    cls = Bridge_64.cls libm utils inv
    \/ cls = Bridge_160.cls libm utils inv ->
    (List.length bc = 9 \/ List.length bc = 21)%nat ->
    Facts.built class_length node_rows unit_rows section_rows E P h bc
    = Py.Ok b ->
    Bridge.K libm utils b = Py.Raise (Py.AttributeError "n")
    /\ Bridge.K libm utils (snd (Bridge.n_nodes b))
       = Py.Raise (Py.AttributeError "n")
    /\ Bridge.get_nodes_vdisps cls b = Py.Raise (Py.AttributeError "n")
    /\ Bridge.get_units_axial_forces cls b
       = Py.Raise (Py.AttributeError "n").
Proof.
  intros libm utils inv cls cl nr ur sr E P h bc b Hcls Hnb H.
  unfold Facts.built in H. bind_inv H as b0 Hb0. inversion H; subst b.
  destruct (load_data_fields _ _ _ _ _ _ Hb0) as [ns [us [-> _]]].
  assert (HK : Bridge._K (Bridge.set_units
                            (Bridge.set_nodes
                               (Bridge.reinit cl (Bridge.init cl)) ns) us)
               = None) by reflexivity.
  assert (Hr : Bridge._reduced_K
                 (Bridge.set_units
                    (Bridge.set_nodes
                       (Bridge.reinit cl (Bridge.init cl)) ns) us)
               = None) by reflexivity.
  assert (Hnn : Bridge._n_nodes
                  (Bridge.set_units
                     (Bridge.set_nodes
                        (Bridge.reinit cl (Bridge.init cl)) ns) us)
                = None) by reflexivity.
  assert (Hn : Bridge.n (Bridge.set_units
                           (Bridge.set_nodes
                              (Bridge.reinit cl (Bridge.init cl)) ns) us)
               = None) by reflexivity.
  remember (Bridge.set_units
              (Bridge.set_nodes (Bridge.reinit cl (Bridge.init cl)) ns) us)
    as b0 eqn:Eb0.
  clear Eb0 Hb0.
  assert (Haxis : forall self : Bridge.t,
             Bridge.bottom_chord_nodes_indices self
             = Some (Py.range (List.length bc)) ->
             exists rest, Bridge.bc_axis self = Py.Ok (0%float :: rest)).
  { intros self Hidx. rewrite (bc_axis_positions self _ Hnb Hidx).
    destruct Hnb as [-> | ->]; eexists; reflexivity. }
  repeat split.
  - unfold Bridge.K. cbn [Bridge._K Bridge.n Bridge.load_params].
    rewrite HK, Hn. reflexivity.
  - unfold Bridge.K, Bridge.n_nodes.
    cbn [Bridge._n_nodes Bridge.load_params]. rewrite Hnn.
    cbn [snd Bridge._K Bridge.n Bridge.load_params Bridge.set_n_nodes].
    rewrite HK, Hn. reflexivity.
  - unfold Bridge.get_nodes_vdisps.
    destruct (Haxis (Bridge.nodes_vdisps_init
                       (Bridge.load_params b0 E P h bc)) eq_refl)
      as [rest ->].
    cbn [Py.bind Bridge.nodes_vdisps_loop].
    rewrite (first_moment_needs_attribute_n
               libm utils inv cls
               (Bridge.nodes_vdisps_init (Bridge.load_params b0 E P h bc))
               bc Hcls Hnb eq_refl eq_refl Hr HK Hn).
    reflexivity.
  - unfold Bridge.get_units_axial_forces.
    destruct (Haxis (Bridge.units_axial_forces_init
                       (Bridge.load_params b0 E P h bc)) eq_refl)
      as [rest ->].
    cbn [Py.bind Bridge.units_axial_forces_loop].
    unfold Bridge.get_units_axial_forces_moment.
    rewrite (first_moment_needs_attribute_n
               libm utils inv cls
               (Bridge.units_axial_forces_init
                  (Bridge.load_params b0 E P h bc))
               bc Hcls Hnb eq_refl eq_refl Hr HK Hn).
    reflexivity.
Qed.

(** The instance of X8 on the example's files and single-span chord. *)
Lemma sweeps_of_a_built_bridge_raise_AttributeError_witness :
  exists b : Bridge.t,
    Facts.built (Some 64) Facts.node_rows Facts.unit_rows Facts.section_rows
                2.1e11%float 1%float 0%float Example.bc64
    = Py.Ok b
    /\ Bridge.get_nodes_vdisps Example.cls64 b
       = Py.Raise (Py.AttributeError "n").
Proof.
  assert (H : exists b : Bridge.t,
             Facts.built (Some 64) Facts.node_rows Facts.unit_rows
                         Facts.section_rows 2.1e11%float 1%float 0%float
                         Example.bc64
             = Py.Ok b)
    by (eexists; vm_compute; reflexivity).
  destruct H as [b H]. exists b. split; [exact H |].
  destruct (sweeps_of_a_built_bridge_raise_AttributeError
              Example.libm UtilsSpec.utils Example.inv Example.cls64
              (Some 64) Facts.node_rows Facts.unit_rows Facts.section_rows
              2.1e11%float 1%float 0%float Example.bc64 b
              (or_introl eq_refl) (or_introl eq_refl) H)
    as [_ [_ [Hs _]]].
  exact Hs.
Defined.

(** ** The sweeps *)

(** X9: with an empty bottom chord, as [load_params] accepts it, the
    axis of the sweep is empty: for every class, the base class included,
    both sweeps return at once, having emptied the lines they record and
    computed nothing. *)
Theorem sweep_over_an_empty_bottom_chord_records_nothing :
  forall (cls : Bridge.methods) (self : Bridge.t),
    Bridge.bottom_chord_nodes_indices self = Some [] ->
    Bridge.get_nodes_vdisps cls self
    = Py.Ok (Bridge.nodes_vdisps_init self)
    /\ Bridge.get_units_axial_forces cls self
       = Py.Ok (Bridge.units_axial_forces_init self).
Proof.
  intros cls self Hidx.
  assert (Haxis : forall b : Bridge.t,
             Bridge.bottom_chord_nodes_indices b = Some [] ->
             Bridge.bc_axis b = Py.Ok []).
  { intros b Hb. unfold Bridge.bc_axis. rewrite Hb.
    vm_compute. reflexivity. }
  split.
  - unfold Bridge.get_nodes_vdisps.
    rewrite (Haxis (Bridge.nodes_vdisps_init self) Hidx). reflexivity.
  - unfold Bridge.get_units_axial_forces.
    rewrite (Haxis (Bridge.units_axial_forces_init self) Hidx). reflexivity.
Qed.

(** The instance of X9 on the base class and a bridge without structure. *)
Lemma sweep_over_an_empty_bottom_chord_records_nothing_witness :
  Bridge.get_nodes_vdisps
    Bridge.base
    (Bridge.load_params (Bridge.init None) 2.1e11%float 1%float 0%float [])
  = Py.Ok (Bridge.nodes_vdisps_init
             (Bridge.load_params (Bridge.init None)
                                 2.1e11%float 1%float 0%float [])).
Proof.
  exact (proj1 (sweep_over_an_empty_bottom_chord_records_nothing
                  Bridge.base
                  (Bridge.load_params (Bridge.init None)
                                      2.1e11%float 1%float 0%float [])
                  eq_refl)).
Defined.

Lemma units_loop_order (cls : Bridge.methods) (self : Bridge.t) (D : NP.vec) :
  forall (us us' : list (Z * Unit.t)) (fs : list float),
    Bridge.units_loop cls self us D = Py.Ok (fs, us') ->
    Forall2 (fun ku f =>
               exists u' : Unit.t,
                 Bridge.get_one_unit_axial_force_moment cls self (snd ku) D
                 = Py.Ok (f, u'))
            us fs
    /\ Facts.keys us' = Facts.keys us.
Proof.
  induction us as [|[k u] rest IH]; intros us' fs H.
  - inversion H; subst. split; [constructor | reflexivity].
  - cbn [Bridge.units_loop] in H.
    bind_inv H as [f u'] Hf. bind_inv H as [fs0 rest'] Hrest.
    inversion H; subst.
    destruct (IH _ _ Hrest) as [IH1 IH2].
    split.
    + constructor; [exists u'; exact Hf | exact IH1].
    + unfold Facts.keys in *. cbn [map fst]. rewrite IH2. reflexivity.
Qed.

Lemma save_units_loop_order (us : list (Z * Unit.t)) :
  forall fs : list float,
    List.length fs = List.length us ->
    Forall2 (fun ku f =>
               exists l : list float,
                 Unit.axial_forces (snd ku) = l ++ [f])
            (Bridge.save_units_loop us fs) fs
    /\ Facts.keys (Bridge.save_units_loop us fs) = Facts.keys us.
Proof.
  induction us as [|[k u] rest IH]; intros [|f fs] Hlen; try discriminate.
  - split; [constructor | reflexivity].
  - cbn [Bridge.save_units_loop].
    destruct (IH fs) as [IH1 IH2]; [cbn in Hlen; congruence |].
    split.
    + constructor; [| exact IH1].
      exists (Unit.axial_forces u). reflexivity.
    + unfold Facts.keys in *. cbn [map fst]. rewrite IH2. reflexivity.
Qed.

(** X10: the list of forces that [get_units_axial_forces_moment] returns
    follows the order of [self.units]: entry [k] is what
    [get_one_unit_axial_force_moment] returns for the [k]-th member of
    the dictionary under the displacements of that position, and
    [save_units_axial_forces_moment] appends entry [k] to the line of
    that same member; no key moves. *)
Theorem axial_forces_follow_the_order_of_units :
  forall (cls : Bridge.methods) (self self' : Bridge.t) (point : float)
         (fs : list float),
    Bridge.get_units_axial_forces_moment cls self point = Py.Ok (fs, self') ->
    exists (D : NP.vec) (self1 : Bridge.t),
      Bridge.get_nodes_vdisps_moment cls self point = Py.Ok (D, self1)
      /\ Forall2 (fun ku f =>
                    exists u' : Unit.t,
                      Bridge.get_one_unit_axial_force_moment
                        cls self1 (snd ku) D
                      = Py.Ok (f, u'))
                 (Bridge.units self1) fs
      /\ Forall2 (fun ku f =>
                    exists l : list float,
                      Unit.axial_forces (snd ku) = l ++ [f])
                 (Bridge.units
                    (Bridge.save_units_axial_forces_moment self' fs))
                 fs
      /\ Facts.keys (Bridge.units
                       (Bridge.save_units_axial_forces_moment self' fs))
         = Facts.keys (Bridge.units self1).
Proof.
  intros cls self self' point fs H.
  unfold Bridge.get_units_axial_forces_moment in H.
  bind_inv H as [D self1] HD. bind_inv H as [fs0 us] Hus.
  inversion H; subst.
  destruct (units_loop_order _ _ _ _ _ _ Hus) as [Horder Hkeys].
  exists D, self1. split; [exact HD |]. split; [exact Horder |].
  cbn [Bridge.units Bridge.save_units_axial_forces_moment Bridge.set_units].
  assert (Hlen : List.length fs = List.length us).
  { apply Forall2_length in Horder.
    rewrite <- Horder.
    change (List.length us) with (List.length us).
    rewrite <- (length_map fst us), <- (length_map fst (Bridge.units self1)).
    unfold Facts.keys in Hkeys. rewrite Hkeys. reflexivity. }
  destruct (save_units_loop_order us fs Hlen) as [H1 H2].
  split; [exact H1 | rewrite H2; exact Hkeys].
Qed.

(** The instance of X10 on the single-span example, the load at 4.0. *)
Lemma axial_forces_follow_the_order_of_units_witness :
  exists (fs : list float) (self' : Bridge.t),
    Bridge.get_units_axial_forces_moment Example.cls64 (Example.bridge64 1)
                                         4%float
    = Py.Ok (fs, self')
    /\ exists (D : NP.vec) (self1 : Bridge.t),
         Bridge.get_nodes_vdisps_moment Example.cls64 (Example.bridge64 1)
                                        4%float
         = Py.Ok (D, self1)
         /\ Facts.keys (Bridge.units
                          (Bridge.save_units_axial_forces_moment self' fs))
            = Facts.keys (Bridge.units self1).
Proof.
  assert (H : exists (fs : list float) (self' : Bridge.t),
             Bridge.get_units_axial_forces_moment
               Example.cls64 (Example.bridge64 1) 4%float
             = Py.Ok (fs, self'))
    by (eexists; eexists; vm_compute; reflexivity).
  destruct H as [fs [self' H]]. exists fs, self'.
  split; [exact H |].
  destruct (axial_forces_follow_the_order_of_units
              Example.cls64 (Example.bridge64 1) self' 4%float fs H)
    as [D [self1 [HD [_ [_ Hkeys]]]]].
  exists D, self1. split; [exact HD | exact Hkeys].
Defined.

(** ** Which displacements the force recovery reads *)

Lemma getitem_app_left {A : Type} (l1 l2 : list A) (i : Z) :
  0 <= i < Z.of_nat (List.length l1) ->
  Py.getitem (l1 ++ l2) i = Py.getitem l1 i.
Proof.
  intros Hi. unfold Py.getitem. rewrite length_app, Nat2Z.inj_add.
  destruct (Z.ltb_spec i 0) as [|_]; [lia |].
  destruct (Z.leb_spec 0 i) as [_|]; [| lia].
  destruct (Z.ltb_spec i (Z.of_nat (List.length l1) + Z.of_nat (List.length l2)))
    as [_|]; [| lia].
  destruct (Z.ltb_spec i (Z.of_nat (List.length l1))) as [_|]; [| lia].
  cbn [andb]. rewrite nth_error_app1 by lia. reflexivity.
Qed.

Lemma getitem_app_right {A : Type} (l1 l2 : list A) (i : Z) :
  Z.of_nat (List.length l1) <= i ->
  Py.getitem (l1 ++ l2) i = Py.getitem l2 (i - Z.of_nat (List.length l1)).
Proof.
  intros Hi. unfold Py.getitem. rewrite length_app, Nat2Z.inj_add.
  destruct (Z.ltb_spec i 0) as [|_]; [lia |].
  destruct (Z.ltb_spec (i - Z.of_nat (List.length l1)) 0) as [|_]; [lia |].
  destruct (Z.leb_spec 0 i) as [_|]; [| lia].
  destruct (Z.leb_spec 0 (i - Z.of_nat (List.length l1))) as [_|]; [| lia].
  cbn [andb].
  destruct (Z.ltb_spec i (Z.of_nat (List.length l1) + Z.of_nat (List.length l2)));
    destruct (Z.ltb_spec (i - Z.of_nat (List.length l1))
                         (Z.of_nat (List.length l2)));
    try lia; [| reflexivity].
  rewrite nth_error_app2 by lia.
  replace (Z.to_nat (i - Z.of_nat (List.length l1)))
    with (Z.to_nat i - List.length l1)%nat by lia.
  reflexivity.
Qed.

Lemma get_u_and_v_64_ignores_last (self : Bridge.t) (bc : list Z)
      (first last : Z) (D : NP.vec) (x y : float) (node_num : Z) :
  Bridge.bottom_chord_nodes_nums self = Some bc ->
  Py.getitem bc 0 = Py.Ok first ->
  Py.getitem bc (-1) = Py.Ok last ->
  1 <= first ->
  Z.of_nat (List.length D) = 2 * last - 4 ->
  Bridge_64.get_u_and_v self node_num (D ++ [x])
  = Bridge_64.get_u_and_v self node_num (D ++ [y]).
Proof.
  intros Hnums Hfirst Hlast H1 Hlen.
  unfold Bridge_64.get_u_and_v.
  rewrite Hnums; cbn [Py.bind Py.getattr].
  rewrite Hfirst, Hlast; cbn [Py.bind].
  decide_comparisons; try reflexivity.
  all: rewrite !getitem_app_left by lia; reflexivity.
Qed.

(** X11: in the single span, with node numbers from 1 on and a
    displacement vector of [2 * last - 3] entries, the axial force of no
    member depends on the last entry of that vector, the horizontal
    displacement of the last bottom-chord node: [get_u_and_v] gives that
    node [(0, 0)] and reads the entry for no other node. *)
Theorem axial_force_64_ignores_last_displacement :
  forall (libm : Libm.t) (self : Bridge.t) (bc : list Z) (first last : Z)
         (D : NP.vec) (x y : float) (unit : Unit.t),
    Bridge.bottom_chord_nodes_nums self = Some bc ->
    Py.getitem bc 0 = Py.Ok first ->
    Py.getitem bc (-1) = Py.Ok last ->
    1 <= first ->
    Z.of_nat (List.length D) = 2 * last - 4 ->
    Bridge_64.get_one_unit_axial_force_moment libm self unit (D ++ [x])
    = Bridge_64.get_one_unit_axial_force_moment libm self unit (D ++ [y]).
Proof.
  intros libm self bc first last D x y unit Hnums Hfirst Hlast H1 Hlen.
  unfold Bridge_64.get_one_unit_axial_force_moment.
  rewrite (get_u_and_v_64_ignores_last self bc first last D x y
             (Node.num (Unit.node_i unit)) Hnums Hfirst Hlast H1 Hlen).
  rewrite (get_u_and_v_64_ignores_last self bc first last D x y
             (Node.num (Unit.node_j unit)) Hnums Hfirst Hlast H1 Hlen).
  reflexivity.
Qed.

(** The instance of X11 on the example: the member 2, and 28 zeros
    followed by 0.0 or by 1.0. *)
Lemma axial_force_64_ignores_last_displacement_witness :
  Bridge_64.get_one_unit_axial_force_moment
    Example.libm (Example.bridge64 1)
    (Example.member 2 1 3 Example.section) (repeat 0%float 28 ++ [0%float])
  = Bridge_64.get_one_unit_axial_force_moment
      Example.libm (Example.bridge64 1)
      (Example.member 2 1 3 Example.section) (repeat 0%float 28 ++ [1%float]).
Proof.
  exact (axial_force_64_ignores_last_displacement
           Example.libm (Example.bridge64 1) Example.bc64 1 16
           (repeat 0%float 28) 0%float 1%float
           (Example.member 2 1 3 Example.section)
           eq_refl eq_refl eq_refl ltac:(lia) eq_refl).
Defined.

Lemma get_u_and_v_160_ignores_two (self : Bridge.t) (bc : list Z)
      (first middle last : Z) (D1 D2 : NP.vec) (x y x' y' : float)
      (node_num : Z) :
  Bridge.bottom_chord_nodes_nums self = Some bc ->
  Py.getitem bc 0 = Py.Ok first ->
  Py.getitem bc (Z.of_nat (List.length bc) / 2) = Py.Ok middle ->
  Py.getitem bc (-1) = Py.Ok last ->
  1 <= first ->
  Z.of_nat (List.length D1) = 2 * middle - 4 ->
  Z.of_nat (List.length D2) = 2 * (last - middle) - 2 ->
  Bridge_160.get_u_and_v self node_num (D1 ++ [x] ++ D2 ++ [x'])
  = Bridge_160.get_u_and_v self node_num (D1 ++ [y] ++ D2 ++ [y']).
Proof.
  intros Hnums Hfirst Hmiddle Hlast H1 Hlen1 Hlen2.
  unfold Bridge_160.get_u_and_v.
  rewrite Hnums; cbn [Py.bind Py.getattr].
  rewrite Hmiddle; cbn [Py.bind].
  rewrite Hfirst, Hlast; cbn [Py.bind].
  decide_comparisons; try reflexivity.
  all: try (rewrite !getitem_app_left by lia; reflexivity).
  all: rewrite !(getitem_app_right D1) by lia;
    rewrite !(getitem_app_right [_]) by (cbn [List.length]; lia);
    rewrite !getitem_app_left by (cbn [List.length]; lia);
    reflexivity.
Qed.

(** X12: in the two spans, with node numbers from 1 on and a
    displacement vector of [2 * last - 4] entries, the axial force of no
    member depends on entry [2 * middle - 4] or on the last entry, the
    horizontal displacements of the middle and of the last bottom-chord
    node. *)
Theorem axial_force_160_ignores_two_displacements :
  forall (libm : Libm.t) (self : Bridge.t) (bc : list Z)
         (first middle last : Z) (D1 D2 : NP.vec) (x y x' y' : float)
         (unit : Unit.t),
    Bridge.bottom_chord_nodes_nums self = Some bc ->
    Py.getitem bc 0 = Py.Ok first ->
    Py.getitem bc (Z.of_nat (List.length bc) / 2) = Py.Ok middle ->
    Py.getitem bc (-1) = Py.Ok last ->
    1 <= first ->
    Z.of_nat (List.length D1) = 2 * middle - 4 ->
    Z.of_nat (List.length D2) = 2 * (last - middle) - 2 ->
    Bridge_160.get_one_unit_axial_force_moment
      libm self unit (D1 ++ [x] ++ D2 ++ [x'])
    = Bridge_160.get_one_unit_axial_force_moment
        libm self unit (D1 ++ [y] ++ D2 ++ [y']).
Proof.
  intros libm self bc first middle last D1 D2 x y x' y' unit
         Hnums Hfirst Hmiddle Hlast H1 Hlen1 Hlen2.
  unfold Bridge_160.get_one_unit_axial_force_moment.
  rewrite (get_u_and_v_160_ignores_two
             self bc first middle last D1 D2 x y x' y'
             (Node.num (Unit.node_i unit))
             Hnums Hfirst Hmiddle Hlast H1 Hlen1 Hlen2).
  rewrite (get_u_and_v_160_ignores_two
             self bc first middle last D1 D2 x y x' y'
             (Node.num (Unit.node_j unit))
             Hnums Hfirst Hmiddle Hlast H1 Hlen1 Hlen2).
  reflexivity.
Qed.

(** The instance of X12 on the example: 76 entries, the entries 38 and 75
    being 0.0 or 1.0. *)
Lemma axial_force_160_ignores_two_displacements_witness :
  Bridge_160.get_one_unit_axial_force_moment
    Example.libm (Example.bridge160 1)
    (Example.member 2 1 3 Example.section)
    (repeat 0%float 38 ++ [0%float] ++ repeat 0%float 36 ++ [0%float])
  = Bridge_160.get_one_unit_axial_force_moment
      Example.libm (Example.bridge160 1)
      (Example.member 2 1 3 Example.section)
      (repeat 0%float 38 ++ [1%float] ++ repeat 0%float 36 ++ [1%float]).
Proof.
  exact (axial_force_160_ignores_two_displacements
           Example.libm (Example.bridge160 1) Example.bc160 1 21 40
           (repeat 0%float 38) (repeat 0%float 36)
           0%float 1%float 0%float 1%float
           (Example.member 2 1 3 Example.section)
           eq_refl eq_refl eq_refl eq_refl ltac:(lia) eq_refl eq_refl).
Defined.

(** ** The recorded displacement and the one the recovery reads *)

Lemma save_loop_64_matches (self : Bridge.t) (bc : list Z) (D : NP.vec) :
  Bridge.bottom_chord_nodes_nums self = Some bc ->
  forall ns ns' : list (Z * Node.t),
    Bridge_64.save_loop bc D ns = Py.Ok ns' ->
    Forall2 (fun kn kn' =>
               fst kn' = fst kn
               /\ exists v : float,
                   Node.vdisps (snd kn') = Node.vdisps (snd kn) ++ [v]
                   /\ forall u v' : float,
                       Bridge_64.get_u_and_v self (fst kn) D = Py.Ok (u, v') ->
                       v' = v)
            ns ns'.
Proof.
  intros Hnums.
  induction ns as [|[k nd] rest IH]; intros ns' H.
  - inversion H; subst. constructor.
  - cbn [Bridge_64.save_loop] in H.
    bind_inv H as first Hfirst. bind_inv H as last Hlast.
    bind_inv H as v Hv. bind_inv H as rest' Hrest. inversion H; subst.
    constructor; [| exact (IH _ Hrest)].
    cbn [fst snd Node.vdisps Node.append_vdisp].
    split; [reflexivity |]. exists v. split; [reflexivity |].
    intros u v' Hg. unfold Bridge_64.get_u_and_v in Hg.
    rewrite Hnums in Hg; cbn [Py.bind Py.getattr] in Hg.
    rewrite Hfirst, Hlast in Hg; cbn [Py.bind] in Hg.
    unfold Py.int_in in Hv. cbn [existsb] in Hv.
    revert Hg Hv. decide_comparisons; intros Hg Hv;
      try discriminate; try lia;
      try (inversion Hg; inversion Hv; subst; reflexivity).
    all: bind_inv Hg as u0 Hu0; bind_inv Hg as v0 Hv0;
      inversion Hg; subst; congruence.
Qed.

(** X13: in the single span, the sample that [save_nodes_vdisps_moment]
    appends to the line of a node is the vertical displacement that
    [get_u_and_v] returns for that node from the same vector, for every
    node for which [get_u_and_v] returns; the keys of [self.nodes] and
    their order stay. *)
Theorem saved_displacement_is_the_recovered_one_64 :
  forall (self self' : Bridge.t) (D : NP.vec),
    Bridge_64.save_nodes_vdisps_moment self D = Py.Ok self' ->
    Forall2 (fun kn kn' =>
               fst kn' = fst kn
               /\ exists v : float,
                   Node.vdisps (snd kn') = Node.vdisps (snd kn) ++ [v]
                   /\ forall u v' : float,
                       Bridge_64.get_u_and_v self (fst kn) D = Py.Ok (u, v') ->
                       v' = v)
            (Bridge.nodes self) (Bridge.nodes self').
Proof.
  intros self self' D H.
  unfold Bridge_64.save_nodes_vdisps_moment in H.
  bind_inv H as bc Hbc. bind_inv H as ns Hns. inversion H; subst.
  cbn [Bridge.nodes Bridge.set_nodes].
  apply (save_loop_64_matches self bc D); [| exact Hns].
  destruct (Bridge.bottom_chord_nodes_nums self); [| discriminate].
  inversion Hbc; reflexivity.
Qed.

(** The instance of X13 on the single-span example and the vector 0.0,
    1.0, ..., 28.0. *)
Lemma saved_displacement_is_the_recovered_one_64_witness :
  exists self' : Bridge.t,
    Bridge_64.save_nodes_vdisps_moment
      (Example.bridge64 1) (map Py.float_of_int (Py.range 29))
    = Py.Ok self'
    /\ List.length (Bridge.nodes self')
       = List.length (Bridge.nodes (Example.bridge64 1)).
Proof.
  assert (H : exists self' : Bridge.t,
             Bridge_64.save_nodes_vdisps_moment
               (Example.bridge64 1) (map Py.float_of_int (Py.range 29))
             = Py.Ok self')
    by (eexists; vm_compute; reflexivity).
  destruct H as [self' H]. exists self'. split; [exact H |].
  symmetry.
  exact (Forall2_length
           (saved_displacement_is_the_recovered_one_64
              (Example.bridge64 1) self'
              (map Py.float_of_int (Py.range 29)) H)).
Defined.

Lemma save_loop_160_matches (self : Bridge.t) (bc : list Z)
      (first middle last : Z) (D : NP.vec) :
  Bridge.bottom_chord_nodes_nums self = Some bc ->
  Py.getitem bc 0 = Py.Ok first ->
  Py.getitem bc (Z.of_nat (List.length bc) / 2) = Py.Ok middle ->
  Py.getitem bc (-1) = Py.Ok last ->
  first <= middle <= last ->
  forall ns ns' : list (Z * Node.t),
    Bridge_160.save_loop bc middle D ns = Py.Ok ns' ->
    Forall2 (fun kn kn' =>
               fst kn' = fst kn
               /\ exists v : float,
                   Node.vdisps (snd kn') = Node.vdisps (snd kn) ++ [v]
                   /\ forall u v' : float,
                       Bridge_160.get_u_and_v self (fst kn) D
                       = Py.Ok (u, v') ->
                       v' = v)
            ns ns'.
Proof.
  intros Hnums Hfirst Hmiddle Hlast Hmid.
  induction ns as [|[k nd] rest IH]; intros ns' H.
  - inversion H; subst. constructor.
  - cbn [Bridge_160.save_loop] in H.
    rewrite Hfirst, Hlast in H; cbn [Py.bind] in H.
    bind_inv H as v Hv. bind_inv H as rest' Hrest. inversion H; subst.
    constructor; [| exact (IH _ Hrest)].
    cbn [fst snd Node.vdisps Node.append_vdisp].
    split; [reflexivity |]. exists v. split; [reflexivity |].
    intros u v' Hg. unfold Bridge_160.get_u_and_v in Hg.
    rewrite Hnums in Hg; cbn [Py.bind Py.getattr] in Hg.
    rewrite Hmiddle in Hg; cbn [Py.bind] in Hg.
    rewrite Hfirst, Hlast in Hg; cbn [Py.bind] in Hg.
    unfold Py.int_in in Hv. cbn [existsb] in Hv.
    replace (2 * k - 3) with (2 * (k - 1) - 1) in Hv by lia.
    replace (2 * k - 4) with (2 * (k - 1) - 2) in Hv by lia.
    revert Hg Hv. decide_comparisons; intros Hg Hv;
      try discriminate; try lia;
      try (inversion Hg; inversion Hv; subst; reflexivity).
    all: bind_inv Hg as u0 Hu0; bind_inv Hg as v0 Hv0;
      inversion Hg; subst; congruence.
Qed.

(** X14: in the two spans, when the first, middle and last bottom-chord
    numbers are in that order, the sample that [save_nodes_vdisps_moment]
    appends to the line of a node is the vertical displacement that
    [get_u_and_v] returns for that node from the same vector, for every
    node for which [get_u_and_v] returns. *)
Theorem saved_displacement_is_the_recovered_one_160 :
  forall (self self' : Bridge.t) (bc : list Z) (first middle last : Z)
         (D : NP.vec),
    Bridge.bottom_chord_nodes_nums self = Some bc ->
    Py.getitem bc 0 = Py.Ok first ->
    Py.getitem bc (Z.of_nat (List.length bc) / 2) = Py.Ok middle ->
    Py.getitem bc (-1) = Py.Ok last ->
    first <= middle <= last ->
    Bridge_160.save_nodes_vdisps_moment self D = Py.Ok self' ->
    Forall2 (fun kn kn' =>
               fst kn' = fst kn
               /\ exists v : float,
                   Node.vdisps (snd kn') = Node.vdisps (snd kn) ++ [v]
                   /\ forall u v' : float,
                       Bridge_160.get_u_and_v self (fst kn) D
                       = Py.Ok (u, v') ->
                       v' = v)
            (Bridge.nodes self) (Bridge.nodes self').
Proof.
  intros self self' bc first middle last D Hnums Hfirst Hmiddle Hlast Hmid H.
  unfold Bridge_160.save_nodes_vdisps_moment in H.
  rewrite Hnums in H; cbn [Py.bind Py.getattr] in H.
  rewrite Hmiddle in H; cbn [Py.bind] in H.
  bind_inv H as ns Hns. inversion H; subst.
  cbn [Bridge.nodes Bridge.set_nodes].
  exact (save_loop_160_matches self bc first middle last D
           Hnums Hfirst Hmiddle Hlast Hmid _ _ Hns).
Qed.

(** The instance of X14 on the two-span example holding the 16 nodes of
    the example, and the vector 0.0, 1.0, ..., 75.0. *)
Lemma saved_displacement_is_the_recovered_one_160_witness :
  exists self' : Bridge.t,
    Bridge_160.save_nodes_vdisps_moment
      (Bridge.set_nodes (Example.bridge160 1) Example.nodes)
      (map Py.float_of_int (Py.range 76))
    = Py.Ok self'
    /\ List.length (Bridge.nodes self') = 16%nat.
Proof.
  assert (H : exists self' : Bridge.t,
             Bridge_160.save_nodes_vdisps_moment
               (Bridge.set_nodes (Example.bridge160 1) Example.nodes)
               (map Py.float_of_int (Py.range 76))
             = Py.Ok self')
    by (eexists; vm_compute; reflexivity).
  destruct H as [self' H]. exists self'. split; [exact H |].
  symmetry.
  exact (Forall2_length
           (saved_displacement_is_the_recovered_one_160
              (Bridge.set_nodes (Example.bridge160 1) Example.nodes) self'
              Example.bc160 1 21 40 (map Py.float_of_int (Py.range 76))
              eq_refl eq_refl eq_refl eq_refl ltac:(lia) H)).
Defined.

(** ** The worst-case load search *)

(** X15: [get_unit_worst_cases_load_trick2] computes what the four calls
    of [get_uniform_load_max_trick] and [get_both_load_max_trick] compute
    one after the other - uniform then combined load on the line as it
    is, then the same on the reversed line - errors included. *)
Theorem trick2_is_the_four_calls_in_order :
  forall (unit_axial_forces load : NP.vec) (pos_max neg_min : float),
    Bridge.get_unit_worst_cases_load_trick2 unit_axial_forces load
                                            pos_max neg_min
    = Facts.four_calls unit_axial_forces load pos_max neg_min.
Proof.
  intros data load p n.
  unfold Bridge.get_unit_worst_cases_load_trick2, Facts.four_calls,
    Bridge.trick2_half, Bridge.get_uniform_load_max_trick,
    Bridge.get_both_load_max_trick.
  destruct (Bridge.for_range
              (Bridge.uniform_step (NP.mask_pos data) (NP.mask_neg data)
                                   load Bridge.left)
              (seq 0 (641 + 1)) (p, n)) as [[p1 n1] | e];
    cbn [Py.bind]; [| reflexivity].
  destruct (Bridge.for_range
              (Bridge.both_step (NP.mask_pos data) (NP.mask_neg data) load)
              (seq 0 353) (p1, n1)) as [[p2 n2] | e];
    cbn [Py.bind]; [| reflexivity].
  destruct (Bridge.for_range
              (Bridge.uniform_step (NP.mask_pos (rev data))
                                   (NP.mask_neg (rev data))
                                   load Bridge.right)
              (seq 0 (641 + 1)) (p2, n2)) as [[p3 n3] | e];
    cbn [Py.bind]; [| reflexivity].
  destruct (Bridge.for_range
              (Bridge.both_step (NP.mask_pos (rev data))
                                (NP.mask_neg (rev data)) load)
              (seq 0 353) (p3, n3)) as [[p4 n4] | e];
    cbn [Py.bind snd]; reflexivity.
Qed.

Lemma mul_mismatch (a b : NP.vec) :
  List.length a <> List.length b ->
  List.length a <> 1%nat -> List.length b <> 1%nat ->
  NP.mul a b = Py.Raise Py.ValueError.
Proof.
  intros Hab Ha Hb. unfold NP.mul.
  destruct (Nat.eqb_spec (List.length a) (List.length b)) as [|_];
    [contradiction |].
  destruct a as [|x [|x' a]]; [| exfalso; apply Ha; reflexivity |];
    (destruct b as [|y [|y' b]];
     [reflexivity | exfalso; apply Hb; reflexivity | reflexivity]).
Qed.

Lemma for_range_raises
      (step : nat -> float * float -> Py.result (float * float))
      (before : list nat) (i : nat) (after : list nat) (e : Py.exn) :
  (forall j acc, In j before -> exists acc', step j acc = Py.Ok acc') ->
  (forall acc, step i acc = Py.Raise e) ->
  forall acc, Bridge.for_range step (before ++ i :: after) acc = Py.Raise e.
Proof.
  intros Hbefore Hi.
  induction before as [|j before IH]; intros acc; cbn [app Bridge.for_range].
  - rewrite Hi. reflexivity.
  - destruct (Hbefore j acc (or_introl eq_refl)) as [acc' Hacc'].
    rewrite Hacc'; cbn [Py.bind].
    apply IH. intros k acc0 Hk. apply Hbefore. right. exact Hk.
Qed.

Lemma seq_split (n k : nat) :
  (k < n)%nat -> seq 0 n = seq 0 k ++ k :: seq (S k) (n - S k).
Proof.
  intros Hk.
  replace n with (k + S (n - S k))%nat at 1 by lia.
  rewrite seq_app. reflexivity.
Qed.

(** A pass of the uniform-load loop whose prefix of the load fits. *)
Lemma uniform_step_fits (pos_data neg_data load : NP.vec)
      (hf : Bridge.half) (i : nat) (acc : float * float) :
  List.length pos_data = 641%nat ->
  List.length neg_data = 641%nat ->
  (i <= List.length load)%nat ->
  (i <= 641)%nat ->
  exists acc', Bridge.uniform_step pos_data neg_data load hf i acc = Py.Ok acc'.
Proof.
  intros Hp Hn Hload Hi. destruct acc as [pos_max neg_min].
  unfold Bridge.uniform_step.
  rewrite zeros_Ok by lia. cbn [Py.bind].
  set (selected := _ ++ _).
  assert (Hsel : List.length selected = 641%nat).
  { subst selected. rewrite length_app, repeat_length.
    destruct hf; rewrite ?length_rev, length_firstn; lia. }
  destruct (mul_same_length pos_data selected) as [pp Hpp]; [congruence |].
  destruct (mul_same_length neg_data selected) as [np Hnp]; [congruence |].
  rewrite Hpp; cbn [Py.bind]. rewrite Hnp; cbn [Py.bind].
  eexists; reflexivity.
Qed.

(** The first pass of the uniform-load loop that asks for more samples
    than the load has. *)
Lemma uniform_step_short (pos_data neg_data load : NP.vec)
      (hf : Bridge.half) (acc : float * float) :
  List.length pos_data = 641%nat ->
  (List.length load < 641)%nat ->
  Bridge.uniform_step pos_data neg_data load hf (S (List.length load)) acc
  = Py.Raise Py.ValueError.
Proof.
  intros Hp Hload. destruct acc as [pos_max neg_min].
  unfold Bridge.uniform_step.
  rewrite zeros_Ok by lia. cbn [Py.bind].
  set (selected := _ ++ _).
  assert (Hsel : List.length selected = 640%nat).
  { subst selected. rewrite length_app, repeat_length.
    destruct hf; rewrite ?length_rev, length_firstn; lia. }
  rewrite mul_mismatch; [reflexivity | | |]; rewrite ?Hp, ?Hsel; lia.
Qed.

Lemma uniform_loop_short (data load : NP.vec) (hf : Bridge.half)
      (acc : float * float) :
  List.length data = 641%nat ->
  (List.length load < 641)%nat ->
  Bridge.for_range
    (Bridge.uniform_step (NP.mask_pos data) (NP.mask_neg data) load hf)
    (seq 0 (641 + 1)) acc
  = Py.Raise Py.ValueError.
Proof.
  intros Hd Hload.
  rewrite (seq_split (641 + 1) (S (List.length load))) by lia.
  apply for_range_raises.
  - intros j acc0 Hj. apply in_seq in Hj.
    apply uniform_step_fits;
      rewrite ?length_mask_pos, ?length_mask_neg; lia.
  - intros acc0. apply uniform_step_short;
      rewrite ?length_mask_pos; assumption.
Qed.

(** The offset at which the window of the combined load first goes
    past the end of a load of fewer than 993 samples. *)
Lemma both_loop_short (data load : NP.vec) (acc : float * float) :
  List.length data = 641%nat ->
  (List.length load < 993)%nat ->
  Bridge.for_range
    (Bridge.both_step (NP.mask_pos data) (NP.mask_neg data) load)
    (seq 0 353) acc
  = Py.Raise Py.ValueError.
Proof.
  intros Hd Hload.
  set (i0 := if Nat.eqb (List.length load) 1 then 1%nat
             else (List.length load - 640)%nat).
  assert (Hi0 : (i0 < 353)%nat).
  { subst i0. destruct (Nat.eqb (List.length load) 1); lia. }
  rewrite (seq_split 353 i0) by exact Hi0.
  apply for_range_raises.
  - intros j [p n] Hj. apply in_seq in Hj.
    unfold Bridge.both_step.
    set (selected := NP.slice load j (j + 641)).
    assert (Hsel : List.length selected = 641%nat
                   \/ List.length selected = 1%nat).
    { subst selected i0. unfold NP.slice.
      rewrite length_firstn, length_skipn.
      destruct (Nat.eqb_spec (List.length load) 1); lia. }
    assert (Hmul : forall a : NP.vec,
               List.length a = 641%nat ->
               exists r, NP.mul a selected = Py.Ok r).
    { intros a Ha. destruct Hsel as [Hsel | Hsel].
      - apply mul_same_length. congruence.
      - unfold NP.mul. rewrite Ha, Hsel. cbn [Nat.eqb].
        destruct selected as [|y [|y' s]]; try discriminate.
        destruct a as [|x [|x' a]]; try discriminate.
        eexists; reflexivity. }
    destruct (Hmul (NP.mask_pos data)) as [pp Hpp];
      [rewrite length_mask_pos; exact Hd |].
    destruct (Hmul (NP.mask_neg data)) as [np Hnp];
      [rewrite length_mask_neg; exact Hd |].
    rewrite Hpp; cbn [Py.bind]. rewrite Hnp; cbn [Py.bind].
    eexists; reflexivity.
  - intros [p n]. unfold Bridge.both_step.
    set (selected := NP.slice load i0 (i0 + 641)).
    assert (Hsel : List.length selected <> 641%nat
                   /\ List.length selected <> 1%nat).
    { subst selected i0. unfold NP.slice.
      rewrite length_firstn, length_skipn.
      destruct (Nat.eqb_spec (List.length load) 1); lia. }
    rewrite mul_mismatch; [reflexivity | | |];
      rewrite ?length_mask_pos, ?Hd; lia.
Qed.

(** X16: on an influence line of 641 samples the worst-case search
    depends on the length of the load pattern alone:
    [get_uniform_load_max_trick] returns a pair when the load has at least
    641 samples and raises ValueError when it has fewer;
    [get_both_load_max_trick] and [get_unit_worst_cases_load_trick2]
    return a pair when it has at least 993 samples and raise ValueError
    when it has fewer. *)
Theorem envelope_search_needs_a_long_enough_load :
  forall (unit_axial_forces load : NP.vec) (pos_max neg_min : float)
         (hf : Bridge.half),
    List.length unit_axial_forces = 641%nat ->
    ((641 <= List.length load)%nat ->
     exists r, Bridge.get_uniform_load_max_trick
                 unit_axial_forces load pos_max neg_min hf = Py.Ok r)
    /\ ((List.length load < 641)%nat ->
        Bridge.get_uniform_load_max_trick
          unit_axial_forces load pos_max neg_min hf
        = Py.Raise Py.ValueError)
    /\ ((993 <= List.length load)%nat ->
        (exists r, Bridge.get_both_load_max_trick
                     unit_axial_forces load pos_max neg_min hf = Py.Ok r)
        /\ (exists r, Bridge.get_unit_worst_cases_load_trick2
                        unit_axial_forces load pos_max neg_min = Py.Ok r))
    /\ ((List.length load < 993)%nat ->
        Bridge.get_both_load_max_trick
          unit_axial_forces load pos_max neg_min hf
        = Py.Raise Py.ValueError
        /\ Bridge.get_unit_worst_cases_load_trick2
             unit_axial_forces load pos_max neg_min
           = Py.Raise Py.ValueError).
Proof.
  intros data load p n hf Hd.
  assert (Hrev : List.length (rev data) = 641%nat)
    by (rewrite length_rev; exact Hd).
  assert (Huni : forall d h acc,
             List.length d = 641%nat ->
             (641 <= List.length load)%nat ->
             exists r, Bridge.for_range
                         (Bridge.uniform_step (NP.mask_pos d)
                                              (NP.mask_neg d) load h)
                         (seq 0 (641 + 1)) acc = Py.Ok r).
  { intros d h acc Hdl Hload. apply for_range_returns.
    intros i acc0 Hin. apply in_seq in Hin.
    apply uniform_step_returns;
      rewrite ?length_mask_pos, ?length_mask_neg; lia. }
  split; [| split; [| split]].
  - intros Hload. unfold Bridge.get_uniform_load_max_trick.
    destruct hf; apply Huni; assumption.
  - intros Hload. unfold Bridge.get_uniform_load_max_trick.
    destruct hf; apply uniform_loop_short; assumption.
  - intros Hload.
    destruct (envelope_regimes_return data load p n hf Hd Hload)
      as [_ [Hb Ht]].
    split; assumption.
  - intros Hload. split.
    + unfold Bridge.get_both_load_max_trick.
      destruct hf; apply both_loop_short; assumption.
    + unfold Bridge.get_unit_worst_cases_load_trick2, Bridge.trick2_half.
      destruct (Nat.lt_ge_cases (List.length load) 641) as [Hs | Hl].
      * rewrite (uniform_loop_short data load Bridge.left (p, n) Hd Hs).
        reflexivity.
      * destruct (Huni data Bridge.left (p, n) Hd Hl) as [acc1 H1].
        rewrite H1; cbn [Py.bind].
        rewrite (both_loop_short data load acc1 Hd Hload). reflexivity.
Qed.

(** The instance of X16 on a line of 641 ones and a load of 640 ones. *)
Lemma envelope_search_needs_a_long_enough_load_witness :
  Bridge.get_uniform_load_max_trick
    (repeat 1%float 641) (repeat 1%float 640) neg_infinity infinity
    Bridge.left
  = Py.Raise Py.ValueError.
Proof.
  refine (proj1 (proj2 (envelope_search_needs_a_long_enough_load
                          (repeat 1%float 641) (repeat 1%float 640)
                          neg_infinity infinity Bridge.left _)) _).
  - apply repeat_length.
  - rewrite repeat_length. lia.
Defined.

(** X17: a line that has neither 641 samples nor one sample - such as
    the 1601 samples that the sweep of the two-span profile records -
    makes the worst-case search raise ValueError at its first pass,
    whatever the load. *)
Theorem envelope_search_needs_641_samples :
  forall (unit_axial_forces load : NP.vec) (pos_max neg_min : float)
         (hf : Bridge.half),
    List.length unit_axial_forces <> 641%nat ->
    List.length unit_axial_forces <> 1%nat ->
    Bridge.get_uniform_load_max_trick
      unit_axial_forces load pos_max neg_min hf
    = Py.Raise Py.ValueError
    /\ Bridge.get_unit_worst_cases_load_trick2
         unit_axial_forces load pos_max neg_min
       = Py.Raise Py.ValueError.
Proof.
  intros data load p n hf Hd Hd1.
  assert (Hstep : forall d h acc,
             List.length d <> 641%nat -> List.length d <> 1%nat ->
             Bridge.for_range
               (Bridge.uniform_step (NP.mask_pos d) (NP.mask_neg d) load h)
               (seq 0 (641 + 1)) acc
             = Py.Raise Py.ValueError).
  { intros d h [p0 n0] Hl Hl1.
    rewrite (seq_split (641 + 1) 0) by lia.
    apply (for_range_raises _ []); [intros j acc0 [] |].
    intros [p1 n1]. unfold Bridge.uniform_step.
    rewrite zeros_Ok by lia. cbn [Py.bind].
    rewrite mul_mismatch; [reflexivity | | |];
      rewrite ?length_mask_pos, ?length_app, ?repeat_length;
      destruct h; cbn [firstn rev List.length]; lia. }
  split.
  - unfold Bridge.get_uniform_load_max_trick.
    destruct hf; apply Hstep; rewrite ?length_rev; assumption.
  - unfold Bridge.get_unit_worst_cases_load_trick2, Bridge.trick2_half.
    rewrite (Hstep data Bridge.left (p, n) Hd Hd1). reflexivity.
Qed.

(** The instance of X17 on a line of 1601 samples. *)
Lemma envelope_search_needs_641_samples_witness :
  Bridge.get_unit_worst_cases_load_trick2
    (repeat 1%float 1601) (repeat 1%float 993) neg_infinity infinity
  = Py.Raise Py.ValueError.
Proof.
  refine (proj2 (envelope_search_needs_641_samples
                   (repeat 1%float 1601) (repeat 1%float 993)
                   neg_infinity infinity Bridge.left _ _));
    rewrite repeat_length; lia.
Defined.

(** ** The load that the force vector carries *)

Lemma between_nodes_F_64_reads_indices (self self' : Bridge.t) (m : Z)
      (point : float) :
  Bridge.bottom_chord_nodes_indices self
  = Bridge.bottom_chord_nodes_indices self' ->
  Bridge_64.between_nodes_F self m point
  = Bridge_64.between_nodes_F self' m point.
Proof.
  intros H. unfold Bridge_64.between_nodes_F. rewrite H. reflexivity.
Qed.

Lemma between_nodes_F_160_reads_indices (self self' : Bridge.t) (m : Z)
      (point : float) (bc bc' : list Z) :
  Bridge.bottom_chord_nodes_indices self
  = Bridge.bottom_chord_nodes_indices self' ->
  Bridge.bottom_chord_nodes_nums self = Some bc ->
  Bridge.bottom_chord_nodes_nums self' = Some bc' ->
  List.length bc = List.length bc' ->
  Bridge_160.between_nodes_F self m point
  = Bridge_160.between_nodes_F self' m point.
Proof.
  intros H Hbc Hbc' Hlen.
  unfold Bridge_160.between_nodes_F, Bridge_160.bc_middle_node_index.
  rewrite H, Hbc, Hbc'. cbn [Py.getattr Py.bind]. rewrite Hlen.
  reflexivity.
Qed.

Lemma single_span_load_check :
  forallb (fun i =>
             Nat.eqb (i mod 80) 0
             || Facts.load_check
                  (Bridge_64.between_nodes_F (Example.bridge64 1) 29
                                             (Sweep.position i))
                  (Bridge_64.lever_rule (Sweep.position i))
                  [0; 8] 29 i)
          (seq 0 (Sweep.count 9))
  = true.
Proof. vm_compute. reflexivity. Qed.

Lemma two_span_load_check :
  forallb (fun i =>
             Nat.eqb (i mod 80) 0 || Sweep.next_to_centre i
             || Facts.load_check
                  (Bridge_160.between_nodes_F (Example.bridge160 1) 76
                                              (Sweep.position i))
                  (Bridge_160.lever_rule (Sweep.position i))
                  [0; 10; 20] 76 i)
          (seq 0 (Sweep.count 21))
  = true.
Proof. vm_compute. reflexivity. Qed.

Lemma load_check_true (F : Py.result NP.vec)
      (lever : Py.result (Z * Z * float * float)) (supports : list Z)
      (m i : nat) :
  Facts.load_check F lever supports m i = true ->
  exists (Fv : NP.vec) (prev_node_force next_node_force : float),
    F = Py.Ok Fv
    /\ lever = Py.Ok (Z.of_nat (i / 80), Z.of_nat (i / 80) + 1,
                      prev_node_force, next_node_force)
    /\ List.length Fv = m
    /\ PrimFloat.eqb (NP.sum Fv)
         (Facts.carried supports (Z.of_nat (i / 80)) (Z.of_nat (i / 80) + 1)
                        prev_node_force next_node_force)
       = true.
Proof.
  unfold Facts.load_check.
  destruct F as [Fv | e]; [| discriminate].
  destruct lever as [[[[prev next] pf] nf] | e]; [| discriminate].
  intros H.
  apply andb_prop in H. destruct H as [H Hsum].
  apply andb_prop in H. destruct H as [H Hnext].
  apply andb_prop in H. destruct H as [Hlen Hprev].
  apply Nat.eqb_eq in Hlen. apply Z.eqb_eq in Hprev. apply Z.eqb_eq in Hnext.
  subst prev next.
  exists Fv, pf, nf. repeat split; assumption.
Qed.

(** X18: in the single span with 9 bottom-chord nodes, at every position
    of the sweep that is not on a node, the load is between the nodes of
    index [i / 80] and [i / 80 + 1] and the 29 entries of the force
    vector add up ([==] on floats) to -1.0 when neither is a support, and
    to the share of the other node when one is the support of index 0 or
    8: the share of a support is dropped. *)
Theorem single_span_force_vector_carries_the_load :
  forall (self : Bridge.t) (i : nat),
    Bridge.bottom_chord_nodes_indices self = Some (Py.range 9) ->
    (i < 641)%nat ->
    (i mod 80 <> 0)%nat ->
    exists (F : NP.vec) (prev_node_force next_node_force : float),
      Bridge_64.between_nodes_F self 29 (Sweep.position i) = Py.Ok F
      /\ Bridge_64.lever_rule (Sweep.position i)
         = Py.Ok (Z.of_nat (i / 80), Z.of_nat (i / 80) + 1,
                  prev_node_force, next_node_force)
      /\ List.length F = 29%nat
      /\ PrimFloat.eqb (NP.sum F)
           (Facts.carried [0; 8] (Z.of_nat (i / 80)) (Z.of_nat (i / 80) + 1)
                          prev_node_force next_node_force)
         = true.
Proof.
  intros self i Hidx Hi Hmod.
  pose proof single_span_load_check as Hall.
  rewrite forallb_forall in Hall.
  assert (Hin : In i (seq 0 (Sweep.count 9)))
    by (apply in_seq; unfold Sweep.count; lia).
  specialize (Hall i Hin).
  destruct (Nat.eqb_spec (i mod 80) 0) as [|_]; [contradiction |].
  cbn [orb] in Hall.
  rewrite (between_nodes_F_64_reads_indices self (Example.bridge64 1))
    by (rewrite Hidx; reflexivity).
  exact (load_check_true _ _ _ _ _ Hall).
Qed.

(** The instance of X18 at entry 100 of the axis, the load at 10.0. *)
Lemma single_span_force_vector_carries_the_load_witness :
  exists (F : NP.vec) (prev_node_force next_node_force : float),
    Bridge_64.between_nodes_F (Example.bridge64 0) 29 (Sweep.position 100)
    = Py.Ok F
    /\ Bridge_64.lever_rule (Sweep.position 100)
       = Py.Ok (Z.of_nat (100 / 80), Z.of_nat (100 / 80) + 1,
                prev_node_force, next_node_force)
    /\ List.length F = 29%nat
    /\ PrimFloat.eqb (NP.sum F)
         (Facts.carried [0; 8] (Z.of_nat (100 / 80))
                        (Z.of_nat (100 / 80) + 1)
                        prev_node_force next_node_force)
       = true.
Proof.
  refine (single_span_force_vector_carries_the_load
            (Example.bridge64 0) 100 eq_refl _ _).
  - lia.
  - vm_compute. discriminate.
Defined.

(** X19: in the two spans with 21 bottom-chord nodes, at every position
    of the sweep that is neither on a node nor next to the centre
    support, the 76 entries of the force vector add up ([==] on floats)
    to -1.0 when neither neighbour is a support, and to the share of the
    other node when one is the support of index 0 or 20. *)
Theorem two_span_force_vector_carries_the_load_away_from_centre :
  forall (self : Bridge.t) (bc : list Z) (i : nat),
    Bridge.bottom_chord_nodes_indices self = Some (Py.range 21) ->
    Bridge.bottom_chord_nodes_nums self = Some bc ->
    List.length bc = 21%nat ->
    (i < 1601)%nat ->
    (i mod 80 <> 0)%nat ->
    Sweep.next_to_centre i = false ->
    exists (F : NP.vec) (prev_node_force next_node_force : float),
      Bridge_160.between_nodes_F self 76 (Sweep.position i) = Py.Ok F
      /\ Bridge_160.lever_rule (Sweep.position i)
         = Py.Ok (Z.of_nat (i / 80), Z.of_nat (i / 80) + 1,
                  prev_node_force, next_node_force)
      /\ List.length F = 76%nat
      /\ PrimFloat.eqb (NP.sum F)
           (Facts.carried [0; 10; 20]
                          (Z.of_nat (i / 80)) (Z.of_nat (i / 80) + 1)
                          prev_node_force next_node_force)
         = true.
Proof.
  intros self bc i Hidx Hnums Hlen Hi Hmod Hcentre.
  pose proof two_span_load_check as Hall.
  rewrite forallb_forall in Hall.
  assert (Hin : In i (seq 0 (Sweep.count 21)))
    by (apply in_seq; unfold Sweep.count; lia).
  specialize (Hall i Hin).
  destruct (Nat.eqb_spec (i mod 80) 0) as [|_]; [contradiction |].
  rewrite Hcentre in Hall. cbn [orb] in Hall.
  rewrite (between_nodes_F_160_reads_indices
             self (Example.bridge160 1) 76 (Sweep.position i)
             bc Example.bc160)
    by (rewrite ?Hidx, ?Hlen; solve [reflexivity | assumption]).
  exact (load_check_true _ _ _ _ _ Hall).
Qed.

(** The instance of X19 at entry 100 of the axis, the load at 10.0. *)
Lemma two_span_force_vector_carries_the_load_away_from_centre_witness :
  exists (F : NP.vec) (prev_node_force next_node_force : float),
    Bridge_160.between_nodes_F (Example.bridge160 0) 76 (Sweep.position 100)
    = Py.Ok F
    /\ Bridge_160.lever_rule (Sweep.position 100)
       = Py.Ok (Z.of_nat (100 / 80), Z.of_nat (100 / 80) + 1,
                prev_node_force, next_node_force)
    /\ List.length F = 76%nat
    /\ PrimFloat.eqb (NP.sum F)
         (Facts.carried [0; 10; 20] (Z.of_nat (100 / 80))
                        (Z.of_nat (100 / 80) + 1)
                        prev_node_force next_node_force)
       = true.
Proof.
  refine (two_span_force_vector_carries_the_load_away_from_centre
            (Example.bridge160 0) Example.bc160 100
            eq_refl eq_refl eq_refl _ _ eq_refl).
  - lia.
  - vm_compute. discriminate.
Defined.

(** ** The two sweeps do not touch each other's lines *)

Lemma K_loop_axial_lines (libm : Libm.t) (utils : Utils.t)
      (us : list (Z * Unit.t)) :
  forall (Kt Kt' : NP.tensor) (us' : list (Z * Unit.t)),
    Bridge.K_loop libm utils Kt us = Py.Ok (Kt', us') ->
    map (fun ku => (fst ku, Unit.axial_forces (snd ku))) us'
    = map (fun ku => (fst ku, Unit.axial_forces (snd ku))) us.
Proof.
  induction us as [| [k u] us IH]; intros Kt Kt' us' H.
  - inversion H; reflexivity.
  - cbn [Bridge.K_loop] in H.
    bind_inv H as [kij u1] Hk. bind_inv H as Kt1 Hu.
    bind_inv H as [Kt2 rest] Hrest.
    inversion H; subst. cbn [map fst snd].
    rewrite (kij_axial_forces _ _ _ _ Hk).
    rewrite (IH _ _ _ Hrest). reflexivity.
Qed.

Lemma reduced_K_frame (libm : Libm.t) (utils : Utils.t)
      (self self' : Bridge.t) (Kr : NP.matrix) :
  Bridge.reduced_K libm utils self = Py.Ok (Kr, self') ->
  Bridge.nodes self' = Bridge.nodes self
  /\ Facts.axial_lines self' = Facts.axial_lines self.
Proof.
  intros H. split; [exact (proj1 (reduced_K_fields _ _ _ _ _ H)) |].
  unfold Bridge.reduced_K in H.
  destruct (Bridge._reduced_K self) as [k|].
  - inversion H; subst. reflexivity.
  - bind_inv H as [Km s1] HK. bind_inv H as Kr' Hr. inversion H; subst.
    unfold Bridge.K in HK. destruct (Bridge._K self) as [k|].
    + inversion HK; subst. reflexivity.
    + bind_inv HK as n0 Hn. bind_inv HK as K0 H0.
      bind_inv HK as [Kt us] Hloop. bind_inv HK as Km' Hres.
      inversion HK; subst.
      unfold Facts.axial_lines. cbn [Bridge.units Bridge.set_reduced_K
                                     Bridge.set_K Bridge.set_units].
      exact (K_loop_axial_lines _ _ _ _ _ _ Hloop).
Qed.

Lemma moment_frame (libm : Libm.t) (utils : Utils.t)
      (inv : NP.matrix -> Py.result NP.matrix) (cls : Bridge.methods)
      (self self' : Bridge.t) (point : float) (D : NP.vec) :
  cls = Bridge_64.cls libm utils inv \/ cls = Bridge_160.cls libm utils inv ->
  Bridge.get_nodes_vdisps_moment cls self point = Py.Ok (D, self') ->
  Bridge.nodes self' = Bridge.nodes self
  /\ Facts.axial_lines self' = Facts.axial_lines self.
Proof.
  intros Hcls H.
  unfold Bridge.get_nodes_vdisps_moment in H.
  bind_inv H as idx Hidx. bind_inv H as on_node Htest.
  assert (Htwice : forall s s1 s2 Kr Kr2,
             Bridge.reduced_K libm utils s = Py.Ok (Kr, s1) ->
             Bridge.reduced_K libm utils s1 = Py.Ok (Kr2, s2) ->
             Bridge.nodes s2 = Bridge.nodes s
             /\ Facts.axial_lines s2 = Facts.axial_lines s).
  { intros s s1 s2 Kr Kr2 H1 H2.
    destruct (reduced_K_frame _ _ _ _ _ H1) as [Hn1 Hu1].
    destruct (reduced_K_frame _ _ _ _ _ H2) as [Hn2 Hu2].
    split; congruence. }
  destruct Hcls as [-> | ->]; destruct on_node;
    cbn [Bridge_64.cls Bridge_160.cls
         Bridge.get_nodes_vdisps_moment_on_nodes
         Bridge.get_nodes_vdisps_moment_between_nodes] in H.
  - unfold Bridge_64.get_nodes_vdisps_moment_on_nodes in H.
    bind_inv H as idx' Hidx'. bind_inv H as c Hc.
    bind_inv H as first Hf. bind_inv H as last Hl.
    destruct (Py.int_in c [first; last]).
    + bind_inv H as [Kr s1] HK. bind_inv H as D' HD. inversion H; subst.
      exact (reduced_K_frame _ _ _ _ _ HK).
    + bind_inv H as [Kr s1] HK. bind_inv H as F HF.
      bind_inv H as [Kr2 s2] HK2. bind_inv H as Kinv Hinv.
      bind_inv H as D' HD. inversion H; subst.
      exact (Htwice _ _ _ _ _ HK HK2).
  - unfold Bridge_64.get_nodes_vdisps_moment_between_nodes in H.
    bind_inv H as idx' Hidx'.
    bind_inv H as [Kr s1] HK. bind_inv H as F HF.
    bind_inv H as [Kr2 s2] HK2. bind_inv H as Kinv Hinv.
    bind_inv H as D' HD. inversion H; subst.
    exact (Htwice _ _ _ _ _ HK HK2).
  - unfold Bridge_160.get_nodes_vdisps_moment_on_nodes in H.
    bind_inv H as middle Hm. bind_inv H as idx' Hidx'. bind_inv H as c Hc.
    bind_inv H as first Hf. bind_inv H as last Hl.
    destruct (Py.int_in c [first; middle; last]).
    + bind_inv H as [Kr s1] HK. bind_inv H as D' HD. inversion H; subst.
      exact (reduced_K_frame _ _ _ _ _ HK).
    + bind_inv H as [Kr s1] HK. bind_inv H as F HF.
      bind_inv H as [Kr2 s2] HK2. bind_inv H as Kinv Hinv.
      bind_inv H as D' HD. inversion H; subst.
      exact (Htwice _ _ _ _ _ HK HK2).
  - unfold Bridge_160.get_nodes_vdisps_moment_between_nodes in H.
    bind_inv H as idx' Hidx'. bind_inv H as middle Hm.
    bind_inv H as lever Hlever.
    bind_inv H as [Kr s1] HK. bind_inv H as F HF.
    bind_inv H as [Kr2 s2] HK2. bind_inv H as Kinv Hinv.
    bind_inv H as D' HD. inversion H; subst.
    exact (Htwice _ _ _ _ _ HK HK2).
Qed.

Lemma save_keeps_units (libm : Libm.t) (utils : Utils.t)
      (inv : NP.matrix -> Py.result NP.matrix) (cls : Bridge.methods)
      (self self' : Bridge.t) (D : NP.vec) :
  cls = Bridge_64.cls libm utils inv \/ cls = Bridge_160.cls libm utils inv ->
  Bridge.save_nodes_vdisps_moment cls self D = Py.Ok self' ->
  Bridge.units self' = Bridge.units self.
Proof.
  intros [-> | ->] H;
    cbn [Bridge_64.cls Bridge_160.cls Bridge.save_nodes_vdisps_moment] in H.
  - unfold Bridge_64.save_nodes_vdisps_moment in H.
    bind_inv H as bc Hbc. bind_inv H as ns Hns. inversion H; reflexivity.
  - unfold Bridge_160.save_nodes_vdisps_moment in H.
    bind_inv H as bc Hbc. bind_inv H as middle Hm.
    bind_inv H as ns Hns. inversion H; reflexivity.
Qed.

Lemma nodes_vdisps_loop_axial_lines (libm : Libm.t) (utils : Utils.t)
      (inv : NP.matrix -> Py.result NP.matrix) (cls : Bridge.methods) :
  cls = Bridge_64.cls libm utils inv \/ cls = Bridge_160.cls libm utils inv ->
  forall (points : list float) (self self' : Bridge.t),
    Bridge.nodes_vdisps_loop cls self points = Py.Ok self' ->
    Facts.axial_lines self' = Facts.axial_lines self.
Proof.
  intros Hcls.
  induction points as [| point rest IH]; intros self self' H.
  - inversion H; reflexivity.
  - cbn [Bridge.nodes_vdisps_loop] in H.
    bind_inv H as [D s1] Hmoment. bind_inv H as s2 Hsave.
    rewrite (IH _ _ H).
    unfold Facts.axial_lines at 1.
    rewrite (save_keeps_units _ _ _ _ _ _ _ Hcls Hsave).
    exact (proj2 (moment_frame _ _ _ _ _ _ _ _ Hcls Hmoment)).
Qed.

Lemma units_axial_forces_loop_nodes (libm : Libm.t) (utils : Utils.t)
      (inv : NP.matrix -> Py.result NP.matrix) (cls : Bridge.methods) :
  cls = Bridge_64.cls libm utils inv \/ cls = Bridge_160.cls libm utils inv ->
  forall (points : list float) (self self' : Bridge.t),
    Bridge.units_axial_forces_loop cls self points = Py.Ok self' ->
    Bridge.nodes self' = Bridge.nodes self.
Proof.
  intros Hcls.
  induction points as [| point rest IH]; intros self self' H.
  - inversion H; reflexivity.
  - cbn [Bridge.units_axial_forces_loop] in H.
    bind_inv H as [fs s1] Hmoment.
    rewrite (IH _ _ H).
    unfold Bridge.get_units_axial_forces_moment in Hmoment.
    bind_inv Hmoment as [D s0] HD. bind_inv Hmoment as [fs0 us] Hus.
    inversion Hmoment; subst.
    cbn [Bridge.nodes Bridge.save_units_axial_forces_moment
         Bridge.set_units].
    exact (proj1 (moment_frame _ _ _ _ _ _ _ _ Hcls HD)).
Qed.

(** X20: for both profiles, the sweep that records the axial forces
    returns the nodes as they were, their recorded displacements
    included, and the sweep that records the displacements changes the
    recorded forces of no member, though both may fill the stiffness
    caches on the way. *)
Theorem sweeps_keep_each_others_lines :
  forall (libm : Libm.t) (utils : Utils.t)
         (inv : NP.matrix -> Py.result NP.matrix) (cls : Bridge.methods)
         (self : Bridge.t),
    cls = Bridge_64.cls libm utils inv
    \/ cls = Bridge_160.cls libm utils inv ->
    (forall self' : Bridge.t,
        Bridge.get_units_axial_forces cls self = Py.Ok self' ->
        Bridge.nodes self' = Bridge.nodes self)
    /\ (forall self' : Bridge.t,
           Bridge.get_nodes_vdisps cls self = Py.Ok self' ->
           Facts.axial_lines self' = Facts.axial_lines self).
Proof.
  intros libm utils inv cls self Hcls. split; intros self' H.
  - unfold Bridge.get_units_axial_forces in H.
    bind_inv H as axis Haxis.
    rewrite (units_axial_forces_loop_nodes _ _ _ _ Hcls _ _ _ H).
    reflexivity.
  - unfold Bridge.get_nodes_vdisps in H.
    bind_inv H as axis Haxis.
    rewrite (nodes_vdisps_loop_axial_lines _ _ _ _ Hcls _ _ _ H).
    reflexivity.
Qed.

(** The instance of X20 on the two sweeps of the single-span example. *)
Lemma sweeps_keep_each_others_lines_witness :
  Bridge.nodes Sweep.swept_units = Bridge.nodes (Example.bridge64 1)
  /\ Facts.axial_lines Sweep.swept_nodes
     = Facts.axial_lines (Example.bridge64 1).
Proof.
  assert (Hn : Bridge.get_nodes_vdisps Example.cls64 (Example.bridge64 1)
               = Py.Ok Sweep.swept_nodes) by (vm_compute; reflexivity).
  assert (Hu : Bridge.get_units_axial_forces Example.cls64
                                             (Example.bridge64 1)
               = Py.Ok Sweep.swept_units) by (vm_compute; reflexivity).
  destruct (sweeps_keep_each_others_lines
              Example.libm UtilsSpec.utils Example.inv
              Example.cls64 (Example.bridge64 1) (or_introl eq_refl))
    as [Hnodes Hunits].
  split; [exact (Hnodes _ Hu) | exact (Hunits _ Hn)].
Defined.

(** ** Counting the nodes *)

(** X21: the node count is taken once: after [n_nodes] has returned a
    count that is not zero, [load_nodes_coordinates] may add any nodes and
    [n_nodes] still returns the old count. *)
Theorem n_nodes_is_counted_once :
  forall (self self1 self2 : Bridge.t) (k : Z) (rows : list (list Z)),
    Bridge.n_nodes self = (k, self1) ->
    k <> 0 ->
    Bridge.load_nodes_coordinates self1 rows = Py.Ok self2 ->
    Bridge.n_nodes self2 = (k, self2).
Proof.
  intros self self1 self2 k rows Hn Hk Hload.
  assert (Hcache : Bridge._n_nodes self1 = Some k).
  { unfold Bridge.n_nodes in Hn.
    destruct (Bridge._n_nodes self) as [k0|] eqn:Hc.
    - destruct (Z.eqb_spec k0 0).
      + inversion Hn; subst. reflexivity.
      + inversion Hn; subst. exact Hc.
    - inversion Hn; subst. reflexivity. }
  unfold Bridge.load_nodes_coordinates in Hload.
  bind_inv Hload as ns Hns. inversion Hload; subst.
  unfold Bridge.n_nodes. cbn [Bridge._n_nodes Bridge.set_nodes].
  rewrite Hcache.
  destruct (Z.eqb_spec k 0); [contradiction | reflexivity].
Qed.

(** The instance of X21: two nodes are counted, a third is loaded, and the
    count is still 2. *)
Lemma n_nodes_is_counted_once_witness :
  exists self1 self2 : Bridge.t,
    Bridge.n_nodes
      (Bridge.set_nodes (Bridge.init (Some 64))
                        [(1, Node.init 1 (0, 0)); (2, Node.init 2 (8, 0))])
    = (2, self1)
    /\ Bridge.load_nodes_coordinates self1 [[3; 8; 11]] = Py.Ok self2
    /\ List.length (Bridge.nodes self2) = 3%nat
    /\ Bridge.n_nodes self2 = (2, self2).
Proof.
  eexists. eexists.
  split; [reflexivity |]. split; [reflexivity |]. split; [reflexivity |].
  refine (n_nodes_is_counted_once
            (Bridge.set_nodes
               (Bridge.init (Some 64))
               [(1, Node.init 1 (0, 0)); (2, Node.init 2 (8, 0))])
            _ _ 2 [[3; 8; 11]] eq_refl _ eq_refl).
  discriminate.
Defined.

(** ** The stiffness of the members after the assembly *)

Lemma kij_caches (libm : Libm.t) (u u' : Unit.t) (k : NP.matrix) :
  Unit.kij libm u = Py.Ok (k, u') -> Unit._kij u' = Some k.
Proof.
  unfold Unit.kij.
  destruct (Unit._kij u) as [k0|] eqn:Hc.
  - intros H; inversion H; subst. exact Hc.
  - intros H. bind_inv H as [a u1] Ha. bind_inv H as [l u2] Hl.
    bind_inv H as M HM. bind_inv H as [A u3] HA.
    destruct (Unit._E u3) as [E|]; [| discriminate].
    destruct (PrimFloat.eqb l 0); [discriminate |].
    inversion H; subst. reflexivity.
Qed.

Lemma K_loop_caches (libm : Libm.t) (utils : Utils.t)
      (us : list (Z * Unit.t)) :
  forall (Kt Kt' : NP.tensor) (us' : list (Z * Unit.t)),
    Bridge.K_loop libm utils Kt us = Py.Ok (Kt', us') ->
    Forall (fun ku => exists k : NP.matrix, Unit._kij (snd ku) = Some k) us'.
Proof.
  induction us as [| [k u] us IH]; intros Kt Kt' us' H.
  - inversion H; constructor.
  - cbn [Bridge.K_loop] in H.
    bind_inv H as [kij u1] Hk. bind_inv H as Kt1 Hu.
    bind_inv H as [Kt2 rest] Hrest.
    inversion H; subst.
    constructor; [| exact (IH _ _ _ Hrest)].
    exists kij. exact (kij_caches _ _ _ _ Hk).
Qed.

(** X22: a member keeps the stiffness it had when [K] was assembled:
    after [K] has been computed, every member of the bridge holds a
    matrix that its [kij] returns whatever modulus and section data it is
    given afterwards - the modulus that [load_params] writes into every
    member included. *)
Theorem members_keep_their_stiffness_after_assembly :
  forall (libm : Libm.t) (utils : Utils.t) (self self1 : Bridge.t)
         (Km : NP.matrix),
    Bridge._K self = None ->
    Bridge.K libm utils self = Py.Ok (Km, self1) ->
    Forall (fun ku =>
              exists k : NP.matrix,
                forall (E : option float) (dims : list float),
                  Unit.kij libm
                    (Unit.set_E (Unit.set_beam_section_data (snd ku) dims) E)
                  = Py.Ok (k, Unit.set_E
                                (Unit.set_beam_section_data (snd ku) dims) E))
           (Bridge.units self1)
    /\ forall E P h bc,
         List.length (Bridge.units (Bridge.load_params self1 E P h bc))
         = List.length (Bridge.units self1).
Proof.
  intros libm utils self self1 Km Hcache H.
  split.
  - unfold Bridge.K in H. rewrite Hcache in H.
    bind_inv H as n0 Hn. bind_inv H as K0 H0.
    bind_inv H as [Kt us] Hloop. bind_inv H as Km' Hres.
    inversion H; subst. cbn [Bridge.units Bridge.set_K Bridge.set_units].
    pose proof (K_loop_caches _ _ _ _ _ _ Hloop) as Hall.
    rewrite Forall_forall in *. intros ku Hin.
    destruct (Hall ku Hin) as [k Hk]. exists k. intros E dims.
    unfold Unit.kij.
    cbn [Unit._kij Unit.set_E Unit.set_beam_section_data].
    rewrite Hk. reflexivity.
  - intros E P h bc. cbn [Bridge.units Bridge.load_params].
    apply length_map.
Qed.

(** The instance of X22 on the two-node bridge of the example. *)
Lemma members_keep_their_stiffness_after_assembly_witness :
  exists (Km : NP.matrix) (self1 : Bridge.t),
    Bridge.K Example.libm UtilsSpec.utils Example.bad_bridge
    = Py.Ok (Km, self1)
    /\ Forall (fun ku =>
                 exists k : NP.matrix,
                   forall (E : option float) (dims : list float),
                     Unit.kij Example.libm
                       (Unit.set_E
                          (Unit.set_beam_section_data (snd ku) dims) E)
                     = Py.Ok (k, Unit.set_E
                                   (Unit.set_beam_section_data (snd ku) dims)
                                   E))
              (Bridge.units self1).
Proof.
  assert (H : exists (Km : NP.matrix) (self1 : Bridge.t),
             Bridge.K Example.libm UtilsSpec.utils Example.bad_bridge
             = Py.Ok (Km, self1))
    by (eexists; eexists; vm_compute; reflexivity).
  destruct H as [Km [self1 H]]. exists Km, self1.
  split; [exact H |].
  exact (proj1 (members_keep_their_stiffness_after_assembly
                  Example.libm UtilsSpec.utils Example.bad_bridge self1 Km
                  eq_refl H)).
Defined.

(** ** What the elif chains of the recovery cover *)

Lemma getitem_raises {A : Type} (l : list A) (i : Z) (e : Py.exn) :
  Py.getitem l i = Py.Raise e -> e = Py.IndexError.
Proof.
  unfold Py.getitem.
  destruct (_ && _).
  - destruct (nth_error l _); intros H; inversion H; reflexivity.
  - intros H; inversion H; reflexivity.
Qed.

Ltac read_or_IndexError H :=
  match type of H with
  | context [Py.getitem ?l ?i] =>
      let x := fresh "x" in
      let e := fresh "e" in
      let Hx := fresh "Hx" in
      destruct (Py.getitem l i) as [x | e] eqn:Hx;
      [cbn [Py.bind] in H
      | cbn [Py.bind] in H; apply getitem_raises in Hx; subst e;
        discriminate]
  end.

(** X23: the if/elif chain of [get_u_and_v] leaves no case out: in
    neither profile does the nested function end without having bound
    [u] and [v] - whatever the bridge, the node number and the vector, it
    never raises UnboundLocalError. *)
Theorem get_u_and_v_binds_u_and_v :
  forall (self : Bridge.t) (node_num : Z) (D : NP.vec),
    Bridge_64.get_u_and_v self node_num D
    <> Py.Raise Py.UnboundLocalError
    /\ Bridge_160.get_u_and_v self node_num D
       <> Py.Raise Py.UnboundLocalError.
Proof.
  intros self node_num D. split; intros H.
  - unfold Bridge_64.get_u_and_v in H.
    destruct (Bridge.bottom_chord_nodes_nums self) as [bc|];
      [| discriminate].
    cbn [Py.bind Py.getattr] in H.
    read_or_IndexError H. read_or_IndexError H.
    revert H. decide_comparisons; intros Hg; try discriminate; try lia.
    all: read_or_IndexError Hg; read_or_IndexError Hg; discriminate.
  - unfold Bridge_160.get_u_and_v in H.
    destruct (Bridge.bottom_chord_nodes_nums self) as [bc|];
      [| discriminate].
    cbn [Py.bind Py.getattr] in H.
    read_or_IndexError H. read_or_IndexError H. read_or_IndexError H.
    revert H. decide_comparisons; intros Hg; try discriminate; try lia.
    all: read_or_IndexError Hg; read_or_IndexError Hg; discriminate.
Qed.

(** ** Before [load_params] *)

(** X24: between [load_data] and [load_params] no sweep can start: on a
    new bridge that has only been loaded, both sweeps of every class
    raise AttributeError for [bottom_chord_nodes_indices], which only
    [load_params] creates. *)
Theorem sweeps_before_load_params_raise_AttributeError :
  forall (cls : Bridge.methods) (class_length : option Z)
         (node_rows unit_rows : list (list Z))
         (section_rows : list (Z * list float)) (b : Bridge.t),
    Bridge.load_data class_length (Bridge.init class_length)
                     node_rows unit_rows section_rows
    = Py.Ok b ->
    Bridge.get_nodes_vdisps cls b
    = Py.Raise (Py.AttributeError "bottom_chord_nodes_indices")
    /\ Bridge.get_units_axial_forces cls b
       = Py.Raise (Py.AttributeError "bottom_chord_nodes_indices").
Proof.
  intros cls cl nr ur sr b H.
  destruct (load_data_fields _ _ _ _ _ _ H) as [ns [us [-> _]]].
  split; reflexivity.
Qed.

(** The instance of X24 on the example's files. *)
Lemma sweeps_before_load_params_raise_AttributeError_witness :
  exists b : Bridge.t,
    Bridge.load_data (Some 64) (Bridge.init (Some 64)) Facts.node_rows
                     Facts.unit_rows Facts.section_rows
    = Py.Ok b
    /\ Bridge.get_nodes_vdisps Example.cls64 b
       = Py.Raise (Py.AttributeError "bottom_chord_nodes_indices").
Proof.
  assert (H : exists b : Bridge.t,
             Bridge.load_data (Some 64) (Bridge.init (Some 64))
                              Facts.node_rows Facts.unit_rows
                              Facts.section_rows
             = Py.Ok b)
    by (eexists; vm_compute; reflexivity).
  destruct H as [b H]. exists b. split; [exact H |].
  exact (proj1 (sweeps_before_load_params_raise_AttributeError
                  Example.cls64 (Some 64) Facts.node_rows Facts.unit_rows
                  Facts.section_rows b H)).
Defined.

(** ** The influence lines after the sweeps (C9) *)

Lemma same_structure_refl (b : Bridge.t) : Facts.same_structure b b.
Proof. repeat split. Qed.

Lemma same_structure_trans (b1 b2 b3 : Bridge.t) :
  Facts.same_structure b1 b2 -> Facts.same_structure b2 b3 ->
  Facts.same_structure b1 b3.
Proof.
  unfold Facts.same_structure.
  intros [A1 [A2 [A3 [A4 A5]]]] [B1 [B2 [B3 [B4 B5]]]].
  repeat split; congruence.
Qed.

Lemma same_member_id (k : Z) (u u' : Unit.t) :
  Facts.same_member u u' -> Facts.unit_id (k, u') = Facts.unit_id (k, u).
Proof.
  intros [H1 [H2 [H3 [H4 _]]]]. unfold Facts.unit_id. cbn [fst snd].
  rewrite H1, H2, H3, H4. reflexivity.
Qed.

Lemma K_loop_ids (libm : Libm.t) (utils : Utils.t) (us : list (Z * Unit.t)) :
  forall (Kt Kt' : NP.tensor) (us' : list (Z * Unit.t)),
    Bridge.K_loop libm utils Kt us = Py.Ok (Kt', us') ->
    map Facts.unit_id us' = map Facts.unit_id us.
Proof.
  induction us as [| [k u] us IH]; intros Kt Kt' us' H.
  - inversion H; reflexivity.
  - cbn [Bridge.K_loop] in H.
    bind_inv H as [kij u1] Hk. bind_inv H as Kt1 Hu.
    bind_inv H as [Kt2 rest] Hrest.
    inversion H; subst. cbn [map].
    rewrite (same_member_id k u u1 (kij_same_member _ _ _ _ Hk)).
    rewrite (IH _ _ _ Hrest). reflexivity.
Qed.

Lemma reduced_K_same_structure (libm : Libm.t) (utils : Utils.t)
      (self self' : Bridge.t) (Kr : NP.matrix) :
  Bridge.reduced_K libm utils self = Py.Ok (Kr, self') ->
  Facts.same_structure self self'.
Proof.
  intros H.
  destruct (reduced_K_fields _ _ _ _ _ H) as [Hn [Hnums [Hidx [_ [Hlen _]]]]].
  unfold Facts.same_structure, Facts.node_ids. rewrite Hn.
  split; [reflexivity |]. split; [| repeat split; assumption].
  unfold Bridge.reduced_K in H.
  destruct (Bridge._reduced_K self) as [k|].
  - inversion H; subst. reflexivity.
  - bind_inv H as [Km s1] HK. bind_inv H as Kr' Hr. inversion H; subst.
    unfold Bridge.K in HK. destruct (Bridge._K self) as [k|].
    + inversion HK; subst. reflexivity.
    + bind_inv HK as n0 Hn0. bind_inv HK as K0 H0.
      bind_inv HK as [Kt us] Hloop. bind_inv HK as Km' Hres.
      inversion HK; subst.
      unfold Facts.unit_ids. cbn [Bridge.units Bridge.set_reduced_K
                                  Bridge.set_K Bridge.set_units].
      exact (K_loop_ids _ _ _ _ _ _ Hloop).
Qed.

Lemma moment_same_structure (libm : Libm.t) (utils : Utils.t)
      (inv : NP.matrix -> Py.result NP.matrix) (cls : Bridge.methods)
      (self self' : Bridge.t) (point : float) (D : NP.vec) :
  cls = Bridge_64.cls libm utils inv \/ cls = Bridge_160.cls libm utils inv ->
  Bridge.get_nodes_vdisps_moment cls self point = Py.Ok (D, self') ->
  Facts.same_structure self self'.
Proof.
  intros Hcls H.
  unfold Bridge.get_nodes_vdisps_moment in H.
  bind_inv H as idx Hidx. bind_inv H as on_node Htest.
  assert (Htwice : forall s s1 s2 Kr Kr2,
             Bridge.reduced_K libm utils s = Py.Ok (Kr, s1) ->
             Bridge.reduced_K libm utils s1 = Py.Ok (Kr2, s2) ->
             Facts.same_structure s s2).
  { intros s s1 s2 Kr Kr2 H1 H2.
    exact (same_structure_trans _ _ _
             (reduced_K_same_structure _ _ _ _ _ H1)
             (reduced_K_same_structure _ _ _ _ _ H2)). }
  destruct Hcls as [-> | ->]; destruct on_node;
    cbn [Bridge_64.cls Bridge_160.cls
         Bridge.get_nodes_vdisps_moment_on_nodes
         Bridge.get_nodes_vdisps_moment_between_nodes] in H.
  - unfold Bridge_64.get_nodes_vdisps_moment_on_nodes in H.
    bind_inv H as idx' Hidx'. bind_inv H as c Hc.
    bind_inv H as first Hf. bind_inv H as last Hl.
    destruct (Py.int_in c [first; last]).
    + bind_inv H as [Kr s1] HK. bind_inv H as D' HD. inversion H; subst.
      exact (reduced_K_same_structure _ _ _ _ _ HK).
    + bind_inv H as [Kr s1] HK. bind_inv H as F HF.
      bind_inv H as [Kr2 s2] HK2. bind_inv H as Kinv Hinv.
      bind_inv H as D' HD. inversion H; subst.
      exact (Htwice _ _ _ _ _ HK HK2).
  - unfold Bridge_64.get_nodes_vdisps_moment_between_nodes in H.
    bind_inv H as idx' Hidx'.
    bind_inv H as [Kr s1] HK. bind_inv H as F HF.
    bind_inv H as [Kr2 s2] HK2. bind_inv H as Kinv Hinv.
    bind_inv H as D' HD. inversion H; subst.
    exact (Htwice _ _ _ _ _ HK HK2).
  - unfold Bridge_160.get_nodes_vdisps_moment_on_nodes in H.
    bind_inv H as middle Hm. bind_inv H as idx' Hidx'. bind_inv H as c Hc.
    bind_inv H as first Hf. bind_inv H as last Hl.
    destruct (Py.int_in c [first; middle; last]).
    + bind_inv H as [Kr s1] HK. bind_inv H as D' HD. inversion H; subst.
      exact (reduced_K_same_structure _ _ _ _ _ HK).
    + bind_inv H as [Kr s1] HK. bind_inv H as F HF.
      bind_inv H as [Kr2 s2] HK2. bind_inv H as Kinv Hinv.
      bind_inv H as D' HD. inversion H; subst.
      exact (Htwice _ _ _ _ _ HK HK2).
  - unfold Bridge_160.get_nodes_vdisps_moment_between_nodes in H.
    bind_inv H as idx' Hidx'. bind_inv H as middle Hm.
    bind_inv H as lever Hlever.
    bind_inv H as [Kr s1] HK. bind_inv H as F HF.
    bind_inv H as [Kr2 s2] HK2. bind_inv H as Kinv Hinv.
    bind_inv H as D' HD. inversion H; subst.
    exact (Htwice _ _ _ _ _ HK HK2).
Qed.

Lemma save_loop_64_ids (bc : list Z) (D : NP.vec) (ns : list (Z * Node.t)) :
  forall ns' : list (Z * Node.t),
    Bridge_64.save_loop bc D ns = Py.Ok ns' ->
    map Facts.node_id ns' = map Facts.node_id ns.
Proof.
  induction ns as [| [k nd] ns IH]; intros ns' H.
  - inversion H; reflexivity.
  - cbn [Bridge_64.save_loop] in H.
    bind_inv H as first Hf. bind_inv H as last Hl. bind_inv H as v Hv.
    bind_inv H as rest Hrest. inversion H; subst.
    cbn [map]. rewrite (IH _ Hrest). reflexivity.
Qed.

Lemma save_loop_160_ids (bc : list Z) (middle : Z) (D : NP.vec)
      (ns : list (Z * Node.t)) :
  forall ns' : list (Z * Node.t),
    Bridge_160.save_loop bc middle D ns = Py.Ok ns' ->
    map Facts.node_id ns' = map Facts.node_id ns.
Proof.
  induction ns as [| [k nd] ns IH]; intros ns' H.
  - inversion H; reflexivity.
  - cbn [Bridge_160.save_loop] in H.
    bind_inv H as first Hf. bind_inv H as last Hl. bind_inv H as v Hv.
    bind_inv H as rest Hrest. inversion H; subst.
    cbn [map]. rewrite (IH _ Hrest). reflexivity.
Qed.

Lemma save_same_structure (libm : Libm.t) (utils : Utils.t)
      (inv : NP.matrix -> Py.result NP.matrix) (cls : Bridge.methods)
      (self self' : Bridge.t) (D : NP.vec) :
  cls = Bridge_64.cls libm utils inv \/ cls = Bridge_160.cls libm utils inv ->
  Bridge.save_nodes_vdisps_moment cls self D = Py.Ok self' ->
  Facts.same_structure self self'.
Proof.
  intros [-> | ->] H;
    cbn [Bridge_64.cls Bridge_160.cls Bridge.save_nodes_vdisps_moment] in H.
  - unfold Bridge_64.save_nodes_vdisps_moment in H.
    bind_inv H as bc Hbc. bind_inv H as ns Hns. inversion H; subst.
    unfold Facts.same_structure, Facts.node_ids.
    cbn [Bridge.nodes Bridge.set_nodes].
    rewrite (save_loop_64_ids _ _ _ _ Hns). repeat split.
  - unfold Bridge_160.save_nodes_vdisps_moment in H.
    bind_inv H as bc Hbc. bind_inv H as middle Hm.
    bind_inv H as ns Hns. inversion H; subst.
    unfold Facts.same_structure, Facts.node_ids.
    cbn [Bridge.nodes Bridge.set_nodes].
    rewrite (save_loop_160_ids _ _ _ _ _ Hns). repeat split.
Qed.

Lemma nodes_vdisps_loop_same_structure (libm : Libm.t) (utils : Utils.t)
      (inv : NP.matrix -> Py.result NP.matrix) (cls : Bridge.methods) :
  cls = Bridge_64.cls libm utils inv \/ cls = Bridge_160.cls libm utils inv ->
  forall (points : list float) (self self' : Bridge.t),
    Bridge.nodes_vdisps_loop cls self points = Py.Ok self' ->
    Facts.same_structure self self'.
Proof.
  intros Hcls.
  induction points as [| point rest IH]; intros self self' H.
  - inversion H; subst. apply same_structure_refl.
  - cbn [Bridge.nodes_vdisps_loop] in H.
    bind_inv H as [D s1] Hmoment. bind_inv H as s2 Hsave.
    apply (same_structure_trans _ _ _
             (moment_same_structure _ _ _ _ _ _ _ _ Hcls Hmoment)).
    apply (same_structure_trans _ _ _
             (save_same_structure _ _ _ _ _ _ _ Hcls Hsave)).
    exact (IH _ _ H).
Qed.

Lemma nodes_vdisps_init_same_structure (self : Bridge.t) :
  Facts.same_structure self (Bridge.nodes_vdisps_init self).
Proof.
  unfold Facts.same_structure, Facts.node_ids, Bridge.nodes_vdisps_init.
  cbn [Bridge.nodes Bridge.set_nodes]. rewrite map_map.
  repeat split.
Qed.

Lemma units_axial_forces_init_same_structure (self : Bridge.t) :
  Facts.same_structure self (Bridge.units_axial_forces_init self).
Proof.
  unfold Facts.same_structure, Facts.unit_ids, Bridge.units_axial_forces_init.
  cbn [Bridge.units Bridge.set_units]. rewrite map_map.
  repeat split.
Qed.

Lemma one_unit_same_member (libm : Libm.t) (utils : Utils.t)
      (inv : NP.matrix -> Py.result NP.matrix) (cls : Bridge.methods)
      (self : Bridge.t) (u u' : Unit.t) (D : NP.vec) (f : float) :
  cls = Bridge_64.cls libm utils inv \/ cls = Bridge_160.cls libm utils inv ->
  Bridge.get_one_unit_axial_force_moment cls self u D = Py.Ok (f, u') ->
  Facts.same_member u u'.
Proof.
  intros [-> | ->] H;
    cbn [Bridge_64.cls Bridge_160.cls
         Bridge.get_one_unit_axial_force_moment] in H.
  - unfold Bridge_64.get_one_unit_axial_force_moment in H.
    bind_inv H as [ui vi] Hi. bind_inv H as [uj vj] Hj.
    exact (axial_force_same_member _ _ _ _ _ _ _ _ _ H).
  - unfold Bridge_160.get_one_unit_axial_force_moment in H.
    bind_inv H as [ui vi] Hi. bind_inv H as [uj vj] Hj.
    exact (axial_force_same_member _ _ _ _ _ _ _ _ _ H).
Qed.

Lemma units_loop_ids (libm : Libm.t) (utils : Utils.t)
      (inv : NP.matrix -> Py.result NP.matrix) (cls : Bridge.methods)
      (self : Bridge.t) (D : NP.vec) :
  cls = Bridge_64.cls libm utils inv \/ cls = Bridge_160.cls libm utils inv ->
  forall (us us' : list (Z * Unit.t)) (fs : list float),
    Bridge.units_loop cls self us D = Py.Ok (fs, us') ->
    map Facts.unit_id us' = map Facts.unit_id us.
Proof.
  intros Hcls.
  induction us as [|[k u] rest IH]; intros us' fs H.
  - inversion H; reflexivity.
  - cbn [Bridge.units_loop] in H.
    bind_inv H as [f u'] Hf. bind_inv H as [fs0 rest'] Hrest.
    inversion H; subst. cbn [map].
    rewrite (same_member_id k u u'
               (one_unit_same_member _ _ _ _ _ _ _ _ _ Hcls Hf)).
    rewrite (IH _ _ Hrest). reflexivity.
Qed.

Lemma save_units_loop_ids (us : list (Z * Unit.t)) :
  forall fs : list float,
    map Facts.unit_id (Bridge.save_units_loop us fs) = map Facts.unit_id us.
Proof.
  induction us as [|[k u] rest IH]; intros [|f fs]; try reflexivity.
  cbn [Bridge.save_units_loop map]. rewrite IH. reflexivity.
Qed.

Lemma units_axial_forces_loop_same_structure
      (libm : Libm.t) (utils : Utils.t)
      (inv : NP.matrix -> Py.result NP.matrix) (cls : Bridge.methods) :
  cls = Bridge_64.cls libm utils inv \/ cls = Bridge_160.cls libm utils inv ->
  forall (points : list float) (self self' : Bridge.t),
    Bridge.units_axial_forces_loop cls self points = Py.Ok self' ->
    Facts.same_structure self self'.
Proof.
  intros Hcls.
  induction points as [| point rest IH]; intros self self' H.
  - inversion H; subst. apply same_structure_refl.
  - cbn [Bridge.units_axial_forces_loop] in H.
    bind_inv H as [fs s1] Hmoment.
    refine (same_structure_trans _ _ _ _ (IH _ _ H)).
    unfold Bridge.get_units_axial_forces_moment in Hmoment.
    bind_inv Hmoment as [D s0] HD. bind_inv Hmoment as [fs0 us] Hus.
    inversion Hmoment; subst.
    refine (same_structure_trans
              _ _ _ (moment_same_structure _ _ _ _ _ _ _ _ Hcls HD) _).
    unfold Facts.same_structure, Facts.unit_ids.
    cbn [Bridge.units Bridge.save_units_axial_forces_moment
         Bridge.set_units].
    rewrite save_units_loop_ids.
    rewrite (units_loop_ids _ _ _ _ _ _ Hcls _ _ _ Hus).
    repeat split.
Qed.

Lemma get_nodes_vdisps_same_structure (libm : Libm.t) (utils : Utils.t)
      (inv : NP.matrix -> Py.result NP.matrix) (cls : Bridge.methods)
      (self self' : Bridge.t) :
  cls = Bridge_64.cls libm utils inv \/ cls = Bridge_160.cls libm utils inv ->
  Bridge.get_nodes_vdisps cls self = Py.Ok self' ->
  Facts.same_structure self self'.
Proof.
  intros Hcls H. unfold Bridge.get_nodes_vdisps in H.
  bind_inv H as axis Haxis.
  exact (same_structure_trans
           _ _ _ (nodes_vdisps_init_same_structure self)
           (nodes_vdisps_loop_same_structure _ _ _ _ Hcls _ _ _ H)).
Qed.

Lemma get_units_axial_forces_same_structure
      (libm : Libm.t) (utils : Utils.t)
      (inv : NP.matrix -> Py.result NP.matrix) (cls : Bridge.methods)
      (self self' : Bridge.t) :
  cls = Bridge_64.cls libm utils inv \/ cls = Bridge_160.cls libm utils inv ->
  Bridge.get_units_axial_forces cls self = Py.Ok self' ->
  Facts.same_structure self self'.
Proof.
  intros Hcls H. unfold Bridge.get_units_axial_forces in H.
  bind_inv H as axis Haxis.
  exact (same_structure_trans
           _ _ _ (units_axial_forces_init_same_structure self)
           (units_axial_forces_loop_same_structure _ _ _ _ Hcls _ _ _ H)).
Qed.

(** The sweep of the forces returns the nodes as they were, and the sweep
    of the displacements the recorded forces as they were. *)
Lemma get_units_axial_forces_nodes (libm : Libm.t) (utils : Utils.t)
      (inv : NP.matrix -> Py.result NP.matrix) (cls : Bridge.methods)
      (self self' : Bridge.t) :
  cls = Bridge_64.cls libm utils inv \/ cls = Bridge_160.cls libm utils inv ->
  Bridge.get_units_axial_forces cls self = Py.Ok self' ->
  Bridge.nodes self' = Bridge.nodes self.
Proof.
  intros Hcls H. unfold Bridge.get_units_axial_forces in H.
  bind_inv H as axis Haxis.
  rewrite (units_axial_forces_loop_nodes _ _ _ _ Hcls _ _ _ H).
  reflexivity.
Qed.

Lemma get_nodes_vdisps_axial_lines (libm : Libm.t) (utils : Utils.t)
      (inv : NP.matrix -> Py.result NP.matrix) (cls : Bridge.methods)
      (self self' : Bridge.t) :
  cls = Bridge_64.cls libm utils inv \/ cls = Bridge_160.cls libm utils inv ->
  Bridge.get_nodes_vdisps cls self = Py.Ok self' ->
  Facts.axial_lines self' = Facts.axial_lines self.
Proof.
  intros Hcls H. unfold Bridge.get_nodes_vdisps in H.
  bind_inv H as axis Haxis.
  rewrite (nodes_vdisps_loop_axial_lines _ _ _ _ Hcls _ _ _ H).
  reflexivity.
Qed.

Lemma axial_lines_Forall (b b' : Bridge.t) (Q : list float -> Prop) :
  Facts.axial_lines b' = Facts.axial_lines b ->
  Forall (fun ku => Q (Unit.axial_forces (snd ku))) (Bridge.units b) ->
  Forall (fun ku => Q (Unit.axial_forces (snd ku))) (Bridge.units b').
Proof.
  unfold Facts.axial_lines. intros Heq Hall.
  rewrite Forall_forall in *. intros ku Hin.
  assert (Hp : In (fst ku, Unit.axial_forces (snd ku))
                  (map (fun ku => (fst ku, Unit.axial_forces (snd ku)))
                       (Bridge.units b')))
    by (apply (in_map (fun ku => (fst ku, Unit.axial_forces (snd ku))));
        exact Hin).
  rewrite Heq in Hp. apply in_map_iff in Hp.
  destruct Hp as [ku0 [Heq0 Hin0]]. injection Heq0 as Hk Hl.
  specialize (Hall ku0 Hin0). cbn beta in Hall. rewrite Hl in Hall.
  exact Hall.
Qed.

(** C9: for either profile, with the bottom chord laid out over the span
    (9 nodes for the span of 64, 21 for the span of 160, 8 units apart),
    the sweeps leave one sample per load position, [floor(span_length /
    0.1) + 1] of them, 641 for the span of 64, on the structure they were
    given - the same nodes and the same members, key by key:
    - when [get_nodes_vdisps] returns, the line of every node has that
      many samples, and the recorded forces of the members are as they
      were;
    - when [get_units_axial_forces] returns, the line of every member has
      that many samples, and the nodes are as they were;
    - when both have returned, in either order, the line of every node
      and the line of every member have that many samples in one and the
      same bridge. *)
Theorem influence_lines_have_one_sample_per_position :
  forall (libm : Libm.t) (utils : Utils.t)
         (inv : NP.matrix -> Py.result NP.matrix)
         (cls : Bridge.methods) (self : Bridge.t) (nb : nat) (span : Z),
    cls = Bridge_64.cls libm utils inv \/ cls = Bridge_160.cls libm utils inv ->
    Bridge.bottom_chord_nodes_indices self = Some (Py.range nb) ->
    Bridge.length self = Some span ->
    span = 64 \/ span = 160 ->
    (Z.of_nat nb - 1) * 8 = span ->
    (forall self' : Bridge.t,
        Bridge.get_nodes_vdisps cls self = Py.Ok self' ->
        Forall (fun kn =>
                  Sweep.spec_position_count span
                  = Py.Ok (Z.of_nat (List.length (Node.vdisps (snd kn)))))
               (Bridge.nodes self')
        /\ Facts.node_ids self' = Facts.node_ids self
        /\ Facts.unit_ids self' = Facts.unit_ids self
        /\ Facts.axial_lines self' = Facts.axial_lines self)
    /\ (forall self' : Bridge.t,
           Bridge.get_units_axial_forces cls self = Py.Ok self' ->
           Forall (fun ku =>
                     Sweep.spec_position_count span
                     = Py.Ok (Z.of_nat (List.length
                                          (Unit.axial_forces (snd ku)))))
                  (Bridge.units self')
           /\ Facts.unit_ids self' = Facts.unit_ids self
           /\ Bridge.nodes self' = Bridge.nodes self)
    /\ (forall s1 s2 : Bridge.t,
           (Bridge.get_nodes_vdisps cls self = Py.Ok s1
            /\ Bridge.get_units_axial_forces cls s1 = Py.Ok s2)
           \/ (Bridge.get_units_axial_forces cls self = Py.Ok s1
               /\ Bridge.get_nodes_vdisps cls s1 = Py.Ok s2) ->
           Forall (fun kn =>
                     Sweep.spec_position_count span
                     = Py.Ok (Z.of_nat (List.length (Node.vdisps (snd kn)))))
                  (Bridge.nodes s2)
           /\ Forall (fun ku =>
                        Sweep.spec_position_count span
                        = Py.Ok (Z.of_nat (List.length
                                             (Unit.axial_forces (snd ku)))))
                     (Bridge.units s2)
           /\ Facts.node_ids s2 = Facts.node_ids self
           /\ Facts.unit_ids s2 = Facts.unit_ids self)
    /\ Sweep.spec_position_count 64 = Py.Ok 641.
Proof.
  intros libm utils inv cls self nb span Hcls Hidx Hlength Hspan Hlayout.
  assert (Hkeeps : Sweep.keeps_lines cls).
  { destruct Hcls as [-> | ->];
      [apply Bridge_64_keeps_lines | apply Bridge_160_keeps_lines]. }
  assert (Hnb : (nb = 9 \/ nb = 21)%nat) by lia.
  assert (Hcount : Sweep.spec_position_count span
                   = Py.Ok (Z.of_nat (List.length
                                        (map Sweep.position
                                             (seq 0 (Sweep.count nb)))))).
  { rewrite length_map, length_seq.
    destruct Hspan as [-> | ->]; destruct Hnb as [-> | ->];
      try (exfalso; lia); vm_compute; reflexivity. }
  assert (Hnodes : forall s s' : Bridge.t,
             Bridge.bottom_chord_nodes_indices s = Some (Py.range nb) ->
             Bridge.get_nodes_vdisps cls s = Py.Ok s' ->
             Forall (fun kn =>
                       Sweep.spec_position_count span
                       = Py.Ok (Z.of_nat
                                  (List.length (Node.vdisps (snd kn)))))
                    (Bridge.nodes s')).
  { intros s s' Hs H.
    pose proof (bc_axis_positions s nb Hnb Hs) as Haxis.
    pose proof (get_nodes_vdisps_lens cls s s' _ Hkeeps Haxis H) as Hall.
    eapply Forall_impl; [| exact Hall].
    intros kn Hkn. cbn beta in Hkn. rewrite Hkn. exact Hcount. }
  assert (Hunits : forall s s' : Bridge.t,
             Bridge.bottom_chord_nodes_indices s = Some (Py.range nb) ->
             Bridge.get_units_axial_forces cls s = Py.Ok s' ->
             Forall (fun ku =>
                       Sweep.spec_position_count span
                       = Py.Ok (Z.of_nat
                                  (List.length
                                     (Unit.axial_forces (snd ku)))))
                    (Bridge.units s')).
  { intros s s' Hs H.
    pose proof (bc_axis_positions s nb Hnb Hs) as Haxis.
    pose proof (get_units_axial_forces_lens cls s s' _ Hkeeps Haxis H)
      as Hall.
    eapply Forall_impl; [| exact Hall].
    intros ku Hku. cbn beta in Hku. rewrite Hku. exact Hcount. }
  split; [| split; [| split; [| reflexivity]]].
  - intros self' H.
    destruct (get_nodes_vdisps_same_structure _ _ _ _ _ _ Hcls H)
      as [Hn [Hu _]].
    split; [exact (Hnodes _ _ Hidx H) |].
    split; [exact Hn |]. split; [exact Hu |].
    exact (get_nodes_vdisps_axial_lines _ _ _ _ _ _ Hcls H).
  - intros self' H.
    destruct (get_units_axial_forces_same_structure _ _ _ _ _ _ Hcls H)
      as [_ [Hu _]].
    split; [exact (Hunits _ _ Hidx H) |].
    split; [exact Hu |].
    exact (get_units_axial_forces_nodes _ _ _ _ _ _ Hcls H).
  - intros s1 s2 [[H1 H2] | [H1 H2]].
    + pose proof (get_nodes_vdisps_same_structure _ _ _ _ _ _ Hcls H1)
        as Hs1.
      pose proof (get_units_axial_forces_same_structure _ _ _ _ _ _ Hcls H2)
        as Hs2.
      destruct (same_structure_trans _ _ _ Hs1 Hs2) as [Hn [Hu _]].
      destruct Hs1 as [_ [_ [Hidx1 _]]].
      split.
      * rewrite (get_units_axial_forces_nodes _ _ _ _ _ _ Hcls H2).
        exact (Hnodes _ _ Hidx H1).
      * split; [| split; assumption].
        apply (Hunits s1 s2); [congruence | exact H2].
    + pose proof (get_units_axial_forces_same_structure _ _ _ _ _ _ Hcls H1)
        as Hs1.
      pose proof (get_nodes_vdisps_same_structure _ _ _ _ _ _ Hcls H2)
        as Hs2.
      destruct (same_structure_trans _ _ _ Hs1 Hs2) as [Hn [Hu _]].
      destruct Hs1 as [_ [_ [Hidx1 _]]].
      split.
      * apply (Hnodes s1 s2); [congruence | exact H2].
      * split; [| split; assumption].
        apply (axial_lines_Forall
                 s1 s2
                 (fun l => Sweep.spec_position_count span
                           = Py.Ok (Z.of_nat (List.length l)))).
        -- exact (get_nodes_vdisps_axial_lines _ _ _ _ _ _ Hcls H2).
        -- exact (Hunits _ _ Hidx H1).
Qed.

(** The instance of C9 on the example: both sweeps return, alone and one
    after the other, and every influence line has 641 samples. *)
Lemma influence_lines_have_one_sample_per_position_witness :
  Bridge.get_nodes_vdisps Example.cls64 (Example.bridge64 1)
  = Py.Ok Sweep.swept_nodes
  /\ Bridge.get_units_axial_forces Example.cls64 (Example.bridge64 1)
     = Py.Ok Sweep.swept_units
  /\ Forall (fun kn =>
               Sweep.spec_position_count 64
               = Py.Ok (Z.of_nat (List.length (Node.vdisps (snd kn)))))
            (Bridge.nodes Sweep.swept_nodes)
  /\ Forall (fun ku =>
               Sweep.spec_position_count 64
               = Py.Ok (Z.of_nat (List.length (Unit.axial_forces (snd ku)))))
            (Bridge.units Sweep.swept_units)
  /\ Sweep.spec_position_count 64 = Py.Ok 641
  /\ Bridge.get_units_axial_forces Example.cls64 Sweep.swept_nodes
     = Py.Ok Facts.swept_nodes_then_units
  /\ Bridge.get_nodes_vdisps Example.cls64 Sweep.swept_units
     = Py.Ok Facts.swept_units_then_nodes
  /\ (Forall (fun kn =>
                Sweep.spec_position_count 64
                = Py.Ok (Z.of_nat (List.length (Node.vdisps (snd kn)))))
             (Bridge.nodes Facts.swept_nodes_then_units)
      /\ Forall (fun ku =>
                   Sweep.spec_position_count 64
                   = Py.Ok (Z.of_nat (List.length
                                        (Unit.axial_forces (snd ku)))))
                (Bridge.units Facts.swept_nodes_then_units)
      /\ Facts.node_ids Facts.swept_nodes_then_units
         = Facts.node_ids (Example.bridge64 1)
      /\ Facts.unit_ids Facts.swept_nodes_then_units
         = Facts.unit_ids (Example.bridge64 1))
  /\ (Forall (fun kn =>
                Sweep.spec_position_count 64
                = Py.Ok (Z.of_nat (List.length (Node.vdisps (snd kn)))))
             (Bridge.nodes Facts.swept_units_then_nodes)
      /\ Forall (fun ku =>
                   Sweep.spec_position_count 64
                   = Py.Ok (Z.of_nat (List.length
                                        (Unit.axial_forces (snd ku)))))
                (Bridge.units Facts.swept_units_then_nodes)
      /\ Facts.node_ids Facts.swept_units_then_nodes
         = Facts.node_ids (Example.bridge64 1)
      /\ Facts.unit_ids Facts.swept_units_then_nodes
         = Facts.unit_ids (Example.bridge64 1)).
Proof.
  assert (Hn : Bridge.get_nodes_vdisps Example.cls64 (Example.bridge64 1)
               = Py.Ok Sweep.swept_nodes) by (vm_compute; reflexivity).
  assert (Hu : Bridge.get_units_axial_forces Example.cls64
                                             (Example.bridge64 1)
               = Py.Ok Sweep.swept_units) by (vm_compute; reflexivity).
  assert (Hnu : Bridge.get_units_axial_forces Example.cls64 Sweep.swept_nodes
                = Py.Ok Facts.swept_nodes_then_units)
    by (vm_compute; reflexivity).
  assert (Hun : Bridge.get_nodes_vdisps Example.cls64 Sweep.swept_units
                = Py.Ok Facts.swept_units_then_nodes)
    by (vm_compute; reflexivity).
  destruct (influence_lines_have_one_sample_per_position
              Example.libm UtilsSpec.utils Example.inv
              Example.cls64 (Example.bridge64 1) 9 64
              (or_introl eq_refl) eq_refl eq_refl (or_introl eq_refl) eq_refl)
    as [Hnodes [Hunits [Hboth H641]]].
  split; [exact Hn |]. split; [exact Hu |].
  split; [exact (proj1 (Hnodes _ Hn)) |].
  split; [exact (proj1 (Hunits _ Hu)) |].
  split; [exact H641 |].
  split; [exact Hnu |]. split; [exact Hun |].
  split.
  - exact (Hboth _ _ (or_introl (conj Hn Hnu))).
  - exact (Hboth _ _ (or_intror (conj Hu Hun))).
Defined.
